(** * Recruitment pipeline: candidate records, stage registry and their HTTP handlers

    A shallow embedding of the server side of the recruitment tracker:

    - [backend/models/Candidate.js]: the candidate schema and its methods
      ([addHistoryEntry], [addComment], [updateStage], [archive],
      [unarchive], the [pre('save')] hook);
    - [backend/models/Organization.js]: the stage sub-schema, the default
      stage list and the methods [addStage], [reorderStages],
      [canAddCandidate];
    - the candidates router (list, get, create, update, stage, comments,
      delete, archive), the settings router (stage add / update / delete /
      reorder) and the files router (the upload filter, the resume and
      test-result uploads, the delete of a file).

    Conventions of the embedding.

    - A collection is the list of its documents; [findOne] returns the first
      document that satisfies the filter and [save] rewrites the document
      of the same [_id].
    - [new Date()] is the [now] carried by the request; a generated
      [ObjectId] is the [freshId] carried by the request.
    - An [async] method is a function from the database to an outcome and
      a database; a rejected promise is [Thrown], and the [try]/[catch] of
      a handler turns it into the 500 answer of that handler.
    - [save] runs the [pre('save')] hook of the schema and writes.  The
      declarative validators of the schema paths ([required], [enum],
      [min]/[max], [match]) are not run by this model; the setters
      ([trim], [lowercase]) and the defaults are.
    - Logging, socket emission, [populate] and the files on disk do not
      feed back into the collections nor into the fields of the answers
      that are looked at here, and are left out. *)

From Stdlib Require Import String Ascii List ZArith Bool Lia Permutation.
From Stdlib Require Import DecimalString Sorted.
Import ListNotations.

Open Scope string_scope.
Open Scope list_scope.
Open Scope Z_scope.

(** ** Strings as JavaScript sees them (ASCII range) *)

Definition dquote : string := String (ascii_of_nat 34) EmptyString.

Definition lowerChar (c : ascii) : ascii :=
  let n := nat_of_ascii c in
  if (Nat.leb 65 n && Nat.leb n 90)%bool then ascii_of_nat (n + 32) else c.

Fixpoint toLowerCase (s : string) : string :=
  match s with
  | EmptyString => EmptyString
  | String c r => String (lowerChar c) (toLowerCase r)
  end.

Definition isSpace (c : ascii) : bool :=
  let n := nat_of_ascii c in
  (Nat.leb 9 n && Nat.leb n 13 || Nat.eqb n 32)%bool.

Fixpoint trimStart (s : string) : string :=
  match s with
  | EmptyString => EmptyString
  | String c r => if isSpace c then trimStart r else s
  end.

Fixpoint trimEnd (s : string) : string :=
  match s with
  | EmptyString => EmptyString
  | String c r =>
      match trimEnd r with
      | EmptyString => if isSpace c then EmptyString else String c EmptyString
      | r' => String c r'
      end
  end.

Definition trim (s : string) : string := trimEnd (trimStart s).

(** [s.startsWith(p)] and [s.includes(p)]. *)
Fixpoint startsWith (p s : string) : bool :=
  match p, s with
  | EmptyString, _ => true
  | String _ _, EmptyString => false
  | String a p', String b s' => (Ascii.eqb a b && startsWith p' s')%bool
  end.

Fixpoint includes (p s : string) : bool :=
  (startsWith p s
   || match s with
      | EmptyString => false
      | String _ s' => includes p s'
      end)%bool.

(** "contains, case-insensitively". *)
Definition containsCI (p s : string) : bool :=
  includes (toLowerCase p) (toLowerCase s).

(** ** JSON values of a request body *)

Local Unset Elimination Schemes.
Inductive Value : Type :=
| VNull
| VBool (b : bool)
| VNum (n : Z)
| VStr (s : string)
| VArr (items : list Value)
| VObj (fields : list (string * Value)).
Local Set Elimination Schemes.

Definition ObjectId : Type := string.
Definition Date : Type := Z.

(** [obj[key]]; [None] is [undefined]. *)
Fixpoint getField (obj : list (string * Value)) (key : string) : option Value :=
  match obj with
  | [] => None
  | (k, v) :: rest => if String.eqb k key then Some v else getField rest key
  end.

(** [Object.keys(obj)]. *)
Definition keys (obj : list (string * Value)) : list string := map fst obj.

(** JavaScript truthiness of a value read from a body. *)
Definition truthy (v : option Value) : bool :=
  match v with
  | None | Some VNull => false
  | Some (VBool b) => b
  | Some (VNum n) => negb (n =? 0)
  | Some (VStr s) => negb (String.eqb s "")
  | Some (VArr _) | Some (VObj _) => true
  end.

(** ** The authenticated principal ([req.user]) *)

Module User.
Record t : Type := mk {
    _id : ObjectId;
    name : string;
    username : string;
    email : string;
    isAdmin : bool
  }.
(** [user.name || user.username] *)
Definition nameOrUsername (u : t) : string :=
    if String.eqb (name u) "" then username u else name u.
End User.

(** ** backend/models/Candidate.js: schemas *)

Module HistoryEntry.
Record t : Type := mk {
    user : string;
    action : string;
    details : option string;
    timestamp : Date
  }.
End HistoryEntry.

Module Comment.
Record t : Type := mk {
    user : string;
    text : string;
    timestamp : Date
  }.
End Comment.

Module TestResult.
Inductive Status : Type := not_sent | pending | passed | failed | review.

Record File : Type := mkFile {
    fileName : string;
    fileType : string;
    url : string;
    uploadedAt : Date
  }.

Record t : Type := mk {
    testId : string;
    status : Status;
    score : option Z;
    notes : option string;
    sentDate : option Date;
    deadlineHours : option Z;
    file : option File;
    aiSummary : option string
  }.

Definition set_file (f : option File) (r : t) : t :=
    mk (testId r) (status r) (score r) (notes r) (sentDate r)
       (deadlineHours r) f (aiSummary r).

Definition statusOfString (s : string) : option Status :=
    if String.eqb s "not_sent" then Some not_sent
    else if String.eqb s "pending" then Some pending
    else if String.eqb s "passed" then Some passed
    else if String.eqb s "failed" then Some failed
    else if String.eqb s "review" then Some review
    else None.
End TestResult.

Module Candidate.
Record t : Type := mk {
  _id : ObjectId;
  name : string;
  email : string;
  phone : string;
  position : string;
  stage : string;
  source : string;
  rating : Z;
  interviewDate : option string;
  interviewTime : option string;
  interviewTimeChanged : bool;
  history : list HistoryEntry.t;
  comments : list Comment.t;
  hasResume : bool;
  resumeUrl : option string;
  testResults : list TestResult.t;
  organization : option ObjectId;
  createdBy : option ObjectId;
  lastModifiedBy : option ObjectId;
  tags : list string;
  customFields : list (string * Value);
  isArchived : bool;
  archivedAt : option Date;
  archivedBy : option ObjectId;
  createdAt : Date;
  updatedAt : Date
}.

Definition set_id (v : ObjectId) (this : t) : t :=
  mk v (name this) (email this) (phone this) (position this) (stage this)
     (source this) (rating this) (interviewDate this) (interviewTime this)
     (interviewTimeChanged this) (history this) (comments this)
     (hasResume this) (resumeUrl this) (testResults this) (organization this)
     (createdBy this) (lastModifiedBy this) (tags this) (customFields this)
     (isArchived this) (archivedAt this) (archivedBy this) (createdAt this)
     (updatedAt this).

Definition set_name (v : string) (this : t) : t :=
  mk (_id this) v (email this) (phone this) (position this) (stage this)
     (source this) (rating this) (interviewDate this) (interviewTime this)
     (interviewTimeChanged this) (history this) (comments this)
     (hasResume this) (resumeUrl this) (testResults this) (organization this)
     (createdBy this) (lastModifiedBy this) (tags this) (customFields this)
     (isArchived this) (archivedAt this) (archivedBy this) (createdAt this)
     (updatedAt this).

Definition set_email (v : string) (this : t) : t :=
  mk (_id this) (name this) v (phone this) (position this) (stage this)
     (source this) (rating this) (interviewDate this) (interviewTime this)
     (interviewTimeChanged this) (history this) (comments this)
     (hasResume this) (resumeUrl this) (testResults this) (organization this)
     (createdBy this) (lastModifiedBy this) (tags this) (customFields this)
     (isArchived this) (archivedAt this) (archivedBy this) (createdAt this)
     (updatedAt this).

Definition set_phone (v : string) (this : t) : t :=
  mk (_id this) (name this) (email this) v (position this) (stage this)
     (source this) (rating this) (interviewDate this) (interviewTime this)
     (interviewTimeChanged this) (history this) (comments this)
     (hasResume this) (resumeUrl this) (testResults this) (organization this)
     (createdBy this) (lastModifiedBy this) (tags this) (customFields this)
     (isArchived this) (archivedAt this) (archivedBy this) (createdAt this)
     (updatedAt this).

Definition set_position (v : string) (this : t) : t :=
  mk (_id this) (name this) (email this) (phone this) v (stage this)
     (source this) (rating this) (interviewDate this) (interviewTime this)
     (interviewTimeChanged this) (history this) (comments this)
     (hasResume this) (resumeUrl this) (testResults this) (organization this)
     (createdBy this) (lastModifiedBy this) (tags this) (customFields this)
     (isArchived this) (archivedAt this) (archivedBy this) (createdAt this)
     (updatedAt this).

Definition set_stage (v : string) (this : t) : t :=
  mk (_id this) (name this) (email this) (phone this) (position this) v
     (source this) (rating this) (interviewDate this) (interviewTime this)
     (interviewTimeChanged this) (history this) (comments this)
     (hasResume this) (resumeUrl this) (testResults this) (organization this)
     (createdBy this) (lastModifiedBy this) (tags this) (customFields this)
     (isArchived this) (archivedAt this) (archivedBy this) (createdAt this)
     (updatedAt this).

Definition set_source (v : string) (this : t) : t :=
  mk (_id this) (name this) (email this) (phone this) (position this)
     (stage this) v (rating this) (interviewDate this) (interviewTime this)
     (interviewTimeChanged this) (history this) (comments this)
     (hasResume this) (resumeUrl this) (testResults this) (organization this)
     (createdBy this) (lastModifiedBy this) (tags this) (customFields this)
     (isArchived this) (archivedAt this) (archivedBy this) (createdAt this)
     (updatedAt this).

Definition set_rating (v : Z) (this : t) : t :=
  mk (_id this) (name this) (email this) (phone this) (position this)
     (stage this) (source this) v (interviewDate this) (interviewTime this)
     (interviewTimeChanged this) (history this) (comments this)
     (hasResume this) (resumeUrl this) (testResults this) (organization this)
     (createdBy this) (lastModifiedBy this) (tags this) (customFields this)
     (isArchived this) (archivedAt this) (archivedBy this) (createdAt this)
     (updatedAt this).

Definition set_interviewDate (v : option string) (this : t) : t :=
  mk (_id this) (name this) (email this) (phone this) (position this)
     (stage this) (source this) (rating this) v (interviewTime this)
     (interviewTimeChanged this) (history this) (comments this)
     (hasResume this) (resumeUrl this) (testResults this) (organization this)
     (createdBy this) (lastModifiedBy this) (tags this) (customFields this)
     (isArchived this) (archivedAt this) (archivedBy this) (createdAt this)
     (updatedAt this).

Definition set_interviewTime (v : option string) (this : t) : t :=
  mk (_id this) (name this) (email this) (phone this) (position this)
     (stage this) (source this) (rating this) (interviewDate this) v
     (interviewTimeChanged this) (history this) (comments this)
     (hasResume this) (resumeUrl this) (testResults this) (organization this)
     (createdBy this) (lastModifiedBy this) (tags this) (customFields this)
     (isArchived this) (archivedAt this) (archivedBy this) (createdAt this)
     (updatedAt this).

Definition set_interviewTimeChanged (v : bool) (this : t) : t :=
  mk (_id this) (name this) (email this) (phone this) (position this)
     (stage this) (source this) (rating this) (interviewDate this)
     (interviewTime this) v (history this) (comments this) (hasResume this)
     (resumeUrl this) (testResults this) (organization this) (createdBy this)
     (lastModifiedBy this) (tags this) (customFields this) (isArchived this)
     (archivedAt this) (archivedBy this) (createdAt this) (updatedAt this).

Definition set_history (v : list HistoryEntry.t) (this : t) : t :=
  mk (_id this) (name this) (email this) (phone this) (position this)
     (stage this) (source this) (rating this) (interviewDate this)
     (interviewTime this) (interviewTimeChanged this) v (comments this)
     (hasResume this) (resumeUrl this) (testResults this) (organization this)
     (createdBy this) (lastModifiedBy this) (tags this) (customFields this)
     (isArchived this) (archivedAt this) (archivedBy this) (createdAt this)
     (updatedAt this).

Definition set_comments (v : list Comment.t) (this : t) : t :=
  mk (_id this) (name this) (email this) (phone this) (position this)
     (stage this) (source this) (rating this) (interviewDate this)
     (interviewTime this) (interviewTimeChanged this) (history this) v
     (hasResume this) (resumeUrl this) (testResults this) (organization this)
     (createdBy this) (lastModifiedBy this) (tags this) (customFields this)
     (isArchived this) (archivedAt this) (archivedBy this) (createdAt this)
     (updatedAt this).

Definition set_hasResume (v : bool) (this : t) : t :=
  mk (_id this) (name this) (email this) (phone this) (position this)
     (stage this) (source this) (rating this) (interviewDate this)
     (interviewTime this) (interviewTimeChanged this) (history this)
     (comments this) v (resumeUrl this) (testResults this) (organization this)
     (createdBy this) (lastModifiedBy this) (tags this) (customFields this)
     (isArchived this) (archivedAt this) (archivedBy this) (createdAt this)
     (updatedAt this).

Definition set_resumeUrl (v : option string) (this : t) : t :=
  mk (_id this) (name this) (email this) (phone this) (position this)
     (stage this) (source this) (rating this) (interviewDate this)
     (interviewTime this) (interviewTimeChanged this) (history this)
     (comments this) (hasResume this) v (testResults this) (organization this)
     (createdBy this) (lastModifiedBy this) (tags this) (customFields this)
     (isArchived this) (archivedAt this) (archivedBy this) (createdAt this)
     (updatedAt this).

Definition set_testResults (v : list TestResult.t) (this : t) : t :=
  mk (_id this) (name this) (email this) (phone this) (position this)
     (stage this) (source this) (rating this) (interviewDate this)
     (interviewTime this) (interviewTimeChanged this) (history this)
     (comments this) (hasResume this) (resumeUrl this) v (organization this)
     (createdBy this) (lastModifiedBy this) (tags this) (customFields this)
     (isArchived this) (archivedAt this) (archivedBy this) (createdAt this)
     (updatedAt this).

Definition set_organization (v : option ObjectId) (this : t) : t :=
  mk (_id this) (name this) (email this) (phone this) (position this)
     (stage this) (source this) (rating this) (interviewDate this)
     (interviewTime this) (interviewTimeChanged this) (history this)
     (comments this) (hasResume this) (resumeUrl this) (testResults this) v
     (createdBy this) (lastModifiedBy this) (tags this) (customFields this)
     (isArchived this) (archivedAt this) (archivedBy this) (createdAt this)
     (updatedAt this).

Definition set_createdBy (v : option ObjectId) (this : t) : t :=
  mk (_id this) (name this) (email this) (phone this) (position this)
     (stage this) (source this) (rating this) (interviewDate this)
     (interviewTime this) (interviewTimeChanged this) (history this)
     (comments this) (hasResume this) (resumeUrl this) (testResults this)
     (organization this) v (lastModifiedBy this) (tags this)
     (customFields this) (isArchived this) (archivedAt this) (archivedBy this)
     (createdAt this) (updatedAt this).

Definition set_lastModifiedBy (v : option ObjectId) (this : t) : t :=
  mk (_id this) (name this) (email this) (phone this) (position this)
     (stage this) (source this) (rating this) (interviewDate this)
     (interviewTime this) (interviewTimeChanged this) (history this)
     (comments this) (hasResume this) (resumeUrl this) (testResults this)
     (organization this) (createdBy this) v (tags this) (customFields this)
     (isArchived this) (archivedAt this) (archivedBy this) (createdAt this)
     (updatedAt this).

Definition set_tags (v : list string) (this : t) : t :=
  mk (_id this) (name this) (email this) (phone this) (position this)
     (stage this) (source this) (rating this) (interviewDate this)
     (interviewTime this) (interviewTimeChanged this) (history this)
     (comments this) (hasResume this) (resumeUrl this) (testResults this)
     (organization this) (createdBy this) (lastModifiedBy this) v
     (customFields this) (isArchived this) (archivedAt this) (archivedBy this)
     (createdAt this) (updatedAt this).

Definition set_customFields (v : list (string * Value)) (this : t) : t :=
  mk (_id this) (name this) (email this) (phone this) (position this)
     (stage this) (source this) (rating this) (interviewDate this)
     (interviewTime this) (interviewTimeChanged this) (history this)
     (comments this) (hasResume this) (resumeUrl this) (testResults this)
     (organization this) (createdBy this) (lastModifiedBy this) (tags this) v
     (isArchived this) (archivedAt this) (archivedBy this) (createdAt this)
     (updatedAt this).

Definition set_isArchived (v : bool) (this : t) : t :=
  mk (_id this) (name this) (email this) (phone this) (position this)
     (stage this) (source this) (rating this) (interviewDate this)
     (interviewTime this) (interviewTimeChanged this) (history this)
     (comments this) (hasResume this) (resumeUrl this) (testResults this)
     (organization this) (createdBy this) (lastModifiedBy this) (tags this)
     (customFields this) v (archivedAt this) (archivedBy this) (createdAt this)
     (updatedAt this).

Definition set_archivedAt (v : option Date) (this : t) : t :=
  mk (_id this) (name this) (email this) (phone this) (position this)
     (stage this) (source this) (rating this) (interviewDate this)
     (interviewTime this) (interviewTimeChanged this) (history this)
     (comments this) (hasResume this) (resumeUrl this) (testResults this)
     (organization this) (createdBy this) (lastModifiedBy this) (tags this)
     (customFields this) (isArchived this) v (archivedBy this) (createdAt this)
     (updatedAt this).

Definition set_archivedBy (v : option ObjectId) (this : t) : t :=
  mk (_id this) (name this) (email this) (phone this) (position this)
     (stage this) (source this) (rating this) (interviewDate this)
     (interviewTime this) (interviewTimeChanged this) (history this)
     (comments this) (hasResume this) (resumeUrl this) (testResults this)
     (organization this) (createdBy this) (lastModifiedBy this) (tags this)
     (customFields this) (isArchived this) (archivedAt this) v (createdAt this)
     (updatedAt this).

Definition set_createdAt (v : Date) (this : t) : t :=
  mk (_id this) (name this) (email this) (phone this) (position this)
     (stage this) (source this) (rating this) (interviewDate this)
     (interviewTime this) (interviewTimeChanged this) (history this)
     (comments this) (hasResume this) (resumeUrl this) (testResults this)
     (organization this) (createdBy this) (lastModifiedBy this) (tags this)
     (customFields this) (isArchived this) (archivedAt this) (archivedBy this)
     v (updatedAt this).

Definition set_updatedAt (v : Date) (this : t) : t :=
  mk (_id this) (name this) (email this) (phone this) (position this)
     (stage this) (source this) (rating this) (interviewDate this)
     (interviewTime this) (interviewTimeChanged this) (history this)
     (comments this) (hasResume this) (resumeUrl this) (testResults this)
     (organization this) (createdBy this) (lastModifiedBy this) (tags this)
     (customFields this) (isArchived this) (archivedAt this) (archivedBy this)
     (createdAt this) v.

(** The schema defaults of a new document. *)
Definition defaults (freshId : ObjectId) (now : Date) : t :=
    mk freshId "" "" "" "" "inbox" "" 0 None None false [] [] false None []
       None None None [] [] false None None now now.
End Candidate.

(** ** backend/models/Organization.js: schemas *)

Module Stage.
(** A stage [order] is a JavaScript number; [Math.max()] of no argument is
    [-Infinity], which [+ 1] leaves as it is. *)
Inductive Order : Type := MinusInfinity | At (n : Z).

Definition orderMax (a b : Order) : Order :=
  match a, b with
  | MinusInfinity, x | x, MinusInfinity => x
  | At m, At n => At (Z.max m n)
  end.

Definition orderSucc (a : Order) : Order :=
  match a with
  | MinusInfinity => MinusInfinity
  | At n => At (n + 1)
  end.

Record t : Type := mk {
  id : string;
  title : string;
  isCore : bool;
  color : option string;
  order : Order
}.

Definition set_title (v : string) (s : t) : t :=
  mk (id s) v (isCore s) (color s) (order s).
Definition set_color (v : option string) (s : t) : t :=
  mk (id s) (title s) (isCore s) v (order s).
Definition set_order (v : Order) (s : t) : t :=
  mk (id s) (title s) (isCore s) (color s) v.
End Stage.

Module Organization.
Record t : Type := mk {
  _id : ObjectId;
  name : string;
  stages : list Stage.t;
  maxUsers : Z;
  maxCandidates : Z
}.

Definition set_stages (v : list Stage.t) (o : t) : t :=
  mk (_id o) (name o) v (maxUsers o) (maxCandidates o).

(** The default of the [stages] path. *)
Definition defaultStages : list Stage.t :=
  [ Stage.mk "inbox" "صندوق ورودی" true None (Stage.At 0);
    Stage.mk "screening" "غربالگری" true None (Stage.At 1);
    Stage.mk "interview-1" "مصاحبه اول" true None (Stage.At 2);
    Stage.mk "interview-2" "مصاحبه دوم" false None (Stage.At 3);
    Stage.mk "offer" "ارائه پیشنهاد" true None (Stage.At 4);
    Stage.mk "hired" "استخدام شده" true None (Stage.At 5);
    Stage.mk "rejected" "رد شده" true None (Stage.At 6);
    Stage.mk "archived" "آرشیو" true None (Stage.At 7) ].
End Organization.

(** ** The database and asynchronous methods *)

Record Db : Type := mkDb {
  candidates : list Candidate.t;
  organizations : list Organization.t
}.

Definition set_candidates (v : list Candidate.t) (db : Db) : Db :=
  mkDb v (organizations db).
Definition set_organizations (v : list Organization.t) (db : Db) : Db :=
  mkDb (candidates db) v.

Inductive Outcome (A : Type) : Type :=
| Done (a : A)
| Thrown (why : string).
Arguments Done {A} a.
Arguments Thrown {A} why.

Definition Async (A : Type) : Type := Db -> Outcome A * Db.

Definition ret {A : Type} (a : A) : Async A := fun db => (Done a, db).

Definition throw {A : Type} (why : string) : Async A :=
  fun db => (Thrown why, db).

Definition bind {A B : Type} (m : Async A) (k : A -> Async B) : Async B :=
  fun db =>
    match m db with
    | (Done a, db') => k a db'
    | (Thrown why, db') => (Thrown why, db')
    end.

Notation "x <- m ;; k" := (bind m (fun x => k))
  (at level 61, m at next level, right associativity).

(** [Array.prototype.find] and the position it stops at. *)
Fixpoint findIndex {A : Type} (f : A -> bool) (l : list A) : option nat :=
  match l with
  | [] => None
  | x :: r => if f x then Some O else option_map S (findIndex f r)
  end.

(** In-place change of the element at a position. *)
Fixpoint updateAt {A : Type} (p : nat) (f : A -> A) (l : list A) : list A :=
  match l, p with
  | [], _ => []
  | x :: r, O => f x :: r
  | x :: r, S p' => x :: updateAt p' f r
  end.

(** ** backend/models/Candidate.js: methods *)

Module CandidateMethods.
Import Candidate.

(** [candidateSchema.pre('save', ...)]: [true] when [next()] is called
    without an error. *)
Definition preSave (this : t) : bool :=
  match organization this with
  | Some _ => true
  | None => false
  end.

(** The write of a loaded document: the stored document of the same [_id]
    is replaced. *)
Definition replaceById (doc : t) (coll : list t) : list t :=
  map (fun d => if String.eqb (_id d) (_id doc) then doc else d) coll.

(** [this.save()] on a document loaded from the collection. *)
Definition save (now : Date) (this : t) : Async t :=
  fun db =>
    if preSave this then
      let this := set_updatedAt now this in
      (Done this, set_candidates (replaceById this (candidates db)) db)
    else (Thrown "Organization is required", db).

(** [this.save()] on a [new Candidate(...)]. *)
Definition saveNew (this : t) : Async t :=
  fun db =>
    if preSave this then
      if existsb (fun d => String.eqb (_id d) (_id this)) (candidates db)
      then (Thrown "E11000 duplicate key", db)
      else (Done this, set_candidates (candidates db ++ [this]) db)
    else (Thrown "Organization is required", db).

Definition addHistoryEntry (this : t) (user : User.t) (action : string)
    (details : option string) (now : Date) : Async t :=
  let this :=
    set_history
      (history this
         ++ [HistoryEntry.mk (User.nameOrUsername user) action details now])
      this in
  save now this.

Definition addComment (this : t) (user : User.t) (text : string)
    (now : Date) : Async t :=
  let this :=
    set_comments
      (comments this ++ [Comment.mk (User.nameOrUsername user) text now])
      this in
  save now this.

Definition stageChangedText (oldStage newStage : string) : string :=
  ("مرحله از " ++ dquote ++ oldStage ++ dquote ++ " به " ++ dquote
     ++ newStage ++ dquote ++ " تغییر کرد")%string.

Definition updateStage (this : t) (newStage : string) (user : User.t)
    (now : Date) : Async t :=
  let oldStage := stage this in
  let this := set_stage newStage this in
  let this := set_lastModifiedBy (Some (User._id user)) this in
  this <- addHistoryEntry this user (stageChangedText oldStage newStage)
            None now ;;
  ret this.

Definition archive (this : t) (user : User.t) (now : Date) : Async t :=
  let this := set_isArchived true this in
  let this := set_archivedAt (Some now) this in
  let this := set_archivedBy (Some (User._id user)) this in
  let this := set_stage "archived" this in
  this <- addHistoryEntry this user "متقاضی آرشیو شد" None now ;;
  save now this.

Definition unarchive (this : t) (user : User.t) (now : Date) : Async t :=
  let this := set_isArchived false this in
  let this := set_archivedAt None this in
  let this := set_archivedBy None this in
  let this := set_stage "inbox" this in
  this <- addHistoryEntry this user "متقاضی از آرشیو خارج شد" None now ;;
  save now this.
End CandidateMethods.

(** ** backend/models/Organization.js: methods *)

Module OrganizationMethods.
Import Organization.

Definition replaceById (doc : t) (coll : list t) : list t :=
  map (fun d => if String.eqb (_id d) (_id doc) then doc else d) coll.

Definition save (this : t) : Async t :=
  fun db =>
    (Done this, set_organizations (replaceById this (organizations db)) db).

(** [Math.max(...this.stages.map(s => s.order))] *)
Definition maxOrder (l : list Stage.t) : Stage.Order :=
  fold_left Stage.orderMax (map Stage.order l) Stage.MinusInfinity.

Definition addStage (this : t) (stage : Stage.t) : Async t :=
  let stage := Stage.set_order (Stage.orderSucc (maxOrder (stages this))) stage in
  save (set_stages (stages this ++ [stage]) this).

(** [s.id === id] for an element [id] of the request's array. *)
Definition sameId (id : Value) (s : Stage.t) : bool :=
  match id with
  | VStr x => String.eqb (Stage.id s) x
  | _ => false
  end.

(** The [forEach] of [reorderStages].  [stages] is [this.stages], whose
    elements the loop changes in place; [refs] are the positions in
    [this.stages] of the objects pushed to [reorderedStages], which holds
    references and not copies. *)
Fixpoint reorderLoop (stageIds : list Value) (index : Z)
    (stages : list Stage.t) (refs : list nat) : list Stage.t * list nat :=
  match stageIds with
  | [] => (stages, refs)
  | id :: rest =>
      match findIndex (sameId id) stages with
      | Some p =>
          reorderLoop rest (index + 1)
            (updateAt p (Stage.set_order (Stage.At index)) stages)
            (refs ++ [p])
      | None => reorderLoop rest (index + 1) stages refs
      end
  end.

Definition deref (stages : list Stage.t) (refs : list nat) : list Stage.t :=
  flat_map
    (fun p => match nth_error stages p with Some s => [s] | None => [] end)
    refs.

Definition reorderStages (this : t) (stageIds : list Value) : Async t :=
  let '(stages', refs) := reorderLoop stageIds 0 (stages this) [] in
  save (set_stages (deref stages' refs) this).

Definition canAddCandidate (this : t) : Async bool :=
  fun db =>
    let candidateCount :=
      Z.of_nat
        (List.length
           (filter
              (fun c =>
                 match Candidate.organization c with
                 | Some o => String.eqb o (_id this)
                 | None => false
                 end)
              (candidates db))) in
    (Done (candidateCount <? maxCandidates this), db).
End OrganizationMethods.

(** ** Requests and answers *)

Module Upload.
(** [req.file] as multer leaves it. *)
Record t : Type := mk {
  originalname : string;
  mimetype : string;
  filename : string
}.
End Upload.

Module Query.
(** [req.query] of the list route; [page] and [limit] are the numbers their
    texts denote. *)
Record t : Type := mk {
  stage : option string;
  position : option string;
  source : option string;
  search : option string;
  sortBy : option string;
  order : option string;
  page : option Z;
  limit : option Z;
  archived : option string
}.
Definition empty : t := mk None None None None None None None None None.

(** The same query with other [page] and [limit]. *)
Definition withPaging (p l : option Z) (q : t) : t :=
  mk (stage q) (position q) (source q) (search q) (sortBy q) (order q) p l
     (archived q).
End Query.

Module Request.
Record t : Type := mk {
  user : User.t;
  organization : ObjectId;
  params : list (string * string);
  query : Query.t;
  body : list (string * Value);
  file : option Upload.t;
  now : Date;
  freshId : ObjectId
}.

(** [req.params.<name>] *)
Fixpoint lookupParam (ps : list (string * string)) (name : string) : string :=
  match ps with
  | [] => ""
  | (k, v) :: rest => if String.eqb k name then v else lookupParam rest name
  end.
Definition param (req : t) (name : string) : string :=
  lookupParam (params req) name.

Definition withQuery (q : Query.t) (req : t) : t :=
  mk (user req) (organization req) (params req) q (body req) (file req)
     (now req) (freshId req).
End Request.

Module Response.
Inductive Data : Type :=
| NoData
| CandidateData (candidate : Candidate.t)
| ListData (candidates : list Candidate.t) (total : Z) (page : Z)
    (pages : option Z)
| StagesData (stages : list Stage.t)
| UrlData (url : string).

Record t : Type := mk {
  statusCode : Z;
  success : bool;
  message : option string;
  data : Data;
  errors : list (string * string)
}.

(** [res.status(code).json({ success: false, message })] *)
Definition failure (code : Z) (msg : string) : t :=
  mk code false (Some msg) NoData [].

(** [res.json({ success: true, message, data })] *)
Definition okWith (msg : option string) (d : Data) : t :=
  mk 200 true msg d [].
End Response.

Definition Handler : Type := Db -> Response.t * Db.

(** [try { ... } catch (error) { res.status(500).json(...) }] *)
Definition tryCatch (m : Async Response.t) (message500 : string) : Handler :=
  fun db =>
    match m db with
    | (Done r, db') => (r, db')
    | (Thrown _, db') => (Response.failure 500 message500, db')
    end.

(** *** express-validator *)

(** [body(f).notEmpty()] *)
Definition notEmpty (v : option Value) : bool :=
  match v with
  | None | Some VNull => false
  | Some (VStr s) => negb (String.eqb s "")
  | Some _ => true
  end.

(** One link of a validation chain: the error it leaves, if any. *)
Definition check (field : string) (passes : bool) (msg : string)
  : list (string * string) :=
  if passes then [] else [(field, msg)].

(** [handleValidationErrors]: answers 400 with the errors, or calls [next]. *)
Definition handleValidationErrors (errs : list (string * string))
    (next : Handler) : Handler :=
  match errs with
  | [] => next
  | _ => fun db => (Response.mk 400 false None Response.NoData errs, db)
  end.

(** *** Assignment to a schema path

    [doc[key] = value] casts the value to the type of the path.  The casts
    modelled are the ones that keep the JSON shape (a string for a String
    or ObjectId path, a boolean for a Boolean path, a number for a Number
    or Date path, an array of objects for an array of sub-documents); any
    other value is a cast error, which Mongoose keeps on the document and
    which makes [save] reject.  A key that is not a path of the schema is
    not stored.  [createdAt] and [updatedAt] belong to the [timestamps]
    option and are not assignable. *)

Module Cast.
Definition string_ (v : Value) : option string :=
  match v with VStr s => Some s | _ => None end.
Definition number (v : Value) : option Z :=
  match v with VNum n => Some n | _ => None end.
Definition boolean (v : Value) : option bool :=
  match v with VBool b => Some b | _ => None end.
(** A path that is not required takes [null]. *)
Definition optional {A : Type} (f : Value -> option A) (v : Value)
  : option (option A) :=
  match v with
  | VNull => Some None
  | _ => option_map Some (f v)
  end.

Fixpoint array {A : Type} (f : Value -> option A) (items : list Value)
  : option (list A) :=
  match items with
  | [] => Some []
  | v :: rest =>
      match f v, array f rest with
      | Some a, Some r => Some (a :: r)
      | _, _ => None
      end
  end.

Definition arrayOf {A : Type} (f : Value -> option A) (v : Value)
  : option (list A) :=
  match v with VArr items => array f items | _ => None end.

(** A path of a sub-document: absent is [None], present must cast. *)
Definition field {A : Type} (f : Value -> option A)
    (obj : list (string * Value)) (key : string) : option (option A) :=
  match getField obj key with
  | None | Some VNull => Some None
  | Some v => option_map Some (f v)
  end.

Definition historyEntry (now : Date) (v : Value) : option HistoryEntry.t :=
  match v with
  | VObj o =>
      match field string_ o "user", field string_ o "action",
            field string_ o "details", field number o "timestamp" with
      | Some (Some u), Some (Some a), Some d, Some ts =>
          Some (HistoryEntry.mk u a d
                  (match ts with Some n => n | None => now end))
      | _, _, _, _ => None
      end
  | _ => None
  end.

Definition comment (now : Date) (v : Value) : option Comment.t :=
  match v with
  | VObj o =>
      match field string_ o "user", field string_ o "text",
            field number o "timestamp" with
      | Some (Some u), Some (Some x), Some ts =>
          Some (Comment.mk u x (match ts with Some n => n | None => now end))
      | _, _, _ => None
      end
  | _ => None
  end.

Definition testFile (v : Value) : option TestResult.File :=
  match v with
  | VObj o =>
      match field string_ o "name", field string_ o "type",
            field string_ o "url", field number o "uploadedAt" with
      | Some (Some n), Some (Some ty), Some (Some u), Some (Some at_) =>
          Some (TestResult.mkFile n ty u at_)
      | _, _, _, _ => None
      end
  | _ => None
  end.

Definition testStatus (v : Value) : option TestResult.Status :=
  match v with
  | VStr s => TestResult.statusOfString s
  | _ => None
  end.

Definition testResult (v : Value) : option TestResult.t :=
  match v with
  | VObj o =>
      match field string_ o "testId", field testStatus o "status",
            field number o "score", field string_ o "notes" with
      | Some (Some tid), Some st, Some sc, Some nt =>
          match field number o "sentDate", field number o "deadlineHours",
                field testFile o "file", field string_ o "aiSummary" with
          | Some sd, Some dh, Some fl, Some ai =>
              Some (TestResult.mk tid
                      (match st with Some s => s | None => TestResult.not_sent end)
                      sc nt sd dh fl ai)
          | _, _, _, _ => None
          end
      | _, _, _, _ => None
      end
  | _ => None
  end.

Definition mixedMap (v : Value) : option (list (string * Value)) :=
  match v with VObj o => Some o | _ => None end.
End Cast.

Module Assign.
Import Candidate.

Definition isKey (key name : string) : bool := String.eqb key name.

(** [this[key] = v] on a candidate document; [None] is a cast error. *)
Definition setPath (now : Date) (key : string) (v : Value) (this : t)
  : option t :=
  if isKey key "_id" then
    option_map (fun x => set_id x this) (Cast.string_ v)
  else if isKey key "name" then
    option_map (fun x => set_name (trim x) this) (Cast.string_ v)
  else if isKey key "email" then
    option_map (fun x => set_email (toLowerCase x) this) (Cast.string_ v)
  else if isKey key "phone" then
    option_map (fun x => set_phone (trim x) this) (Cast.string_ v)
  else if isKey key "position" then
    option_map (fun x => set_position x this) (Cast.string_ v)
  else if isKey key "stage" then
    option_map (fun x => set_stage x this) (Cast.string_ v)
  else if isKey key "source" then
    option_map (fun x => set_source x this) (Cast.string_ v)
  else if isKey key "rating" then
    option_map (fun x => set_rating x this) (Cast.number v)
  else if isKey key "interviewDate" then
    option_map (fun x => set_interviewDate x this)
      (Cast.optional Cast.string_ v)
  else if isKey key "interviewTime" then
    option_map (fun x => set_interviewTime x this)
      (Cast.optional Cast.string_ v)
  else if isKey key "interviewTimeChanged" then
    option_map (fun x => set_interviewTimeChanged x this) (Cast.boolean v)
  else if isKey key "history" then
    option_map (fun x => set_history x this)
      (Cast.arrayOf (Cast.historyEntry now) v)
  else if isKey key "comments" then
    option_map (fun x => set_comments x this)
      (Cast.arrayOf (Cast.comment now) v)
  else if isKey key "hasResume" then
    option_map (fun x => set_hasResume x this) (Cast.boolean v)
  else if isKey key "resumeUrl" then
    option_map (fun x => set_resumeUrl x this) (Cast.optional Cast.string_ v)
  else if isKey key "testResults" then
    option_map (fun x => set_testResults x this)
      (Cast.arrayOf Cast.testResult v)
  else if isKey key "organization" then
    option_map (fun x => set_organization x this)
      (Cast.optional Cast.string_ v)
  else if isKey key "createdBy" then
    option_map (fun x => set_createdBy x this) (Cast.optional Cast.string_ v)
  else if isKey key "lastModifiedBy" then
    option_map (fun x => set_lastModifiedBy x this)
      (Cast.optional Cast.string_ v)
  else if isKey key "tags" then
    option_map (fun x => set_tags x this) (Cast.arrayOf Cast.string_ v)
  else if isKey key "customFields" then
    option_map (fun x => set_customFields x this) (Cast.mixedMap v)
  else if isKey key "isArchived" then
    option_map (fun x => set_isArchived x this) (Cast.boolean v)
  else if isKey key "archivedAt" then
    option_map (fun x => set_archivedAt x this) (Cast.optional Cast.number v)
  else if isKey key "archivedBy" then
    option_map (fun x => set_archivedBy x this)
      (Cast.optional Cast.string_ v)
  else Some this.

(** Assignment of every entry of an object, in the order of its keys. *)
Fixpoint assignAll (now : Date) (obj : list (string * Value)) (this : t)
  : option t :=
  match obj with
  | [] => Some this
  | (key, v) :: rest =>
      match setPath now key v this with
      | Some this' => assignAll now rest this'
      | None => None
      end
  end.
End Assign.

(** ** The candidates router *)

Module Sorting.
Import Candidate.

(** The value a document is ordered by, with the order of BSON types:
    null, numbers, strings, ObjectId, booleans, dates. *)
Inductive Key : Type :=
| KNull
| KNum (n : Z)
| KStr (s : string)
| KId (i : ObjectId)
| KBool (b : bool)
| KDate (d : Date).

Definition rank (k : Key) : Z :=
  match k with
  | KNull => 0 | KNum _ => 1 | KStr _ => 2
  | KId _ => 3 | KBool _ => 4 | KDate _ => 5
  end.

Definition compareKey (a b : Key) : comparison :=
  match a, b with
  | KNull, KNull => Eq
  | KNum m, KNum n => Z.compare m n
  | KStr s, KStr u => String.compare s u
  | KId s, KId u => String.compare s u
  | KBool x, KBool y => Bool.compare x y
  | KDate m, KDate n => Z.compare m n
  | _, _ => Z.compare (rank a) (rank b)
  end.

Definition ofOption {A : Type} (f : A -> Key) (o : option A) : Key :=
  match o with Some a => f a | None => KNull end.

(** The key of a document under a scalar path; a path that holds no scalar
    gives every document the same key. *)
Definition sortKey (path : string) (c : t) : Key :=
  if String.eqb path "_id" then KId (_id c)
  else if String.eqb path "name" then KStr (name c)
  else if String.eqb path "email" then KStr (email c)
  else if String.eqb path "phone" then KStr (phone c)
  else if String.eqb path "position" then KStr (position c)
  else if String.eqb path "stage" then KStr (stage c)
  else if String.eqb path "source" then KStr (source c)
  else if String.eqb path "rating" then KNum (rating c)
  else if String.eqb path "interviewDate" then ofOption KStr (interviewDate c)
  else if String.eqb path "interviewTime" then ofOption KStr (interviewTime c)
  else if String.eqb path "interviewTimeChanged"
       then KBool (interviewTimeChanged c)
  else if String.eqb path "hasResume" then KBool (hasResume c)
  else if String.eqb path "resumeUrl" then ofOption KStr (resumeUrl c)
  else if String.eqb path "organization" then ofOption KId (organization c)
  else if String.eqb path "createdBy" then ofOption KId (createdBy c)
  else if String.eqb path "lastModifiedBy"
       then ofOption KId (lastModifiedBy c)
  else if String.eqb path "isArchived" then KBool (isArchived c)
  else if String.eqb path "archivedAt" then ofOption KDate (archivedAt c)
  else if String.eqb path "archivedBy" then ofOption KId (archivedBy c)
  else if String.eqb path "createdAt" then KDate (createdAt c)
  else if String.eqb path "updatedAt" then KDate (updatedAt c)
  else KNull.

(** [a] may stay in front of [b] under direction [dir] (1 or -1). *)
Definition inOrder (path : string) (dir : Z) (a b : t) : bool :=
  match compareKey (sortKey path a) (sortKey path b) with
  | Eq => true
  | Lt => 0 <? dir
  | Gt => dir <? 0
  end.

Fixpoint insert (path : string) (dir : Z) (x : t) (l : list t) : list t :=
  match l with
  | [] => [x]
  | y :: r =>
      if inOrder path dir x y then x :: y :: r
      else y :: insert path dir x r
  end.

(** [.sort({ [path]: dir })]; documents of equal key stay in the order in
    which they were found. *)
Definition sort (path : string) (dir : Z) (l : list t) : list t :=
  fold_right (insert path dir) [] l.
End Sorting.

Module CandidatesRouter.
Import Candidate.

Definition ofTenant (org : ObjectId) (c : t) : bool :=
  match organization c with
  | Some o => String.eqb o org
  | None => false
  end.

(** The filter [{ _id: id, organization: org }]. *)
Definition selects (id org : ObjectId) (c : t) : bool :=
  String.eqb (_id c) id && ofTenant org c.

(** [Candidate.findOne({ _id: id, organization: org })] *)
Definition findOne (id org : ObjectId) : Async (option t) :=
  fun db => (Done (find (selects id org) (candidates db)), db).

(** The [queryObj] of the list route. *)
Record Filter : Type := mkFilter {
  f_organization : ObjectId;
  f_isArchived : bool;
  f_stage : option string;
  f_position : option string;
  f_source : option string;
  f_search : option string
}.

(** [if (x) queryObj.x = x] *)
Definition whenTruthy (x : option string) : option string :=
  match x with
  | Some s => if String.eqb s "" then None else Some s
  | None => None
  end.

Definition buildQuery (req : Request.t) : Filter :=
  let q := Request.query req in
  mkFilter (Request.organization req)
    (match Query.archived q with
     | Some a => String.eqb a "true"
     | None => false
     end)
    (whenTruthy (Query.stage q))
    (whenTruthy (Query.position q))
    (whenTruthy (Query.source q))
    (whenTruthy (Query.search q)).

Definition equalsWhenSet (want : option string) (have : string) : bool :=
  match want with
  | Some w => String.eqb have w
  | None => true
  end.

(** The [$or] of the three [$regex] conditions, given the compiled
    pattern. *)
Definition searchHit (m : string -> bool) (c : t) : bool :=
  m (name c) || m (email c) || m (phone c).

(** The conditions of [queryObj] other than the search. *)
Definition plainConditions (f : Filter) (c : t) : bool :=
  ofTenant (f_organization f) c
  && Bool.eqb (isArchived c) (f_isArchived f)
  && equalsWhenSet (f_stage f) (stage c)
  && equalsWhenSet (f_position f) (position c)
  && equalsWhenSet (f_source f) (source c).

(** [.limit(limit * 1).skip((page - 1) * limit)]: the store refuses a
    negative skip, reads a limit of 0 as no limit and a negative limit as
    its absolute value. *)
Definition paginate (page limit : Z) (l : list t) : option (list t) :=
  let skip := (page - 1) * limit in
  if skip <? 0 then None
  else
    let rest := skipn (Z.to_nat skip) l in
    Some (if limit =? 0 then rest
          else firstn (Z.to_nat (Z.abs limit)) rest).

(** [Math.ceil(total / limit)]; a division by 0 gives [Infinity] or [NaN],
    which JSON writes as [null]. *)
Definition pageCount (total limit : Z) : option Z :=
  if limit =? 0 then None else Some (- ((- total) / limit)).

Section Externals.
(** [isEmail] of validator.js. *)
Variable isEmail : string -> bool.
(** The regular-expression engine of the store under option [i]: [None]
    when the pattern is refused, otherwise the test "the subject has a
    match". *)
Variable compileRegex : string -> option (string -> bool).

(** The documents that satisfy [queryObj], in collection order. *)
Definition matching (f : Filter) : Async (list t) :=
  fun db =>
    match f_search f with
    | None => (Done (filter (plainConditions f) (candidates db)), db)
    | Some pattern =>
        match compileRegex pattern with
        | Some m =>
            (Done (filter (fun c => plainConditions f c && searchHit m c)
                     (candidates db)), db)
        | None => (Thrown "Regular expression is invalid", db)
        end
    end.

(** [Candidate.find(queryObj).sort(...).limit(...).skip(...)] *)
Definition findPage (f : Filter) (sortBy : string) (dir page limit : Z)
  : Async (list t) :=
  found <- matching f ;;
  match paginate page limit (Sorting.sort sortBy dir found) with
  | Some l => ret l
  | None => throw "skip value must be non-negative"
  end.

(** [Candidate.countDocuments(queryObj)] *)
Definition countDocuments (f : Filter) : Async Z :=
  found <- matching f ;;
  ret (Z.of_nat (List.length found)).

Definition orDefault {A : Type} (o : option A) (d : A) : A :=
  match o with Some a => a | None => d end.

(** [router.get('/')] *)
Definition getCandidates (req : Request.t) : Handler :=
  let q := Request.query req in
  let sortBy := orDefault (Query.sortBy q) "createdAt" in
  let order := orDefault (Query.order q) "desc" in
  let page := orDefault (Query.page q) 1 in
  let limit := orDefault (Query.limit q) 50 in
  tryCatch
    (let queryObj := buildQuery req in
     candidates <- findPage queryObj sortBy
                     (if String.eqb order "desc" then -1 else 1) page limit ;;
     total <- countDocuments queryObj ;;
     ret (Response.okWith None
            (Response.ListData candidates total page (pageCount total limit))))
    "خطا در دریافت لیست متقاضیان".

Definition notFound : Response.t := Response.failure 404 "متقاضی یافت نشد".

(** [router.get('/:id')] *)
Definition getCandidate (req : Request.t) : Handler :=
  tryCatch
    (candidate <- findOne (Request.param req "id") (Request.organization req) ;;
     match candidate with
     | None => ret notFound
     | Some candidate =>
         ret (Response.okWith None (Response.CandidateData candidate))
     end)
    "خطا در دریافت اطلاعات متقاضی".

(** [body('email').isEmail()] *)
Definition emailPasses (v : option Value) : bool :=
  match v with
  | Some (VStr s) => isEmail s
  | _ => false
  end.

(** [body('email').optional().isEmail()] *)
Definition optionalEmailPasses (v : option Value) : bool :=
  match v with
  | None => true
  | _ => emailPasses v
  end.

Definition findById (org : ObjectId) : Async (option Organization.t) :=
  fun db =>
    (Done (find (fun o => String.eqb (Organization._id o) org)
             (organizations db)), db).

(** [Candidate.findOne({ email, organization })]; the query value goes
    through the [lowercase] setter of the path. *)
Definition findByEmail (mail : Value) (org : ObjectId) : Async (option t) :=
  fun db =>
    match Cast.string_ mail with
    | Some s =>
        (Done (find (fun c => String.eqb (email c) (toLowerCase s)
                              && ofTenant org c) (candidates db)), db)
    | None => (Thrown "CastError", db)
    end.

Definition overridden (key : string) : bool :=
  String.eqb key "organization" || String.eqb key "createdBy"
  || String.eqb key "history".

(** [new Candidate({ ...req.body, organization, createdBy, history })] *)
Definition newCandidate (req : Request.t) : option t :=
  let rest := filter (fun kv => negb (overridden (fst kv))) (Request.body req) in
  match Assign.assignAll (Request.now req) rest
          (defaults (Request.freshId req) (Request.now req)) with
  | Some c =>
      Some (set_history
              [HistoryEntry.mk (User.name (Request.user req))
                 "متقاضی ایجاد شد" None (Request.now req)]
              (set_createdBy (Some (User._id (Request.user req)))
                 (set_organization (Some (Request.organization req)) c)))
  | None => None
  end.

(** [router.post('/')] *)
Definition postCandidate (req : Request.t) : Handler :=
  let body := Request.body req in
  handleValidationErrors
    (check "name" (notEmpty (getField body "name")) "نام متقاضی الزامی است"
     ++ check "email" (emailPasses (getField body "email"))
          "ایمیل معتبر وارد کنید"
     ++ check "phone" (notEmpty (getField body "phone"))
          "شماره تلفن الزامی است"
     ++ check "position" (notEmpty (getField body "position"))
          "موقعیت شغلی الزامی است"
     ++ check "source" (notEmpty (getField body "source")) "منبع الزامی است")
    (tryCatch
       (organization <- findById (Request.organization req) ;;
        match organization with
        | None => throw "TypeError"
        | Some organization =>
            canAdd <- OrganizationMethods.canAddCandidate organization ;;
            if negb canAdd then
              ret (Response.failure 403
                     "محدودیت تعداد متقاضیان. لطفاً پلن خود را ارتقا دهید.")
            else
              existingCandidate <-
                match getField body "email" with
                | Some mail => findByEmail mail (Request.organization req)
                | None => ret None
                end ;;
              match existingCandidate with
              | Some _ =>
                  ret (Response.failure 400
                         "متقاضی با این ایمیل قبلاً ثبت شده است")
              | None =>
                  match newCandidate req with
                  | None => throw "ValidationError"
                  | Some candidate =>
                      candidate <- CandidateMethods.saveNew candidate ;;
                      ret (Response.mk 201 true
                             (Some "متقاضی با موفقیت اضافه شد")
                             (Response.CandidateData candidate) [])
                  end
              end
        end)
       "خطا در ایجاد متقاضی").

(** The test of the [forEach] of the update route. *)
Definition assignable (key : string) : bool :=
  negb (String.eqb key "history") && negb (String.eqb key "comments")
  && negb (String.eqb key "_id") && negb (String.eqb key "organization").

(** [Object.keys(req.body).forEach(key => { if (...) candidate[key] =
    req.body[key] })] *)
Fixpoint updateFields (now : Date) (body : list (string * Value))
    (candidate : t) : option t :=
  match body with
  | [] => Some candidate
  | (key, v) :: rest =>
      if assignable key then
        match Assign.setPath now key v candidate with
        | Some candidate' => updateFields now rest candidate'
        | None => None
        end
      else updateFields now rest candidate
  end.

Definition editedEntry (req : Request.t) : HistoryEntry.t :=
  HistoryEntry.mk (User.name (Request.user req)) "اطلاعات ویرایش شد" None
    (Request.now req).

(** [router.put('/:id')] *)
Definition putCandidate (req : Request.t) : Handler :=
  handleValidationErrors
    (check "email" (optionalEmailPasses (getField (Request.body req) "email"))
       "ایمیل معتبر وارد کنید")
    (tryCatch
       (candidate <- findOne (Request.param req "id")
                       (Request.organization req) ;;
        match candidate with
        | None => ret notFound
        | Some candidate =>
            match updateFields (Request.now req) (Request.body req)
                    candidate with
            | None => throw "ValidationError"
            | Some candidate =>
                let candidate :=
                  set_lastModifiedBy
                    (Some (User._id (Request.user req))) candidate in
                let candidate :=
                  set_history (history candidate ++ [editedEntry req])
                    candidate in
                candidate <- CandidateMethods.save (Request.now req)
                               candidate ;;
                ret (Response.okWith
                       (Some "اطلاعات با موفقیت به‌روزرسانی شد")
                       (Response.CandidateData candidate))
            end
        end)
       "خطا در به‌روزرسانی متقاضی").

(** The [async (req, res)] of [router.put('/:id/stage')]. *)
Definition putCandidateStageHandler (req : Request.t) : Handler :=
  tryCatch
    (candidate <- findOne (Request.param req "id")
                    (Request.organization req) ;;
     match candidate with
     | None => ret notFound
     | Some candidate =>
         let oldStage := stage candidate in
         match getField (Request.body req) "stage" with
         | Some (VStr newStage) =>
             candidate <- CandidateMethods.updateStage candidate newStage
                            (Request.user req) (Request.now req) ;;
             ret (Response.okWith
                    (Some (CandidateMethods.stageChangedText oldStage
                             newStage))
                    (Response.CandidateData candidate))
         | _ => throw "ValidationError"
         end
     end)
    "خطا در تغییر مرحله".

(** [router.put('/:id/stage', [auth, body('stage').notEmpty(),
    handleValidationErrors], async (req, res) => ...)] *)
Definition putCandidateStage (req : Request.t) : Handler :=
  handleValidationErrors
    (check "stage" (notEmpty (getField (Request.body req) "stage"))
       "مرحله جدید الزامی است")
    (putCandidateStageHandler req).

(** [router.post('/:id/comments')] *)
Definition postComment (req : Request.t) : Handler :=
  handleValidationErrors
    (check "text" (notEmpty (getField (Request.body req) "text"))
       "متن یادداشت الزامی است")
    (tryCatch
       (candidate <- findOne (Request.param req "id")
                       (Request.organization req) ;;
        match candidate with
        | None => ret notFound
        | Some candidate =>
            match getField (Request.body req) "text" with
            | Some (VStr text) =>
                candidate <- CandidateMethods.addComment candidate
                               (Request.user req) text (Request.now req) ;;
                ret (Response.okWith (Some "یادداشت اضافه شد")
                       (Response.CandidateData candidate))
            | _ => throw "ValidationError"
            end
        end)
       "خطا در افزودن یادداشت").

(** The [isAdmin] middleware. *)
Definition isAdmin (req : Request.t) (next : Handler) : Handler :=
  if User.isAdmin (Request.user req) then next
  else fun db => (Response.failure 403 "دسترسی فقط برای مدیران", db).

(** [Candidate.findOneAndDelete({ _id: id, organization: org })] *)
Fixpoint removeFirst (f : t -> bool) (l : list t) : list t :=
  match l with
  | [] => []
  | x :: r => if f x then r else x :: removeFirst f r
  end.

Definition findOneAndDelete (id org : ObjectId) : Async (option t) :=
  fun db =>
    (Done (find (selects id org) (candidates db)),
     set_candidates (removeFirst (selects id org) (candidates db)) db).

(** [router.delete('/:id')] *)
Definition deleteCandidate (req : Request.t) : Handler :=
  isAdmin req
    (tryCatch
       (candidate <- findOneAndDelete (Request.param req "id")
                       (Request.organization req) ;;
        match candidate with
        | None => ret notFound
        | Some _ =>
            ret (Response.okWith (Some "متقاضی حذف شد") Response.NoData)
        end)
       "خطا در حذف متقاضی").

(** [router.put('/:id/archive')] *)
Definition putArchive (req : Request.t) : Handler :=
  tryCatch
    (candidate <- findOne (Request.param req "id")
                    (Request.organization req) ;;
     match candidate with
     | None => ret notFound
     | Some candidate =>
         if isArchived candidate then
           candidate <- CandidateMethods.unarchive candidate
                          (Request.user req) (Request.now req) ;;
           ret (Response.okWith (Some "متقاضی از آرشیو خارج شد")
                  (Response.CandidateData candidate))
         else
           candidate <- CandidateMethods.archive candidate
                          (Request.user req) (Request.now req) ;;
           ret (Response.okWith (Some "متقاضی آرشیو شد")
                  (Response.CandidateData candidate))
     end)
    "خطا در آرشیو کردن متقاضی".
End Externals.
End CandidatesRouter.

(** ** The settings router: stages *)

Module SettingsRouter.
Import Organization.

(** [Organization.findById(req.organization)] *)
Definition findById (org : ObjectId) : Async (option t) :=
  fun db =>
    (Done (find (fun o => String.eqb (_id o) org) (organizations db)), db).

Definition orgNotFound : Response.t := Response.failure 404 "سازمان یافت نشد".
Definition stageNotFound : Response.t := Response.failure 404 "مرحله یافت نشد".

Definition hasId (id : string) (s : Stage.t) : bool :=
  String.eqb (Stage.id s) id.

(** A change made through the object that [stages.find] returned: it
    lands on the first stage of that id. *)
Definition updateFound (id : string) (f : Stage.t -> Stage.t)
    (l : list Stage.t) : list Stage.t :=
  match findIndex (hasId id) l with
  | Some p => updateAt p f l
  | None => l
  end.

Definition isAdmin (req : Request.t) (next : Handler) : Handler :=
  if User.isAdmin (Request.user req) then next
  else fun db => (Response.failure 403 "دسترسی فقط برای مدیران", db).

(** [router.post('/stages')] *)
Definition postStage (req : Request.t) : Handler :=
  let body := Request.body req in
  isAdmin req
    (handleValidationErrors
       (check "id" (notEmpty (getField body "id")) "شناسه مرحله الزامی است"
        ++ check "title" (notEmpty (getField body "title"))
             "عنوان مرحله الزامی است")
       (tryCatch
          (organization <- findById (Request.organization req) ;;
           match organization with
           | None => ret orgNotFound
           | Some organization =>
               if existsb (OrganizationMethods.sameId
                             (match getField body "id" with
                              | Some v => v
                              | None => VNull
                              end))
                    (stages organization)
               then ret (Response.failure 400
                           "مرحله با این شناسه قبلاً وجود دارد")
               else
                 match getField body "id", getField body "title" with
                 | Some (VStr id), Some (VStr title) =>
                     match Cast.field Cast.string_ body "color" with
                     | Some color =>
                         organization <-
                           OrganizationMethods.addStage organization
                             (Stage.mk id title false color
                                Stage.MinusInfinity) ;;
                         ret (Response.okWith (Some "مرحله جدید اضافه شد")
                                (Response.StagesData (stages organization)))
                     | None => throw "ValidationError"
                     end
                 | _, _ => throw "ValidationError"
                 end
           end)
          "خطا در افزودن مرحله")).

(** [if (req.body.x) stage.x = req.body.x]; [None] is a cast error. *)
Definition assignWhenTruthy (v : option Value)
    (set : string -> Stage.t -> Stage.t) : option (Stage.t -> Stage.t) :=
  if truthy v then
    match v with
    | Some (VStr s) => Some (set s)
    | _ => None
    end
  else Some (fun s => s).

(** [router.put('/stages/:id')] *)
Definition putStage (req : Request.t) : Handler :=
  let id := Request.param req "id" in
  isAdmin req
    (tryCatch
       (organization <- findById (Request.organization req) ;;
        match organization with
        | None => ret orgNotFound
        | Some organization =>
            match find (hasId id) (stages organization) with
            | None => ret stageNotFound
            | Some stage =>
                if Stage.isCore stage then
                  ret (Response.failure 403 "مراحل اصلی قابل ویرایش نیستند")
                else
                  match assignWhenTruthy
                          (getField (Request.body req) "title")
                          Stage.set_title,
                        assignWhenTruthy
                          (getField (Request.body req) "color")
                          (fun c => Stage.set_color (Some c)) with
                  | Some setTitle, Some setColor =>
                      organization <-
                        OrganizationMethods.save
                          (set_stages
                             (updateFound id
                                (fun s => setColor (setTitle s))
                                (stages organization))
                             organization) ;;
                      ret (Response.okWith (Some "مرحله به‌روزرسانی شد")
                             (Response.StagesData (stages organization)))
                  | _, _ => throw "ValidationError"
                  end
            end
        end)
       "خطا در به‌روزرسانی مرحله").

(** [Candidate.countDocuments({ organization, stage })] *)
Definition countInStage (org : ObjectId) (stageId : string) : Async nat :=
  fun db =>
    (Done (List.length
             (filter
                (fun c => CandidatesRouter.ofTenant org c
                          && String.eqb (Candidate.stage c) stageId)
                (candidates db))), db).

Definition stageInUseText (n : nat) : string :=
  (NilEmpty.string_of_uint (Nat.to_uint n)
   ++ " متقاضی در این مرحله وجود دارد. ابتدا آنها را به مرحله دیگری منتقل کنید.")%string.

(** [router.delete('/stages/:id')] *)
Definition deleteStage (req : Request.t) : Handler :=
  let id := Request.param req "id" in
  isAdmin req
    (tryCatch
       (organization <- findById (Request.organization req) ;;
        match organization with
        | None => ret orgNotFound
        | Some organization =>
            match find (hasId id) (stages organization) with
            | None => ret stageNotFound
            | Some stage =>
                if Stage.isCore stage then
                  ret (Response.failure 403 "مراحل اصلی قابل حذف نیستند")
                else
                  candidatesInStage <-
                    countInStage (Request.organization req) id ;;
                  if Nat.ltb 0 candidatesInStage then
                    ret (Response.failure 400
                           (stageInUseText candidatesInStage))
                  else
                    organization <-
                      OrganizationMethods.save
                        (set_stages
                           (filter (fun s => negb (hasId id s))
                              (stages organization))
                           organization) ;;
                    ret (Response.okWith (Some "مرحله حذف شد")
                           (Response.StagesData (stages organization)))
            end
        end)
       "خطا در حذف مرحله").

(** [body('stageIds').isArray()] *)
Definition isArray (v : option Value) : bool :=
  match v with
  | Some (VArr _) => true
  | _ => false
  end.

(** The handler registered for [PUT /stages/reorder].  The router tries
    its routes in the order of registration and [PUT /stages/:id] comes
    first, so a request to [/stages/reorder] is answered by [putStage] with
    [id = "reorder"]; this handler is what the router would run if it were
    reached. *)
Definition putStagesReorder (req : Request.t) : Handler :=
  isAdmin req
    (handleValidationErrors
       (check "stageIds" (isArray (getField (Request.body req) "stageIds"))
          "لیست شناسه مراحل الزامی است")
       (tryCatch
          (organization <- findById (Request.organization req) ;;
           match organization with
           | None => ret orgNotFound
           | Some organization =>
               match getField (Request.body req) "stageIds" with
               | Some (VArr stageIds) =>
                   organization <-
                     OrganizationMethods.reorderStages organization stageIds ;;
                   ret (Response.okWith (Some "ترتیب مراحل به‌روزرسانی شد")
                          (Response.StagesData (stages organization)))
               | _ => throw "TypeError"
               end
           end)
          "خطا در تغییر ترتیب مراحل")).
End SettingsRouter.

(** ** The files router *)

Module FilesRouter.
Import Candidate.

Definition hasTestId (testId : string) (r : TestResult.t) : bool :=
  String.eqb (TestResult.testId r) testId.

(** [testResult.file = ...] through the object that [testResults.find]
    returned. *)
Definition setFileOfFound (testId : string) (f : TestResult.File)
    (l : list TestResult.t) : list TestResult.t :=
  match findIndex (hasTestId testId) l with
  | Some p => updateAt p (TestResult.set_file (Some f)) l
  | None => l
  end.

(** [router.post('/test-result/:candidateId/:testId')] *)
Definition postTestResult (req : Request.t) : Handler :=
  tryCatch
    (match Request.file req with
     | None => ret (Response.failure 400 "فایل نتیجه آزمون الزامی است")
     | Some file =>
         candidate <- CandidatesRouter.findOne
                        (Request.param req "candidateId")
                        (Request.organization req) ;;
         match candidate with
         | None => ret CandidatesRouter.notFound
         | Some candidate =>
             let fileUrl :=
               ("/uploads/" ++ Request.organization req ++ "/"
                  ++ Upload.filename file)%string in
             let info :=
               TestResult.mkFile (Upload.originalname file)
                 (Upload.mimetype file) fileUrl (Request.now req) in
             let testId := Request.param req "testId" in
             let candidate :=
               match find (hasTestId testId) (testResults candidate) with
               | Some _ =>
                   set_testResults
                     (setFileOfFound testId info (testResults candidate))
                     candidate
               | None =>
                   set_testResults
                     (testResults candidate
                        ++ [TestResult.mk testId TestResult.review None None
                              None None (Some info) None])
                     candidate
               end in
             _ <- CandidateMethods.save (Request.now req) candidate ;;
             ret (Response.okWith (Some "نتیجه آزمون با موفقیت آپلود شد")
                    (Response.UrlData fileUrl))
         end
     end)
    "خطا در آپلود نتیجه آزمون".

(** [fileFilter]: the kind of upload is read off [req.baseUrl], the path
    the router is mounted on. *)
Definition allowedTypes (fileType : string) : list string :=
  if String.eqb fileType "resume" then
    ["application/pdf"; "application/msword";
     "application/vnd.openxmlformats-officedocument.wordprocessingml.document"]
  else if String.eqb fileType "image" then
    ["image/jpeg"; "image/png"; "image/gif"; "image/webp"]
  else ["application/pdf"].

Definition fileTypeOf (baseUrl : string) : string :=
  if includes "resume" baseUrl then "resume"
  else if includes "image" baseUrl then "image"
  else "test".

(** [true] is [cb(null, true)], [false] is the refusal [cb(new Error(...),
    false)]. *)
Definition fileFilter (baseUrl mimetype : string) : bool :=
  existsb (String.eqb mimetype) (allowedTypes (fileTypeOf baseUrl)).

(** [app.use('/api/files', fileRoutes)] *)
Definition mountPath : string := "/api/files".

(** [router.post('/resume/:candidateId')] *)
Definition postResume (req : Request.t) : Handler :=
  tryCatch
    (match Request.file req with
     | None => ret (Response.failure 400 "فایل رزومه الزامی است")
     | Some file =>
         candidate <- CandidatesRouter.findOne
                        (Request.param req "candidateId")
                        (Request.organization req) ;;
         match candidate with
         | None => ret CandidatesRouter.notFound
         | Some candidate =>
             let resumeUrl :=
               ("/uploads/" ++ Request.organization req ++ "/"
                  ++ Upload.filename file)%string in
             let candidate := set_hasResume true candidate in
             let candidate := set_resumeUrl (Some resumeUrl) candidate in
             _ <- CandidateMethods.save (Request.now req) candidate ;;
             ret (Response.okWith (Some "رزومه با موفقیت آپلود شد")
                    (Response.UrlData resumeUrl))
         end
     end)
    "خطا در آپلود رزومه".

(** [candidate.resumeUrl] as a condition. *)
Definition hasUrl (c : t) : bool :=
  match resumeUrl c with
  | Some u => negb (String.eqb u "")
  | None => false
  end.

(** [router.delete('/:type/:candidateId')] *)
Definition deleteFile (req : Request.t) : Handler :=
  tryCatch
    (candidate <- CandidatesRouter.findOne
                    (Request.param req "candidateId")
                    (Request.organization req) ;;
     match candidate with
     | None => ret CandidatesRouter.notFound
     | Some candidate =>
         _ <- (if String.eqb (Request.param req "type") "resume"
                  && hasUrl candidate
               then
                 let candidate := set_hasResume false candidate in
                 let candidate := set_resumeUrl None candidate in
                 CandidateMethods.save (Request.now req) candidate
               else ret candidate) ;;
         ret (Response.okWith (Some "فایل حذف شد") Response.NoData)
     end)
    "خطا در حذف فایل".
End FilesRouter.

(** ** A regular-expression engine for the patterns made of literal
    characters and the dot

    Under option [i] a literal character matches itself up to ASCII case,
    and [.] matches any character but a line feed; the test is
    unanchored.  The engine refuses every pattern that holds another
    metacharacter, so it stands for the store's engine on this fragment
    only. *)

Module DotPattern.
Definition lineFeed : ascii := ascii_of_nat 10.

Definition isMeta (c : ascii) : bool :=
  existsb (Ascii.eqb c) (list_ascii_of_string "\^$*+?()[]{}|").

Definition charMatches (pc sc : ascii) : bool :=
  if Ascii.eqb pc "." then negb (Ascii.eqb sc lineFeed)
  else Ascii.eqb (lowerChar pc) (lowerChar sc).

Fixpoint matchesHere (p s : string) : bool :=
  match p, s with
  | EmptyString, _ => true
  | String _ _, EmptyString => false
  | String pc p', String sc s' => charMatches pc sc && matchesHere p' s'
  end.

Fixpoint hasMatch (p s : string) : bool :=
  matchesHere p s
  || match s with
     | EmptyString => false
     | String _ s' => hasMatch p s'
     end.

Definition inFragment (p : string) : bool :=
  forallb (fun c => negb (isMeta c)) (list_ascii_of_string p).

Definition compile (p : string) : option (string -> bool) :=
  if inFragment p then Some (hasMatch p) else None.

(** No dot: every character of the pattern is a literal. *)
Definition literal (p : string) : bool :=
  forallb (fun c => negb (isMeta c) && negb (Ascii.eqb c "."))
    (list_ascii_of_string p).
End DotPattern.

(** The whole condition of [queryObj] on a document, once the pattern is
    compiled; a refused pattern matches nothing. *)
Definition satisfies (compileRegex : string -> option (string -> bool))
    (f : CandidatesRouter.Filter) (c : Candidate.t) : bool :=
  CandidatesRouter.plainConditions f c
  && match CandidatesRouter.f_search f with
     | None => true
     | Some pattern =>
         match compileRegex pattern with
         | Some m => CandidatesRouter.searchHit m c
         | None => false
         end
     end.

(** ** The invariant that ties [stage] to [isArchived] *)

Definition archiveInvariant (c : Candidate.t) : Prop :=
  Candidate.stage c = "archived" <-> Candidate.isArchived c = true.

(** [o ? [o] : []] *)
Definition optionToList {A : Type} (o : option A) : list A :=
  match o with
  | Some a => [a]
  | None => []
  end.

(** The stages that [reorderStages] keeps, in the order it keeps them: for
    each element of the request's array, the stage it finds. *)
Definition listed (stageIds : list Value) (stages : list Stage.t)
  : list Stage.t :=
  flat_map (fun v => optionToList (find (OrganizationMethods.sameId v) stages))
    stageIds.

(** The positions that the loop of [reorderStages] pushes. *)
Definition positions (stageIds : list Value) (stages : list Stage.t)
  : list nat :=
  flat_map
    (fun v => optionToList (findIndex (OrganizationMethods.sameId v) stages))
    stageIds.

(** The paths of a stage that reordering does not touch. *)
Definition sansOrder (s : Stage.t) : string * string * bool * option string :=
  (Stage.id s, Stage.title s, Stage.isCore s, Stage.color s).

(** The document that the update route stores once the patch [c1] of the
    loaded candidate went through: [lastModifiedBy], the pushed entry and
    the timestamp of [save]. *)
Definition updated (req : Request.t) (c1 : Candidate.t) : Candidate.t :=
  Candidate.set_updatedAt (Request.now req)
    (Candidate.set_history
       (Candidate.history c1 ++ [CandidatesRouter.editedEntry req])
       (Candidate.set_lastModifiedBy
          (Some (User._id (Request.user req))) c1)).

(** The documents of a collection other than the one of [_id = id], in
    their order. *)
Definition others (id : ObjectId) (l : list Candidate.t) : list Candidate.t :=
  filter (fun d => negb (String.eqb (Candidate._id d) id)) l.

(** A step of the database that leaves every candidate other than the one
    of [_id = id], and every organization, as it was. *)
Definition touchesOnly (id : ObjectId) (db db' : Db) : Prop :=
  others id (candidates db') = others id (candidates db)
  /\ organizations db' = organizations db.

(** The candidates of a tenant, as [canAddCandidate] counts them. *)
Definition tenantCount (org : ObjectId) (db : Db) : Z :=
  Z.of_nat
    (List.length (filter (CandidatesRouter.ofTenant org) (candidates db))).

(** [t] extends [s] at the end. *)
Definition extends {A : Type} (s t : list A) : Prop :=
  exists more, t = s ++ more.

(** A step of the database in which every stored candidate comes from a
    stored candidate of the same [_id] whose history and comments it
    extends at the end. *)
Definition appendOnly (db db' : Db) : Prop :=
  forall d', In d' (candidates db') ->
    exists d, In d (candidates db)
              /\ Candidate._id d = Candidate._id d'
              /\ extends (Candidate.history d) (Candidate.history d')
              /\ extends (Candidate.comments d) (Candidate.comments d').

(** The direction that the list route hands to [sort]. *)
Definition directionOf (req : Request.t) : Z :=
  if String.eqb
       (CandidatesRouter.orDefault (Query.order (Request.query req)) "desc")
       "desc"
  then -1 else 1.


(** The two together. *)
Definition quiet (id : ObjectId) (db db' : Db) : Prop :=
  touchesOnly id db db' /\ appendOnly db db'.

(** What [if (req.body.x) stage.x = req.body.x] does with a body value that
    is a string, [null] or absent. *)
Definition whenGiven (given : option string) (set : string -> Stage.t -> Stage.t)
    (s : Stage.t) : Stage.t :=
  match given with
  | Some t => if String.eqb t "" then s else set t s
  | None => s
  end.



(** ** Sample data *)

Module Sample.
Definition admin : User.t := User.mk "u1" "Sara" "sara" "sara@acme.io" true.
Definition acme : ObjectId := "org1".
Definition other : ObjectId := "org2".

Definition ali : Candidate.t :=
  Candidate.set_source "LinkedIn"
    (Candidate.set_position "Engineer"
       (Candidate.set_phone "0912"
          (Candidate.set_email "ali@mail.com"
             (Candidate.set_name "Ali"
                (Candidate.set_createdBy (Some "u1")
                   (Candidate.set_organization (Some acme)
                      (Candidate.defaults "c1" 100))))))).

Definition abi : Candidate.t :=
  Candidate.set_email "bob@mail.com"
    (Candidate.set_name "Abi" (Candidate.set_id "c2" ali)).


Definition aliArchived : Candidate.t :=
  Candidate.set_stage "archived"
    (Candidate.set_archivedBy (Some "u1")
       (Candidate.set_archivedAt (Some 150)
          (Candidate.set_isArchived true ali))).

Definition org : Organization.t :=
  Organization.mk acme "Acme" Organization.defaultStages 5 100.

Definition db (cs : list Candidate.t) : Db := mkDb cs [org].

Definition request (id : string) (body : list (string * Value)) : Request.t :=
  Request.mk admin acme [("id", id)] Query.empty body None 200 "c9".

Definition inInterview : Candidate.t := Candidate.set_stage "interview-2" ali.

Definition stageRequest (newStage : string) : Request.t :=
  request "c1" [("stage", VStr newStage)].

(** A stand-in for [isEmail]: the text holds an at sign. *)
Definition hasAt (s : string) : bool := includes "@" s.

Definition searchRequest (pattern : string) : Request.t :=
  Request.mk admin acme []
    (Query.mk None None None (Some pattern) None None None None None)
    [] None 200 "c9".

Definition report : Upload.t :=
  Upload.mk "report.pdf" "application/pdf" "file-1.pdf".

Definition uploadRequest : Request.t :=
  Request.mk admin acme [("candidateId", "c1"); ("testId", "t1")]
    Query.empty [] (Some report) 200 "c9".


(** A user who is not an administrator. *)
Definition member : User.t := User.mk "u2" "Omid" "omid" "omid@acme.io" false.

Definition memberRequest (id : string) : Request.t :=
  Request.mk member acme [("id", id)] Query.empty [] None 200 "c9".

(** A body for the create route; it names another tenant. *)
Definition newcomer : list (string * Value) :=
  [("name", VStr "Sam"); ("email", VStr "Sam@Mail.com");
   ("phone", VStr "0935"); ("position", VStr "Designer");
   ("source", VStr "LinkedIn"); ("organization", VStr "org2")].

Definition createRequest : Request.t := request "c9" newcomer.



Definition listRequest (sortBy order : string) (page : Z) : Request.t :=
  Request.mk admin acme []
    (Query.mk None None None None (Some sortBy) (Some order) (Some page) None
       None)
    [] None 200 "c9".

Definition deleteFileRequest (type : string) : Request.t :=
  Request.mk admin acme [("type", type); ("candidateId", "c1")]
    Query.empty [] None 300 "c9".
End Sample.

(** * Properties *)

(** ** Documents and the collection *)

Lemma ofTenant_preSave (org : ObjectId) (c : Candidate.t) :
  CandidatesRouter.ofTenant org c = true -> CandidateMethods.preSave c = true.
Proof.
  unfold CandidatesRouter.ofTenant, CandidateMethods.preSave.
  destruct (Candidate.organization c); [reflexivity | discriminate].
Qed.

Lemma find_replaceById (f : Candidate.t -> bool) (l : list Candidate.t)
    (c c' : Candidate.t) :
  find f l = Some c ->
  Candidate._id c' = Candidate._id c ->
  f c' = true ->
  find f (CandidateMethods.replaceById c' l) = Some c'.
Proof.
  intros Hfind Hid Hf. induction l as [|d l IH]; simpl in *.
  - discriminate.
  - destruct (String.eqb (Candidate._id d) (Candidate._id c')) eqn:E.
    + simpl. now rewrite Hf.
    + simpl. destruct (f d) eqn:Fd.
      * inversion Hfind; subst d. rewrite Hid, String.eqb_refl in E.
        discriminate.
      * now apply IH.
Qed.

Lemma findOne_run (id org : ObjectId) (db : Db) :
  CandidatesRouter.findOne id org db
  = (Done (find (CandidatesRouter.selects id org) (candidates db)), db).
Proof. reflexivity. Qed.

Lemma find_selects (id org : ObjectId) (l : list Candidate.t)
    (c : Candidate.t) :
  find (CandidatesRouter.selects id org) l = Some c ->
  Candidate._id c = id /\ CandidatesRouter.ofTenant org c = true.
Proof.
  intros H. apply find_some in H. destruct H as [_ H].
  unfold CandidatesRouter.selects in H. apply andb_true_iff in H. destruct H as [H1 H2].
  split; [now apply String.eqb_eq | assumption].
Qed.

Lemma save_run (now : Date) (c : Candidate.t) (db : Db) :
  CandidateMethods.preSave c = true ->
  CandidateMethods.save now c db
  = (Done (Candidate.set_updatedAt now c),
     set_candidates
       (CandidateMethods.replaceById (Candidate.set_updatedAt now c)
          (candidates db)) db).
Proof.
  intros H. unfold CandidateMethods.save. now rewrite H.
Qed.

(** The candidate that an operation leaves in the collection under the
    request's [id], seen from the request's tenant. *)
Lemma stored_after_save (req : Request.t) (db : Db) (c c' : Candidate.t)
    (now : Date) :
  find (CandidatesRouter.selects (Request.param req "id")
          (Request.organization req)) (candidates db) = Some c ->
  Candidate._id c' = Candidate._id c ->
  Candidate.organization c' = Candidate.organization c ->
  exists db',
    CandidateMethods.save now c' db
    = (Done (Candidate.set_updatedAt now c'), db')
    /\ organizations db' = organizations db
    /\ find (CandidatesRouter.selects (Request.param req "id")
               (Request.organization req)) (candidates db')
       = Some (Candidate.set_updatedAt now c').
Proof.
  intros Hfind Hid Horg.
  destruct (find_selects _ _ _ _ Hfind) as [Hc Ht].
  assert (Ht' : CandidatesRouter.ofTenant (Request.organization req) c' = true).
  { unfold CandidatesRouter.ofTenant in *. now rewrite Horg. }
  eexists. split; [apply save_run; eapply ofTenant_preSave; eassumption|].
  split; [reflexivity|]. simpl.
  apply find_replaceById with (c := c); simpl; trivial.
  unfold CandidatesRouter.selects. simpl.
  rewrite Hid, Hc, String.eqb_refl. exact Ht'.
Qed.

(** ** C2: the stage transition *)



(** The validation chain in front of the handler: an empty or missing
    [stage] is answered 400 and nothing is touched; any other string
    reaches the handler. *)
Lemma putCandidateStage_validation (req : Request.t) (db : Db) :
  (notEmpty (getField (Request.body req) "stage") = false ->
   CandidatesRouter.putCandidateStage req db
   = (Response.mk 400 false None Response.NoData
        [("stage", "مرحله جدید الزامی است")], db))
  /\ (notEmpty (getField (Request.body req) "stage") = true ->
      CandidatesRouter.putCandidateStage req db
      = CandidatesRouter.putCandidateStageHandler req db).
Proof.
  unfold CandidatesRouter.putCandidateStage, handleValidationErrors, check.
  split; intros H; rewrite H; reflexivity.
Qed.

(** ** Archive and unarchive *)

Lemma preSave_of_organization (c c' : Candidate.t) :
  Candidate.organization c' = Candidate.organization c ->
  CandidateMethods.preSave c = true -> CandidateMethods.preSave c' = true.
Proof. unfold CandidateMethods.preSave. now intros ->. Qed.

Lemma archive_run (c : Candidate.t) (user : User.t) (now : Date) (db : Db) :
  CandidateMethods.preSave c = true ->
  exists c' db',
    CandidateMethods.archive c user now db = (Done c', db')
    /\ Candidate.isArchived c' = true
    /\ Candidate.stage c' = "archived"
    /\ Candidate.archivedAt c' = Some now
    /\ Candidate.archivedBy c' = Some (User._id user)
    /\ Candidate.history c'
       = Candidate.history c
           ++ [HistoryEntry.mk (User.nameOrUsername user) "متقاضی آرشیو شد"
                 None now]
    /\ Candidate._id c' = Candidate._id c
    /\ Candidate.organization c' = Candidate.organization c
    /\ organizations db' = organizations db
    /\ candidates db'
       = CandidateMethods.replaceById c'
           (CandidateMethods.replaceById c' (candidates db)).
Proof.
  intros H.
  unfold CandidateMethods.archive, CandidateMethods.addHistoryEntry, bind.
  rewrite save_run by exact (preSave_of_organization c _ eq_refl H).
  rewrite save_run by exact (preSave_of_organization c _ eq_refl H).
  do 2 eexists. split; [reflexivity|]. repeat split.
Qed.

Lemma unarchive_run (c : Candidate.t) (user : User.t) (now : Date) (db : Db) :
  CandidateMethods.preSave c = true ->
  exists c' db',
    CandidateMethods.unarchive c user now db = (Done c', db')
    /\ Candidate.isArchived c' = false
    /\ Candidate.stage c' = "inbox"
    /\ Candidate.archivedAt c' = None
    /\ Candidate.archivedBy c' = None
    /\ Candidate.history c'
       = Candidate.history c
           ++ [HistoryEntry.mk (User.nameOrUsername user)
                 "متقاضی از آرشیو خارج شد" None now]
    /\ Candidate._id c' = Candidate._id c
    /\ Candidate.organization c' = Candidate.organization c
    /\ organizations db' = organizations db
    /\ candidates db'
       = CandidateMethods.replaceById c'
           (CandidateMethods.replaceById c' (candidates db)).
Proof.
  intros H.
  unfold CandidateMethods.unarchive, CandidateMethods.addHistoryEntry, bind.
  rewrite save_run by exact (preSave_of_organization c _ eq_refl H).
  rewrite save_run by exact (preSave_of_organization c _ eq_refl H).
  do 2 eexists. split; [reflexivity|]. repeat split.
Qed.

(** ** C5: archive, then unarchive *)

(** C5.  For every candidate, in any stage, [archive()] followed by
    [unarchive()] succeeds and leaves [stage = "inbox"], the entry stage,
    whatever stage the candidate held before (so a candidate that was not
    in the entry stage does not get its stage back); [isArchived] is false
    and [archivedAt] and [archivedBy] are cleared. *)
Theorem archive_then_unarchive_resets_to_inbox
    (c : Candidate.t) (u1 u2 : User.t) (t1 t2 : Date) (db : Db) :
  CandidateMethods.preSave c = true ->
  exists c1 db1 c2 db2,
    CandidateMethods.archive c u1 t1 db = (Done c1, db1)
    /\ CandidateMethods.unarchive c1 u2 t2 db1 = (Done c2, db2)
    /\ Candidate.stage c2 = "inbox"
    /\ (Candidate.stage c <> "inbox" -> Candidate.stage c2 <> Candidate.stage c)
    /\ Candidate.isArchived c2 = false
    /\ Candidate.archivedAt c2 = None
    /\ Candidate.archivedBy c2 = None.
Proof.
  intros H.
  destruct (archive_run c u1 t1 db H)
    as (c1 & db1 & Ha & _ & _ & _ & _ & _ & _ & Horg & _).
  destruct (unarchive_run c1 u2 t2 db1 (preSave_of_organization c c1 Horg H))
    as (c2 & db2 & Hu & Hno & Hst & Hat & Hby & _).
  exists c1, db1, c2, db2. repeat split; trivial.
  intros Hne. rewrite Hst. congruence.
Qed.

Lemma archive_then_unarchive_witness :
  CandidateMethods.preSave Sample.inInterview = true
  /\ exists c1 db1 c2 db2,
       CandidateMethods.archive Sample.inInterview Sample.admin 300
         (Sample.db [Sample.inInterview]) = (Done c1, db1)
       /\ CandidateMethods.unarchive c1 Sample.admin 400 db1 = (Done c2, db2)
       /\ Candidate.stage c2 = "inbox"
       /\ (Candidate.stage Sample.inInterview <> "inbox"
           -> Candidate.stage c2 <> Candidate.stage Sample.inInterview)
       /\ Candidate.isArchived c2 = false
       /\ Candidate.archivedAt c2 = None
       /\ Candidate.archivedBy c2 = None.
Proof.
  split; [reflexivity|].
  apply (archive_then_unarchive_resets_to_inbox Sample.inInterview
           Sample.admin Sample.admin 300 400 (Sample.db [Sample.inInterview])).
  reflexivity.
Defined.

(** ** Assignment to a path leaves the other paths alone *)

Lemma option_map_Some {A B : Type} (f : A -> B) (o : option A) (b : B) :
  option_map f o = Some b -> exists a, o = Some a /\ b = f a.
Proof.
  destruct o as [a|]; simpl; intros H; [|discriminate].
  inversion H. now exists a.
Qed.

Ltac frame_case :=
  let H := fresh "H" in
  let a := fresh "a" in
  let E := fresh "E" in
  intros H; apply option_map_Some in H; destruct H as (a & E & ->);
  repeat split; intros; solve [reflexivity | congruence].

Lemma setPath_frame (now : Date) (key : string) (v : Value)
    (c c' : Candidate.t) :
  Assign.setPath now key v c = Some c' ->
  (key <> "_id" -> Candidate._id c' = Candidate._id c)
  /\ (key <> "organization"
      -> Candidate.organization c' = Candidate.organization c)
  /\ (key <> "history" -> Candidate.history c' = Candidate.history c)
  /\ (key <> "comments" -> Candidate.comments c' = Candidate.comments c)
  /\ (key <> "stage" -> Candidate.stage c' = Candidate.stage c)
  /\ (key <> "isArchived"
      -> Candidate.isArchived c' = Candidate.isArchived c).
Proof.
  unfold Assign.setPath, Assign.isKey.
  repeat match goal with
         | |- context [String.eqb key ?n] =>
             destruct (String.eqb_spec key n) as [->|?]; [frame_case|]
         end.
  intros H; inversion H; repeat split; reflexivity.
Qed.

Lemma assignable_true (key : string) :
  CandidatesRouter.assignable key = true ->
  key <> "history" /\ key <> "comments" /\ key <> "_id"
  /\ key <> "organization".
Proof.
  unfold CandidatesRouter.assignable. intros H.
  repeat (apply andb_true_iff in H; destruct H as [H ?]).
  repeat match goal with
         | X : negb (String.eqb _ _) = true |- _ =>
             apply negb_true_iff, String.eqb_neq in X
         end.
  auto.
Qed.

Lemma updateFields_frame (now : Date) (body : list (string * Value)) :
  forall c c' : Candidate.t,
    CandidatesRouter.updateFields now body c = Some c' ->
    Candidate._id c' = Candidate._id c
    /\ Candidate.organization c' = Candidate.organization c
    /\ Candidate.history c' = Candidate.history c
    /\ Candidate.comments c' = Candidate.comments c
    /\ (~ In "stage" (keys body) -> Candidate.stage c' = Candidate.stage c)
    /\ (~ In "isArchived" (keys body)
        -> Candidate.isArchived c' = Candidate.isArchived c).
Proof.
  induction body as [|[key v] rest IH]; intros c c' H; simpl in H.
  - inversion H. repeat split; reflexivity.
  - destruct (CandidatesRouter.assignable key) eqn:Ea.
    + destruct (Assign.setPath now key v c) as [c1|] eqn:Es; [|discriminate].
      destruct (assignable_true key Ea) as (N1 & N2 & N3 & N4).
      destruct (setPath_frame now key v c c1 Es)
        as (F1 & F2 & F3 & F4 & F5 & F6).
      destruct (IH c1 c' H) as (G1 & G2 & G3 & G4 & G5 & G6).
      rewrite G1, G2, G3, G4, F1, F2, F3, F4 by assumption.
      repeat split; trivial; simpl; intros Hn.
      * rewrite G5, F5; trivial; intro; apply Hn; [now left | now right].
      * rewrite G6, F6; trivial; intro; apply Hn; [now left | now right].
    + destruct (IH c c' H) as (G1 & G2 & G3 & G4 & G5 & G6).
      repeat split; trivial; simpl; intros Hn; [apply G5 | apply G6];
        intro; apply Hn; now right.
Qed.

Lemma assignAll_frame (now : Date) (obj : list (string * Value)) :
  forall c c' : Candidate.t,
    Assign.assignAll now obj c = Some c' ->
    (~ In "stage" (keys obj) -> Candidate.stage c' = Candidate.stage c)
    /\ (~ In "isArchived" (keys obj)
        -> Candidate.isArchived c' = Candidate.isArchived c).
Proof.
  induction obj as [|[key v] rest IH]; intros c c' H; simpl in H.
  - inversion H. split; reflexivity.
  - destruct (Assign.setPath now key v c) as [c1|] eqn:Es; [|discriminate].
    destruct (setPath_frame now key v c c1 Es) as (_ & _ & _ & _ & F5 & F6).
    destruct (IH c1 c' H) as (G5 & G6).
    split; simpl; intros Hn.
    + rewrite G5, F5; trivial; intro; apply Hn; [now left | now right].
    + rewrite G6, F6; trivial; intro; apply Hn; [now left | now right].
Qed.

Lemma keys_filter (f : string * Value -> bool) (obj : list (string * Value))
    (k : string) :
  In k (keys (filter f obj)) -> In k (keys obj).
Proof.
  unfold keys. rewrite !in_map_iff. intros (kv & E & Hin).
  apply filter_In in Hin. exists kv. tauto.
Qed.

Lemma updateStage_run (c : Candidate.t) (newStage : string) (user : User.t)
    (now : Date) (db : Db) :
  CandidateMethods.preSave c = true ->
  exists c' db',
    CandidateMethods.updateStage c newStage user now db = (Done c', db')
    /\ Candidate.stage c' = newStage
    /\ Candidate.isArchived c' = Candidate.isArchived c
    /\ Candidate.history c'
       = Candidate.history c
           ++ [HistoryEntry.mk (User.nameOrUsername user)
                 (CandidateMethods.stageChangedText (Candidate.stage c)
                    newStage) None now].
Proof.
  intros H.
  unfold CandidateMethods.updateStage, CandidateMethods.addHistoryEntry, bind.
  rewrite save_run by exact (preSave_of_organization c _ eq_refl H).
  do 2 eexists. split; [reflexivity|]. repeat split.
Qed.


(** ** C7: the update route *)



Lemma putCandidate_run (isEmail : string -> bool) (req : Request.t) (db : Db)
    (c : Candidate.t) :
  find (CandidatesRouter.selects (Request.param req "id")
          (Request.organization req)) (candidates db) = Some c ->
  exists resp db',
    CandidatesRouter.putCandidate isEmail req db = (resp, db')
    /\ (CandidatesRouter.optionalEmailPasses isEmail
          (getField (Request.body req) "email") = false ->
        resp = Response.mk 400 false None Response.NoData
                 [("email", "ایمیل معتبر وارد کنید")] /\ db' = db)
    /\ (CandidatesRouter.optionalEmailPasses isEmail
          (getField (Request.body req) "email") = true ->
        match CandidatesRouter.updateFields (Request.now req)
                (Request.body req) c with
        | None =>
            resp = Response.failure 500 "خطا در به‌روزرسانی متقاضی" /\ db' = db
        | Some c1 =>
            resp = Response.okWith (Some "اطلاعات با موفقیت به‌روزرسانی شد")
                     (Response.CandidateData (updated req c1))
            /\ find (CandidatesRouter.selects (Request.param req "id")
                       (Request.organization req)) (candidates db')
               = Some (updated req c1)
            /\ organizations db' = organizations db
        end).
Proof.
  intros Hfind.
  unfold CandidatesRouter.putCandidate, handleValidationErrors, check.
  destruct (CandidatesRouter.optionalEmailPasses isEmail _) eqn:Ev.
  - unfold tryCatch, bind. rewrite findOne_run, Hfind.
    destruct (CandidatesRouter.updateFields _ _ c) as [c1|] eqn:Eu.
    + destruct (updateFields_frame _ _ _ _ Eu) as (I & O & _).
      destruct (stored_after_save req db c
                  (Candidate.set_history
                     (Candidate.history c1 ++ [CandidatesRouter.editedEntry req])
                     (Candidate.set_lastModifiedBy
                        (Some (User._id (Request.user req))) c1))
                  (Request.now req) Hfind I O) as (db' & Hsave & Ho & Hf).
      change (Candidate.history (Candidate.set_lastModifiedBy _ c1))
        with (Candidate.history c1).
      rewrite Hsave. do 2 eexists. split; [reflexivity|].
      split; [discriminate|]. intros _. repeat split; assumption.
    + do 2 eexists. split; [reflexivity|]. split; [discriminate|].
      intros _. split; reflexivity.
  - do 2 eexists. split; [reflexivity|]. split; [|discriminate].
    intros _. split; reflexivity.
Qed.


(** ** C3: [stage = "archived"] iff [isArchived] *)

Lemma postCandidate_created (isEmail : string -> bool) (req : Request.t)
    (db : Db) (resp : Response.t) (db' : Db) :
  CandidatesRouter.postCandidate isEmail req db = (resp, db') ->
  Response.statusCode resp = 201 ->
  exists c',
    CandidatesRouter.newCandidate req = Some c'
    /\ Response.data resp = Response.CandidateData c'
    /\ candidates db' = candidates db ++ [c'].
Proof.
  unfold CandidatesRouter.postCandidate, handleValidationErrors.
  destruct (_ ++ _) as [|e errs].
  - unfold tryCatch, bind, CandidatesRouter.findById.
    destruct (find _ (organizations db)) as [o|];
      [|intros H; inversion H; subst; discriminate].
    unfold OrganizationMethods.canAddCandidate.
    destruct (_ <? _); simpl;
      [|intros H; inversion H; subst; discriminate].
    destruct (getField (Request.body req) "email") as [mail|].
    + unfold CandidatesRouter.findByEmail.
      destruct (Cast.string_ mail);
        [|intros H; inversion H; subst; discriminate].
      destruct (find _ (candidates db));
        [intros H; inversion H; subst; discriminate|].
      destruct (CandidatesRouter.newCandidate req) as [c'|];
        [|intros H; inversion H; subst; discriminate].
      unfold CandidateMethods.saveNew.
      destruct (CandidateMethods.preSave c');
        [|intros H; inversion H; subst; discriminate].
      destruct (existsb _ _);
        [intros H; inversion H; subst; discriminate|].
      intros H _. inversion H; subst. exists c'. repeat split.
    + unfold ret.
      destruct (CandidatesRouter.newCandidate req) as [c'|];
        [|intros H; inversion H; subst; discriminate].
      unfold CandidateMethods.saveNew.
      destruct (CandidateMethods.preSave c');
        [|intros H; inversion H; subst; discriminate].
      destruct (existsb _ _);
        [intros H; inversion H; subst; discriminate|].
      intros H _. inversion H; subst. exists c'. repeat split.
  - intros H; inversion H; subst; discriminate.
Qed.

Lemma newCandidate_invariant (req : Request.t) (c' : Candidate.t) :
  CandidatesRouter.newCandidate req = Some c' ->
  ~ In "stage" (keys (Request.body req)) ->
  ~ In "isArchived" (keys (Request.body req)) ->
  Candidate.stage c' = "inbox" /\ Candidate.isArchived c' = false.
Proof.
  unfold CandidatesRouter.newCandidate. intros H Hs Ha.
  destruct (Assign.assignAll _ _ _) as [c1|] eqn:Ea; [|discriminate].
  inversion H; subst c'; clear H. simpl.
  destruct (assignAll_frame _ _ _ _ Ea) as (S & A).
  rewrite S, A by (intro K; apply keys_filter in K; contradiction).
  split; reflexivity.
Qed.

(** C3, as the code has it.  [archive] and [unarchive] establish the
    invariant from any candidate.  A stage transition to [newStage] leaves
    it true exactly when [newStage = "archived"] agrees with [isArchived].
    An update that goes through keeps it when the patch names neither
    [stage] nor [isArchived], and a created candidate has it when the body
    names neither. *)
Theorem archive_invariant_by_operation
    (isEmail : string -> bool) (req : Request.t) (db : Db) (c : Candidate.t)
    (newStage : string) :
  find (CandidatesRouter.selects (Request.param req "id")
          (Request.organization req)) (candidates db) = Some c ->
  (exists c' db',
      CandidateMethods.archive c (Request.user req) (Request.now req) db
      = (Done c', db')
      /\ archiveInvariant c')
  /\ (exists c' db',
         CandidateMethods.unarchive c (Request.user req) (Request.now req) db
         = (Done c', db')
         /\ archiveInvariant c')
  /\ (exists c' db',
         CandidateMethods.updateStage c newStage (Request.user req)
           (Request.now req) db = (Done c', db')
         /\ (archiveInvariant c'
             <-> (newStage = "archived" <-> Candidate.isArchived c = true)))
  /\ (forall resp db',
         CandidatesRouter.putCandidate isEmail req db = (resp, db') ->
         Response.statusCode resp = 200 ->
         ~ In "stage" (keys (Request.body req)) ->
         ~ In "isArchived" (keys (Request.body req)) ->
         archiveInvariant c ->
         exists c',
           Response.data resp = Response.CandidateData c'
           /\ find (CandidatesRouter.selects (Request.param req "id")
                      (Request.organization req)) (candidates db') = Some c'
           /\ archiveInvariant c')
  /\ (forall resp db',
         CandidatesRouter.postCandidate isEmail req db = (resp, db') ->
         Response.statusCode resp = 201 ->
         ~ In "stage" (keys (Request.body req)) ->
         ~ In "isArchived" (keys (Request.body req)) ->
         exists c',
           Response.data resp = Response.CandidateData c'
           /\ candidates db' = candidates db ++ [c']
           /\ archiveInvariant c').
Proof.
  intros Hfind.
  assert (H : CandidateMethods.preSave c = true).
  { apply find_selects in Hfind. eapply ofTenant_preSave, Hfind. }
  unfold archiveInvariant. split; [|split; [|split; [|split]]].
  - destruct (archive_run c (Request.user req) (Request.now req) db H)
      as (c' & db' & E & Ha & Hs & _).
    exists c', db'. rewrite Ha, Hs. tauto.
  - destruct (unarchive_run c (Request.user req) (Request.now req) db H)
      as (c' & db' & E & Ha & Hs & _).
    exists c', db'. rewrite Ha, Hs. repeat split; trivial; discriminate.
  - destruct (updateStage_run c newStage (Request.user req)
                (Request.now req) db H) as (c' & db' & E & Hs & Ha & _).
    exists c', db'. rewrite Ha, Hs. tauto.
  - intros resp db' Hrun Hok Hs Ha Hinv.
    destruct (putCandidate_run isEmail req db c Hfind)
      as (resp0 & db0 & Hrun0 & Hbad & Hgood).
    rewrite Hrun in Hrun0. inversion Hrun0; subst resp0 db0; clear Hrun0.
    destruct (CandidatesRouter.optionalEmailPasses isEmail _).
    + specialize (Hgood eq_refl).
      destruct (CandidatesRouter.updateFields _ _ c) as [c1|] eqn:Eu.
      * destruct Hgood as (-> & Hf & _). exists (updated req c1).
        split; [reflexivity|]. split; [exact Hf|].
        destruct (updateFields_frame _ _ _ _ Eu)
          as (_ & _ & _ & _ & S & A).
        simpl. rewrite S, A by assumption. exact Hinv.
      * destruct Hgood as (-> & _). discriminate.
    + destruct (Hbad eq_refl) as (-> & _). discriminate.
  - intros resp db' Hrun Hok Hs Ha.
    destruct (postCandidate_created isEmail req db resp db' Hrun Hok)
      as (c' & Hn & Hd & Hc).
    exists c'. split; [exact Hd|]. split; [exact Hc|].
    destruct (newCandidate_invariant req c' Hn Hs Ha) as (-> & ->).
    split; discriminate.
Qed.

(** ** C10: the archive route is a toggle *)

Lemma find_after_two_writes (req : Request.t) (l : list Candidate.t)
    (c c' : Candidate.t) :
  find (CandidatesRouter.selects (Request.param req "id")
          (Request.organization req)) l = Some c ->
  Candidate._id c' = Candidate._id c ->
  Candidate.organization c' = Candidate.organization c ->
  find (CandidatesRouter.selects (Request.param req "id")
          (Request.organization req))
    (CandidateMethods.replaceById c' (CandidateMethods.replaceById c' l))
  = Some c'.
Proof.
  intros Hfind Hid Horg.
  destruct (find_selects _ _ _ _ Hfind) as [Hc Ht].
  assert (Hsel : CandidatesRouter.selects (Request.param req "id")
                   (Request.organization req) c' = true).
  { unfold CandidatesRouter.selects, CandidatesRouter.ofTenant in *.
    rewrite Hid, Hc, String.eqb_refl, Horg. exact Ht. }
  apply find_replaceById with (c := c'); trivial.
  apply find_replaceById with (c := c); trivial.
Qed.

Lemma putArchive_step (req : Request.t) (db : Db) (c : Candidate.t) :
  find (CandidatesRouter.selects (Request.param req "id")
          (Request.organization req)) (candidates db) = Some c ->
  exists c' db',
    CandidatesRouter.putArchive req db
    = (Response.okWith
         (Some (if Candidate.isArchived c then "متقاضی از آرشیو خارج شد"
                else "متقاضی آرشیو شد"))
         (Response.CandidateData c'), db')
    /\ find (CandidatesRouter.selects (Request.param req "id")
               (Request.organization req)) (candidates db') = Some c'
    /\ Candidate.isArchived c' = negb (Candidate.isArchived c)
    /\ Candidate.stage c'
       = (if Candidate.isArchived c then "inbox" else "archived")
    /\ List.length (Candidate.history c')
       = S (List.length (Candidate.history c)).
Proof.
  intros Hfind.
  assert (H : CandidateMethods.preSave c = true).
  { apply find_selects in Hfind. eapply ofTenant_preSave, Hfind. }
  unfold CandidatesRouter.putArchive, tryCatch, bind.
  rewrite findOne_run, Hfind.
  destruct (Candidate.isArchived c) eqn:Ea.
  - destruct (unarchive_run c (Request.user req) (Request.now req) db H)
      as (c' & db' & E & Ha & Hs & _ & _ & Hh & Hi & Ho & _ & Hc).
    rewrite E. exists c', db'. split; [reflexivity|].
    split; [rewrite Hc; now apply find_after_two_writes with (c := c)|].
    repeat split; trivial. rewrite Hh, length_app. simpl. lia.
  - destruct (archive_run c (Request.user req) (Request.now req) db H)
      as (c' & db' & E & Ha & Hs & _ & _ & Hh & Hi & Ho & _ & Hc).
    rewrite E. exists c', db'. split; [reflexivity|].
    split; [rewrite Hc; now apply find_after_two_writes with (c := c)|].
    repeat split; trivial. rewrite Hh, length_app. simpl. lia.
Qed.

(** C10, as the code has it.  The archive route toggles: on a candidate
    that is not archived it archives ([isArchived] true, stage
    ["archived"]); on an archived one the same call unarchives
    ([isArchived] false, stage ["inbox"]), so the route cannot archive an
    archived candidate.  Two successive calls bring [isArchived] back to
    what it was: a candidate that was not archived ends not archived, in
    ["inbox"], and one that was archived ends archived again. *)
Theorem archive_route_toggles
    (req1 req2 : Request.t) (db : Db) (c : Candidate.t) :
  Request.param req2 "id" = Request.param req1 "id" ->
  Request.organization req2 = Request.organization req1 ->
  find (CandidatesRouter.selects (Request.param req1 "id")
          (Request.organization req1)) (candidates db) = Some c ->
  exists r1 c1 db1 r2 c2 db2,
    CandidatesRouter.putArchive req1 db = (r1, db1)
    /\ Response.statusCode r1 = 200
    /\ Response.data r1 = Response.CandidateData c1
    /\ Candidate.isArchived c1 = negb (Candidate.isArchived c)
    /\ Candidate.stage c1
       = (if Candidate.isArchived c then "inbox" else "archived")
    /\ CandidatesRouter.putArchive req2 db1 = (r2, db2)
    /\ Response.statusCode r2 = 200
    /\ Response.data r2 = Response.CandidateData c2
    /\ find (CandidatesRouter.selects (Request.param req1 "id")
               (Request.organization req1)) (candidates db2) = Some c2
    /\ Candidate.isArchived c2 = Candidate.isArchived c
    /\ Candidate.stage c2
       = (if Candidate.isArchived c then "archived" else "inbox").
Proof.
  intros Hid Horg Hfind.
  destruct (putArchive_step req1 db c Hfind)
    as (c1 & db1 & E1 & F1 & A1 & S1 & _).
  assert (F1' := F1). rewrite <- Hid, <- Horg in F1'.
  destruct (putArchive_step req2 db1 c1 F1')
    as (c2 & db2 & E2 & F2 & A2 & S2 & _).
  rewrite Hid, Horg in F2.
  do 6 eexists. split; [exact E1|]. split; [reflexivity|].
  split; [reflexivity|]. split; [exact A1|]. split; [exact S1|].
  split; [exact E2|]. split; [reflexivity|]. split; [reflexivity|].
  split; [exact F2|].
  rewrite A2, S2, A1. destruct (Candidate.isArchived c); split; reflexivity.
Qed.

(** C10 as stated fails: two successive calls on an archived candidate
    leave it archived. *)
Lemma two_archive_calls_leave_archived_candidate_archived :
  let req := Sample.request "c1" [] in
  let db := Sample.db [Sample.aliArchived] in
  exists r2 c2 db2,
    CandidatesRouter.putArchive req (snd (CandidatesRouter.putArchive req db))
    = (r2, db2)
    /\ Response.data r2 = Response.CandidateData c2
    /\ Candidate.isArchived Sample.aliArchived = true
    /\ Candidate.isArchived c2 = true
    /\ Candidate.stage c2 = "archived".
Proof.
  do 3 eexists. split; [vm_compute; reflexivity|].
  repeat split.
Qed.

(** ** C1: attaching evidence to a test result *)

Lemma find_updateAt_findIndex {A : Type} (f : A -> bool) (g : A -> A)
    (l : list A) :
  (forall x, f (g x) = f x) ->
  find f (match findIndex f l with
          | Some p => updateAt p g l
          | None => l
          end)
  = option_map g (find f l).
Proof.
  intros Hg. induction l as [|x r IH]; simpl; [reflexivity|].
  destruct (f x) eqn:Fx; simpl.
  - now rewrite (Hg x), Fx.
  - destruct (findIndex f r) as [p|]; simpl in *; rewrite Fx; exact IH.
Qed.

Lemma map_updateAt_findIndex {A B : Type} (f : A -> bool) (g : A -> A)
    (h : A -> B) (l : list A) :
  (forall x, h (g x) = h x) ->
  map h (match findIndex f l with
         | Some p => updateAt p g l
         | None => l
         end)
  = map h l.
Proof.
  intros Hg. induction l as [|x r IH]; simpl; [reflexivity|].
  destruct (f x); simpl; [now rewrite (Hg x)|].
  destruct (findIndex f r) as [p|]; simpl in *; f_equal; exact IH.
Qed.

(** What the upload does to the test results of the loaded candidate: an
    existing entry gets the file and keeps its status, whatever it is; a
    missing entry is created with status [review]. *)
Lemma postTestResult_run (req : Request.t) (db : Db) (c : Candidate.t)
    (file : Upload.t) :
  Request.file req = Some file ->
  find (CandidatesRouter.selects (Request.param req "candidateId")
          (Request.organization req)) (candidates db) = Some c ->
  let info :=
    TestResult.mkFile (Upload.originalname file) (Upload.mimetype file)
      ("/uploads/" ++ Request.organization req ++ "/" ++ Upload.filename file)
      (Request.now req) in
  let testId := Request.param req "testId" in
  exists c' db',
    FilesRouter.postTestResult req db
    = (Response.okWith (Some "نتیجه آزمون با موفقیت آپلود شد")
         (Response.UrlData (TestResult.url info)), db')
    /\ find (CandidatesRouter.selects (Request.param req "candidateId")
               (Request.organization req)) (candidates db') = Some c'
    /\ match find (FilesRouter.hasTestId testId) (Candidate.testResults c) with
       | Some r =>
           find (FilesRouter.hasTestId testId) (Candidate.testResults c')
           = Some (TestResult.set_file (Some info) r)
           /\ map TestResult.status (Candidate.testResults c')
              = map TestResult.status (Candidate.testResults c)
       | None =>
           Candidate.testResults c'
           = Candidate.testResults c
               ++ [TestResult.mk testId TestResult.review None None None None
                     (Some info) None]
       end.
Proof.
  intros Hfile Hfind info testId.
  destruct (find_selects _ _ _ _ Hfind) as [Hc Ht].
  set (c1 :=
         match find (FilesRouter.hasTestId testId) (Candidate.testResults c)
         with
         | Some _ =>
             Candidate.set_testResults
               (FilesRouter.setFileOfFound testId info
                  (Candidate.testResults c)) c
         | None =>
             Candidate.set_testResults
               (Candidate.testResults c
                  ++ [TestResult.mk testId TestResult.review None None None
                        None (Some info) None]) c
         end).
  assert (Hid : Candidate._id c1 = Candidate._id c)
    by (unfold c1; destruct (find _ (Candidate.testResults c)); reflexivity).
  assert (Horg : Candidate.organization c1 = Candidate.organization c)
    by (unfold c1; destruct (find _ (Candidate.testResults c)); reflexivity).
  assert (Hsel : CandidatesRouter.selects
                   (Request.param req "candidateId")
                   (Request.organization req)
                   (Candidate.set_updatedAt (Request.now req) c1) = true).
  { unfold CandidatesRouter.selects, CandidatesRouter.ofTenant in *. simpl.
    rewrite Hid, Hc, String.eqb_refl, Horg. exact Ht. }
  exists (Candidate.set_updatedAt (Request.now req) c1).
  eexists. split.
  - unfold FilesRouter.postTestResult, tryCatch, bind.
    rewrite Hfile, findOne_run, Hfind. fold info testId c1.
    rewrite save_run
      by (apply preSave_of_organization with (c := c); trivial;
          eapply ofTenant_preSave; eassumption).
    reflexivity.
  - split.
    + simpl. apply find_replaceById with (c := c); trivial.
    + unfold c1. destruct (find _ (Candidate.testResults c)) as [r|] eqn:Er.
      * simpl. unfold FilesRouter.setFileOfFound. split.
        -- rewrite find_updateAt_findIndex by reflexivity. now rewrite Er.
        -- apply map_updateAt_findIndex. reflexivity.
      * reflexivity.
Qed.


(** ** C9: a candidate of another tenant is not told from an absent one *)

Lemma find_none_iff {A : Type} (f : A -> bool) (l : list A) :
  find f l = None <-> (forall x, In x l -> f x = false).
Proof.
  split; [apply find_none|].
  induction l as [|x r IH]; simpl; intros H; [reflexivity|].
  rewrite (H x) by now left. apply IH. intros; apply H; now right.
Qed.

Lemma getCandidate_notFound (req : Request.t) (db : Db) :
  find (CandidatesRouter.selects (Request.param req "id")
          (Request.organization req)) (candidates db) = None ->
  CandidatesRouter.getCandidate req db = (CandidatesRouter.notFound, db).
Proof.
  intros H. unfold CandidatesRouter.getCandidate, tryCatch, bind.
  now rewrite findOne_run, H.
Qed.

(** C9.  Let the candidate [id] be absent from [db1], and present in [db2]
    but only under other tenants than the caller's.  Then [get] gives the
    same answer in both runs, the 404 "not found" answer with the same
    body, and changes neither database. *)
Theorem get_answers_alike_for_absent_and_foreign
    (req : Request.t) (db1 db2 : Db) :
  (forall c, In c (candidates db1)
             -> Candidate._id c <> Request.param req "id") ->
  (exists c, In c (candidates db2)
             /\ Candidate._id c = Request.param req "id") ->
  (forall c, In c (candidates db2)
             -> Candidate._id c = Request.param req "id"
             -> Candidate.organization c
                <> Some (Request.organization req)) ->
  fst (CandidatesRouter.getCandidate req db1)
  = fst (CandidatesRouter.getCandidate req db2)
  /\ CandidatesRouter.getCandidate req db1
     = (Response.mk 404 false (Some "متقاضی یافت نشد") Response.NoData [], db1)
  /\ CandidatesRouter.getCandidate req db2
     = (Response.mk 404 false (Some "متقاضی یافت نشد") Response.NoData [], db2).
Proof.
  intros Habsent _ Hforeign.
  assert (E1 : CandidatesRouter.getCandidate req db1
               = (CandidatesRouter.notFound, db1)).
  { apply getCandidate_notFound, find_none_iff. intros c Hin.
    unfold CandidatesRouter.selects.
    apply andb_false_iff. left. apply String.eqb_neq. now apply Habsent. }
  assert (E2 : CandidatesRouter.getCandidate req db2
               = (CandidatesRouter.notFound, db2)).
  { apply getCandidate_notFound, find_none_iff. intros c Hin.
    unfold CandidatesRouter.selects, CandidatesRouter.ofTenant.
    destruct (String.eqb_spec (Candidate._id c) (Request.param req "id"))
      as [Hid|]; [|reflexivity]. simpl.
    specialize (Hforeign c Hin Hid).
    destruct (Candidate.organization c) as [o|]; [|reflexivity].
    apply String.eqb_neq. congruence. }
  rewrite E1, E2. repeat split.
Qed.

(** ** The stage list of a tenant *)

Lemma find_replaceOrg (org : ObjectId) (l : list Organization.t)
    (o o' : Organization.t) :
  find (fun x => String.eqb (Organization._id x) org) l = Some o ->
  Organization._id o' = Organization._id o ->
  find (fun x => String.eqb (Organization._id x) org)
    (OrganizationMethods.replaceById o' l) = Some o'.
Proof.
  intros Hfind Hid.
  assert (Ho : String.eqb (Organization._id o) org = true)
    by (apply find_some in Hfind; tauto).
  induction l as [|d l IH]; simpl in *; [discriminate|].
  destruct (String.eqb (Organization._id d) (Organization._id o')) eqn:E;
    simpl.
  - now rewrite Hid, Ho.
  - destruct (String.eqb (Organization._id d) org) eqn:Fd.
    + inversion Hfind; subst d. rewrite Hid, String.eqb_refl in E.
      discriminate.
    + now apply IH.
Qed.

Lemma map_sansOrder_updateAt (o : Stage.Order) (l : list Stage.t) :
  forall p,
    map sansOrder (updateAt p (Stage.set_order o) l) = map sansOrder l.
Proof.
  induction l as [|x r IH]; intros [|p]; simpl; trivial.
  now rewrite IH.
Qed.

Lemma findIndex_sansOrder (v : Value) (l1 : list Stage.t) :
  forall l2,
    map sansOrder l1 = map sansOrder l2 ->
    findIndex (OrganizationMethods.sameId v) l1
    = findIndex (OrganizationMethods.sameId v) l2.
Proof.
  induction l1 as [|x r IH]; intros [|y r2]; simpl; try discriminate;
    trivial.
  intros H. inversion H as [[Hid Ht Hc Hcol Hr]].
  assert (E : OrganizationMethods.sameId v x = OrganizationMethods.sameId v y)
    by (unfold OrganizationMethods.sameId; destruct v; trivial;
        now rewrite Hid).
  rewrite E, (IH r2 Hr). reflexivity.
Qed.

Lemma reorderLoop_spec (stageIds : list Value) :
  forall (index : Z) (stages : list Stage.t) (refs : list nat),
    map sansOrder (fst (OrganizationMethods.reorderLoop stageIds index stages refs))
    = map sansOrder stages
    /\ snd (OrganizationMethods.reorderLoop stageIds index stages refs)
       = refs ++ positions stageIds stages.
Proof.
  induction stageIds as [|v rest IH]; intros index stages refs; simpl.
  - split; [reflexivity | now rewrite app_nil_r].
  - unfold positions. simpl.
    destruct (findIndex (OrganizationMethods.sameId v) stages) as [p|] eqn:E.
    + destruct (IH (index + 1)
                  (updateAt p (Stage.set_order (Stage.At index)) stages)
                  (refs ++ [p])) as [H1 H2].
      rewrite H1, H2, map_sansOrder_updateAt. split; [reflexivity|].
      rewrite <- app_assoc. simpl. do 2 f_equal.
      unfold positions. apply flat_map_ext. intros w. f_equal.
      apply findIndex_sansOrder, map_sansOrder_updateAt.
    + apply IH.
Qed.

Lemma findIndex_find {A : Type} (f : A -> bool) (l : list A) :
  match findIndex f l with
  | Some p => nth_error l p = find f l /\ find f l <> None
  | None => find f l = None
  end.
Proof.
  induction l as [|x r IH]; simpl; [reflexivity|].
  destruct (f x); [split; [reflexivity | discriminate]|].
  destruct (findIndex f r); simpl; exact IH.
Qed.

Lemma deref_positions (stageIds : list Value) (stages : list Stage.t) :
  OrganizationMethods.deref stages (positions stageIds stages)
  = listed stageIds stages.
Proof.
  unfold OrganizationMethods.deref, positions, listed.
  induction stageIds as [|v rest IH]; simpl; [reflexivity|].
  rewrite flat_map_app, IH. f_equal.
  pose proof (findIndex_find (OrganizationMethods.sameId v) stages) as H.
  destruct (findIndex (OrganizationMethods.sameId v) stages) as [p|]; simpl.
  - destruct H as [-> _]. now rewrite app_nil_r.
  - now rewrite H.
Qed.

Lemma map_deref {B : Type} (h : Stage.t -> B) (l1 l2 : list Stage.t)
    (refs : list nat) :
  map h l1 = map h l2 ->
  map h (OrganizationMethods.deref l1 refs)
  = map h (OrganizationMethods.deref l2 refs).
Proof.
  intros H. unfold OrganizationMethods.deref.
  induction refs as [|p r IH]; simpl; [reflexivity|].
  rewrite !map_app, IH. f_equal.
  assert (E : option_map h (nth_error l1 p) = option_map h (nth_error l2 p))
    by now rewrite <- !nth_error_map, H.
  destruct (nth_error l1 p), (nth_error l2 p); simpl in *;
    inversion E; congruence.
Qed.

(** [reorderStages] keeps the listed stages, in the listed order, with
    their id, title, core flag and colour; only [order] is rewritten. *)
Lemma reorderStages_run (this : Organization.t) (stageIds : list Value)
    (db : Db) :
  exists this' db',
    OrganizationMethods.reorderStages this stageIds db = (Done this', db')
    /\ Organization._id this' = Organization._id this
    /\ map sansOrder (Organization.stages this')
       = map sansOrder (listed stageIds (Organization.stages this))
    /\ candidates db' = candidates db
    /\ organizations db'
       = OrganizationMethods.replaceById this' (organizations db).
Proof.
  unfold OrganizationMethods.reorderStages.
  pose proof (reorderLoop_spec stageIds 0 (Organization.stages this) [])
    as [H1 H2].
  destruct (OrganizationMethods.reorderLoop stageIds 0
              (Organization.stages this) []) as [stages' refs].
  simpl in H1, H2. subst refs.
  do 2 eexists. split; [reflexivity|]. simpl.
  split; [reflexivity|]. split; [|split; reflexivity].
  rewrite <- deref_positions. now apply map_deref.
Qed.

Lemma listed_keeps_id (stageIds : list Value) (stages : list Stage.t)
    (i : string) :
  In i (map Stage.id (listed stageIds stages))
  <-> In (VStr i) stageIds /\ In i (map Stage.id stages).
Proof.
  unfold listed. rewrite in_map_iff. split.
  - intros (s & Hid & Hin). apply in_flat_map in Hin.
    destruct Hin as (v & Hv & Hs).
    destruct (find (OrganizationMethods.sameId v) stages) as [s'|] eqn:E;
      simpl in Hs; [|contradiction].
    destruct Hs as [->|[]]. apply find_some in E. destruct E as [Hin Hsame].
    unfold OrganizationMethods.sameId in Hsame.
    destruct v; try discriminate. apply String.eqb_eq in Hsame.
    subst. split; [congruence|]. now apply in_map.
  - intros (Hv & Hin). apply in_map_iff in Hin. destruct Hin as (s & Hid & Hin).
    destruct (find (OrganizationMethods.sameId (VStr i)) stages) as [s'|] eqn:E.
    + exists s'. split.
      * apply find_some in E. destruct E as [_ E]. simpl in E.
        now apply String.eqb_eq in E.
      * apply in_flat_map. exists (VStr i). split; [exact Hv|].
        rewrite E. now left.
    + exfalso. eapply find_none in E; [|exact Hin]. simpl in E.
      rewrite Hid, String.eqb_refl in E. discriminate.
Qed.

(** ** The stage routes *)

Lemma putStage_core (req : Request.t) (db : Db)
    (organization : Organization.t) (stage : Stage.t) :
  User.isAdmin (Request.user req) = true ->
  find (fun o => String.eqb (Organization._id o) (Request.organization req))
    (organizations db) = Some organization ->
  find (SettingsRouter.hasId (Request.param req "id"))
    (Organization.stages organization) = Some stage ->
  Stage.isCore stage = true ->
  SettingsRouter.putStage req db
  = (Response.failure 403 "مراحل اصلی قابل ویرایش نیستند", db).
Proof.
  intros Hadmin Horg Hstage Hcore.
  unfold SettingsRouter.putStage, SettingsRouter.isAdmin, tryCatch, bind,
    SettingsRouter.findById.
  now rewrite Hadmin, Horg, Hstage, Hcore.
Qed.

Lemma deleteStage_run (req : Request.t) (db : Db)
    (organization : Organization.t) (stage : Stage.t) :
  User.isAdmin (Request.user req) = true ->
  find (fun o => String.eqb (Organization._id o) (Request.organization req))
    (organizations db) = Some organization ->
  find (SettingsRouter.hasId (Request.param req "id"))
    (Organization.stages organization) = Some stage ->
  let id := Request.param req "id" in
  let inStage :=
    List.length
      (filter
         (fun c => CandidatesRouter.ofTenant (Request.organization req) c
                   && String.eqb (Candidate.stage c) id)
         (candidates db)) in
  let kept :=
    filter (fun s => negb (SettingsRouter.hasId id s))
      (Organization.stages organization) in
  SettingsRouter.deleteStage req db
  = if Stage.isCore stage then
      (Response.failure 403 "مراحل اصلی قابل حذف نیستند", db)
    else if Nat.ltb 0 inStage then
      (Response.failure 400 (SettingsRouter.stageInUseText inStage), db)
    else
      (Response.okWith (Some "مرحله حذف شد") (Response.StagesData kept),
       set_organizations
         (OrganizationMethods.replaceById
            (Organization.set_stages kept organization) (organizations db))
         db).
Proof.
  intros Hadmin Horg Hstage. cbv zeta.
  unfold SettingsRouter.deleteStage, SettingsRouter.isAdmin, tryCatch, bind,
    SettingsRouter.findById, SettingsRouter.countInStage.
  rewrite Hadmin, Horg, Hstage.
  destruct (Stage.isCore stage); [reflexivity|].
  destruct (Nat.ltb 0 _); reflexivity.
Qed.

Lemma not_in_after_filter (id : string) (l : list Stage.t) :
  ~ In id (map Stage.id (filter (fun s => negb (SettingsRouter.hasId id s)) l)).
Proof.
  rewrite in_map_iff. intros (s & Hid & Hin). apply filter_In in Hin.
  destruct Hin as [_ H]. unfold SettingsRouter.hasId in H.
  rewrite Hid, String.eqb_refl in H. discriminate.
Qed.

(** ** C6: removing a stage *)

(** C6.  For an administrator's request on a stage of the tenant's list:
    a core stage is refused with 403 (whether candidates are in it or not);
    a stage that is not core and has at least one candidate of the tenant
    in it is refused with 400, the stage-in-use conflict, and the database
    (so the stage list) is unchanged; a stage that is not core and has no
    candidate is removed: the answer is 200 and the stored stage list is
    the old one without the stages of that id, in which the id no longer
    appears. *)
Theorem removeStage_outcomes
    (req : Request.t) (db : Db) (organization : Organization.t)
    (stage : Stage.t) :
  User.isAdmin (Request.user req) = true ->
  find (fun o => String.eqb (Organization._id o) (Request.organization req))
    (organizations db) = Some organization ->
  find (SettingsRouter.hasId (Request.param req "id"))
    (Organization.stages organization) = Some stage ->
  let id := Request.param req "id" in
  let inStage :=
    List.length
      (filter
         (fun c => CandidatesRouter.ofTenant (Request.organization req) c
                   && String.eqb (Candidate.stage c) id)
         (candidates db)) in
  (Stage.isCore stage = true ->
   SettingsRouter.deleteStage req db
   = (Response.failure 403 "مراحل اصلی قابل حذف نیستند", db))
  /\ (Stage.isCore stage = false -> (0 < inStage)%nat ->
      SettingsRouter.deleteStage req db
      = (Response.failure 400 (SettingsRouter.stageInUseText inStage), db))
  /\ (Stage.isCore stage = false -> inStage = 0%nat ->
      exists organization' db',
        SettingsRouter.deleteStage req db
        = (Response.okWith (Some "مرحله حذف شد")
             (Response.StagesData (Organization.stages organization')), db')
        /\ find (fun o => String.eqb (Organization._id o)
                            (Request.organization req))
             (organizations db') = Some organization'
        /\ Organization.stages organization'
           = filter (fun s => negb (SettingsRouter.hasId id s))
               (Organization.stages organization)
        /\ ~ In id (map Stage.id (Organization.stages organization'))
        /\ candidates db' = candidates db).
Proof.
  intros Hadmin Horg Hstage id inStage.
  pose proof (deleteStage_run req db organization stage Hadmin Horg Hstage)
    as Hrun. cbv zeta in Hrun. fold id inStage in Hrun.
  split; [|split].
  - intros Hcore. now rewrite Hrun, Hcore.
  - intros Hcore Hpos. rewrite Hrun, Hcore.
    apply Nat.ltb_lt in Hpos. now rewrite Hpos.
  - intros Hcore Hzero. rewrite Hrun, Hcore, Hzero. simpl.
    exists (Organization.set_stages
              (filter (fun s => negb (SettingsRouter.hasId id s))
                 (Organization.stages organization)) organization).
    eexists. split; [reflexivity|]. simpl.
    split; [now apply find_replaceOrg with (o := organization)|].
    split; [reflexivity|]. split; [apply not_in_after_filter | reflexivity].
Qed.

(** ** C4: core stages *)

(** C4, as the code has it.  For an administrator's request on a core
    stage of the tenant's list, the update and the removal of the stage are
    refused with 403 and change nothing.  [reorderStages] keeps exactly the
    stages that the request lists, with their id, title, core flag and
    colour: it does not rename a core stage, and it keeps the core stage if
    and only if the list names its id. *)
Theorem core_stage_guarded_except_in_reorder
    (req : Request.t) (db : Db) (organization : Organization.t)
    (stage : Stage.t) (stageIds : list Value) :
  User.isAdmin (Request.user req) = true ->
  find (fun o => String.eqb (Organization._id o) (Request.organization req))
    (organizations db) = Some organization ->
  find (SettingsRouter.hasId (Request.param req "id"))
    (Organization.stages organization) = Some stage ->
  Stage.isCore stage = true ->
  SettingsRouter.putStage req db
  = (Response.failure 403 "مراحل اصلی قابل ویرایش نیستند", db)
  /\ SettingsRouter.deleteStage req db
     = (Response.failure 403 "مراحل اصلی قابل حذف نیستند", db)
  /\ exists organization' db',
       OrganizationMethods.reorderStages organization stageIds db
       = (Done organization', db')
       /\ map sansOrder (Organization.stages organization')
          = map sansOrder (listed stageIds (Organization.stages organization))
       /\ (In (Stage.id stage) (map Stage.id (Organization.stages organization'))
           <-> In (VStr (Stage.id stage)) stageIds).
Proof.
  intros Hadmin Horg Hstage Hcore.
  split; [now apply putStage_core with (organization := organization)
                                       (stage := stage)|].
  split.
  - pose proof (deleteStage_run req db organization stage Hadmin Horg Hstage)
      as Hrun. cbv zeta in Hrun. now rewrite Hrun, Hcore.
  - destruct (reorderStages_run organization stageIds db)
      as (o' & db' & Hrun & _ & Hview & _).
    exists o', db'. split; [exact Hrun|]. split; [exact Hview|].
    assert (Hids : map Stage.id (Organization.stages o')
                   = map Stage.id
                       (listed stageIds (Organization.stages organization))).
    { apply (f_equal (map (fun x => fst (fst (fst x))))) in Hview.
      now rewrite !map_map in Hview. }
    rewrite Hids, listed_keeps_id. split; [tauto|].
    intros Hin. split; [exact Hin|].
    apply find_some in Hstage. apply in_map. tauto.
Qed.

(** C4 as stated fails: [reorderStages] with an empty list drops every
    stage of the default list, the core stage [inbox] among them. *)
Lemma reorder_with_empty_list_drops_core_stages :
  Stage.isCore (Stage.mk "inbox" "صندوق ورودی" true None (Stage.At 0)) = true
  /\ In (Stage.mk "inbox" "صندوق ورودی" true None (Stage.At 0))
       (Organization.stages Sample.org)
  /\ OrganizationMethods.reorderStages Sample.org [] (Sample.db [])
     = (Done (Organization.set_stages [] Sample.org),
        mkDb [] [Organization.set_stages [] Sample.org])
  /\ find (SettingsRouter.hasId "inbox")
       (Organization.stages (Organization.set_stages [] Sample.org)) = None.
Proof.
  split; [reflexivity|]. split; [now left|]. split; reflexivity.
Qed.

(** ** C8: the list route *)

Lemma insert_perm (path : string) (dir : Z) (x : Candidate.t)
    (l : list Candidate.t) :
  Permutation (Sorting.insert path dir x l) (x :: l).
Proof.
  induction l as [|y r IH]; simpl; [apply Permutation_refl|].
  destruct (Sorting.inOrder path dir x y); [apply Permutation_refl|].
  eapply Permutation_trans; [apply perm_skip, IH | apply perm_swap].
Qed.

Lemma sort_perm (path : string) (dir : Z) (l : list Candidate.t) :
  Permutation (Sorting.sort path dir l) l.
Proof.
  induction l as [|x r IH]; simpl; [apply Permutation_refl|].
  eapply Permutation_trans; [apply insert_perm | now apply perm_skip].
Qed.

Lemma In_firstn {A : Type} (x : A) (n : nat) :
  forall l, In x (firstn n l) -> In x l.
Proof.
  induction n as [|n IH]; intros [|y r]; simpl; try tauto.
  intros [E|H]; [now left | right; now apply IH].
Qed.

Lemma In_skipn {A : Type} (x : A) (n : nat) :
  forall l, In x (skipn n l) -> In x l.
Proof.
  induction n as [|n IH]; intros [|y r]; simpl; try tauto.
  intros H; right; now apply IH.
Qed.

Lemma paginate_In (page limit : Z) (l r : list Candidate.t) (x : Candidate.t) :
  CandidatesRouter.paginate page limit l = Some r -> In x r -> In x l.
Proof.
  unfold CandidatesRouter.paginate.
  destruct (_ <? 0); [discriminate|]. intros H. inversion H; subst r; clear H.
  destruct (limit =? 0); intros H.
  - eapply In_skipn, H.
  - eapply In_skipn, In_firstn, H.
Qed.

Lemma matching_run (compileRegex : string -> option (string -> bool))
    (f : CandidatesRouter.Filter) (db : Db) :
  CandidatesRouter.matching compileRegex f db
  = match CandidatesRouter.f_search f with
    | None => (Done (filter (satisfies compileRegex f) (candidates db)), db)
    | Some pattern =>
        match compileRegex pattern with
        | Some _ =>
            (Done (filter (satisfies compileRegex f) (candidates db)), db)
        | None => (Thrown "Regular expression is invalid", db)
        end
    end.
Proof.
  unfold CandidatesRouter.matching, satisfies.
  destruct (CandidatesRouter.f_search f) as [pattern|].
  - destruct (compileRegex pattern); reflexivity.
  - do 2 f_equal. apply filter_ext. intros c. now rewrite andb_true_r.
Qed.

(** The answers of the list route: a list of documents with the total, or
    the 500 answer. *)
Lemma getCandidates_run (compileRegex : string -> option (string -> bool))
    (req : Request.t) (db : Db) :
  let q := Request.query req in
  let f := CandidatesRouter.buildQuery req in
  let found := filter (satisfies compileRegex f) (candidates db) in
  let page := CandidatesRouter.orDefault (Query.page q) 1 in
  let limit := CandidatesRouter.orDefault (Query.limit q) 50 in
  CandidatesRouter.getCandidates compileRegex req db
  = (Response.failure 500 "خطا در دریافت لیست متقاضیان", db)
  \/ exists sorted shown,
       Permutation sorted found
       /\ CandidatesRouter.paginate page limit sorted = Some shown
       /\ CandidatesRouter.getCandidates compileRegex req db
          = (Response.okWith None
               (Response.ListData shown (Z.of_nat (List.length found)) page
                  (CandidatesRouter.pageCount (Z.of_nat (List.length found))
                     limit)), db).
Proof.
  intros q f found page limit.
  unfold CandidatesRouter.getCandidates, tryCatch,
    CandidatesRouter.findPage, CandidatesRouter.countDocuments, bind.
  fold q f page limit. rewrite matching_run.
  destruct (CandidatesRouter.f_search f) as [pattern|] eqn:Es.
  - destruct (compileRegex pattern) eqn:Ec; [|now left]. fold found.
    destruct (CandidatesRouter.paginate page limit _) as [shown|] eqn:Ep;
      [|now left].
    right. do 2 eexists. split; [apply sort_perm|]. split; [exact Ep|].
    unfold ret. cbv beta iota. rewrite matching_run, Es, Ec. reflexivity.
  - fold found.
    destruct (CandidatesRouter.paginate page limit _) as [shown|] eqn:Ep;
      [|now left].
    right. do 2 eexists. split; [apply sort_perm|]. split; [exact Ep|].
    unfold ret. cbv beta iota. rewrite matching_run, Es. reflexivity.
Qed.

Lemma buildQuery_withPaging (p l : option Z) (req : Request.t) :
  CandidatesRouter.buildQuery
    (Request.withQuery (Query.withPaging p l (Request.query req)) req)
  = CandidatesRouter.buildQuery req.
Proof. reflexivity. Qed.

(** C8, as the code has it.  The search string is handed to the store as a
    regular expression with option [i], not as a text to be contained.
    Whenever the list route answers a list: every candidate in it is a
    stored candidate of the tenant that meets the stage, position, source
    and archived conditions and, when a search is given, has a name, email
    or phone in which the compiled pattern has a match; and [total] is the
    number of all stored candidates that meet that same filter, so it is
    the same for every [page] and [limit]. *)
Theorem list_returns_pattern_matches_and_full_total
    (compileRegex : string -> option (string -> bool))
    (req : Request.t) (db : Db) (shown : list Candidate.t)
    (total page : Z) (pages : option Z) :
  fst (CandidatesRouter.getCandidates compileRegex req db)
  = Response.okWith None (Response.ListData shown total page pages) ->
  let f := CandidatesRouter.buildQuery req in
  (forall c, In c shown ->
     In c (candidates db)
     /\ CandidatesRouter.plainConditions f c = true
     /\ match CandidatesRouter.f_search f with
        | None => True
        | Some pattern =>
            exists m, compileRegex pattern = Some m
                      /\ (m (Candidate.name c) || m (Candidate.email c)
                          || m (Candidate.phone c)) = true
        end)
  /\ total
     = Z.of_nat (List.length (filter (satisfies compileRegex f) (candidates db)))
  /\ (forall p l shown' total' page' pages',
        fst (CandidatesRouter.getCandidates compileRegex
               (Request.withQuery
                  (Query.withPaging p l (Request.query req)) req) db)
        = Response.okWith None
            (Response.ListData shown' total' page' pages') ->
        total' = total).
Proof.
  intros Hresp f.
  assert (Htotal :
            forall r s t p g,
              fst (CandidatesRouter.getCandidates compileRegex r db)
              = Response.okWith None (Response.ListData s t p g) ->
              exists sorted,
                Permutation sorted
                  (filter (satisfies compileRegex
                             (CandidatesRouter.buildQuery r)) (candidates db))
                /\ CandidatesRouter.paginate p
                     (CandidatesRouter.orDefault
                        (Query.limit (Request.query r)) 50) sorted = Some s
                /\ t = Z.of_nat
                         (List.length
                            (filter (satisfies compileRegex
                                       (CandidatesRouter.buildQuery r))
                               (candidates db)))).
  { intros r s t p g H.
    destruct (getCandidates_run compileRegex r db)
      as [E|(sorted & sh & Hperm & Hpag & E)];
      rewrite E in H; simpl in H; [discriminate|].
    inversion H; subst. exists sorted. repeat split; assumption. }
  destruct (Htotal _ _ _ _ _ Hresp) as (sorted & Hperm & Hpag & Ht).
  split; [|split; [exact Ht|]].
  - intros c Hin. eapply paginate_In in Hin; [|exact Hpag].
    eapply Permutation_in in Hin; [|exact Hperm].
    apply filter_In in Hin. destruct Hin as [Hin Hsat].
    unfold satisfies in Hsat. apply andb_true_iff in Hsat.
    destruct Hsat as [Hplain Hsearch]. fold f in Hplain, Hsearch.
    repeat split; trivial.
    destruct (CandidatesRouter.f_search f) as [pattern|]; [|exact I].
    destruct (compileRegex pattern) as [m|]; [|discriminate].
    exists m. split; [reflexivity | exact Hsearch].
  - intros p l shown' total' page' pages' H.
    destruct (Htotal _ _ _ _ _ H) as (_ & _ & _ & Ht').
    rewrite buildQuery_withPaging in Ht'. congruence.
Qed.


(** C8 as stated fails: the search ["a.i"] returns a candidate none of
    whose name, email and phone contains ["a.i"]; the dot of the pattern
    matched the "b" of "Abi". *)
Lemma search_returns_candidate_that_does_not_contain_the_text :
  CandidatesRouter.getCandidates DotPattern.compile
    (Sample.searchRequest "a.i") (Sample.db [Sample.abi])
  = (Response.okWith None (Response.ListData [Sample.abi] 1 1 (Some 1)),
     Sample.db [Sample.abi])
  /\ containsCI "a.i" (Candidate.name Sample.abi) = false
  /\ containsCI "a.i" (Candidate.email Sample.abi) = false
  /\ containsCI "a.i" (Candidate.phone Sample.abi) = false.
Proof.
  split; [vm_compute; reflexivity|]. repeat split.
Qed.

(** For a search text without metacharacter the regular expression is the
    containment test. *)
Lemma matchesHere_literal (p : string) :
  DotPattern.literal p = true ->
  forall s,
    DotPattern.matchesHere p s = startsWith (toLowerCase p) (toLowerCase s).
Proof.
  induction p as [|pc p IH]; intros Hlit s; [reflexivity|].
  unfold DotPattern.literal in Hlit. simpl in Hlit.
  apply andb_true_iff in Hlit. destruct Hlit as [Hc Hp].
  apply andb_true_iff in Hc. destruct Hc as [_ Hdot].
  apply negb_true_iff in Hdot.
  destruct s as [|sc s]; [reflexivity|]. simpl.
  unfold DotPattern.charMatches. rewrite Hdot. now rewrite (IH Hp s).
Qed.

Lemma literal_search_is_containment (p s : string) :
  DotPattern.literal p = true ->
  DotPattern.compile p = Some (DotPattern.hasMatch p)
  /\ DotPattern.hasMatch p s = containsCI p s.
Proof.
  intros Hlit. split.
  - unfold DotPattern.compile.
    replace (DotPattern.inFragment p) with true; [reflexivity|].
    symmetry. unfold DotPattern.inFragment, DotPattern.literal in *.
    rewrite forallb_forall in *. intros c Hin.
    specialize (Hlit c Hin). apply andb_true_iff in Hlit. tauto.
  - unfold containsCI.
    induction s as [|sc s IH]; simpl;
      rewrite (matchesHere_literal p Hlit); [reflexivity|].
    simpl. now rewrite IH.
Qed.

(** ** Instances on the sample data *)

(** C3 as stated fails: a transition to ["archived"] through the stage
    route, and an update whose patch sets [isArchived], each break the
    invariant of a candidate that had it. *)
Lemma transition_and_update_break_archive_invariant :
  archiveInvariant Sample.ali
  /\ (exists c' db',
         CandidatesRouter.putCandidateStage (Sample.stageRequest "archived")
           (Sample.db [Sample.ali])
         = (Response.okWith
              (Some (CandidateMethods.stageChangedText "inbox" "archived"))
              (Response.CandidateData c'), db')
         /\ find (CandidatesRouter.selects "c1" Sample.acme) (candidates db')
            = Some c'
         /\ Candidate.stage c' = "archived"
         /\ Candidate.isArchived c' = false
         /\ ~ archiveInvariant c')
  /\ (exists c' db',
         CandidatesRouter.putCandidate Sample.hasAt
           (Sample.request "c1" [("isArchived", VBool true)])
           (Sample.db [Sample.ali])
         = (Response.okWith (Some "اطلاعات با موفقیت به‌روزرسانی شد")
              (Response.CandidateData c'), db')
         /\ Candidate.stage c' = "inbox"
         /\ Candidate.isArchived c' = true
         /\ ~ archiveInvariant c').
Proof.
  unfold archiveInvariant. split; [|split].
  - split; simpl; discriminate.
  - do 2 eexists. split; [vm_compute; reflexivity|].
    repeat split. simpl. intros [H _]. specialize (H eq_refl). discriminate.
  - do 2 eexists. split; [vm_compute; reflexivity|].
    repeat split. simpl. intros [_ H]. specialize (H eq_refl). discriminate.
Qed.

Lemma archive_invariant_witness :
  find (CandidatesRouter.selects "c1" Sample.acme)
    (candidates (Sample.db [Sample.ali])) = Some Sample.ali
  /\ (exists c' db',
         CandidateMethods.archive Sample.ali Sample.admin 200
           (Sample.db [Sample.ali]) = (Done c', db')
         /\ archiveInvariant c')
  /\ (exists c' db',
         CandidateMethods.unarchive Sample.ali Sample.admin 200
           (Sample.db [Sample.ali]) = (Done c', db')
         /\ archiveInvariant c')
  /\ (exists c' db',
         CandidateMethods.updateStage Sample.ali "screening" Sample.admin 200
           (Sample.db [Sample.ali]) = (Done c', db')
         /\ (archiveInvariant c'
             <-> ("screening" = "archived"
                  <-> Candidate.isArchived Sample.ali = true))).
Proof.
  split; [reflexivity|].
  pose proof (archive_invariant_by_operation Sample.hasAt
                (Sample.request "c1" [("name", VStr "Ali R")])
                (Sample.db [Sample.ali]) Sample.ali "screening" eq_refl)
    as (H1 & H2 & H3 & _).
  exact (conj H1 (conj H2 H3)).
Defined.


Lemma archive_route_witness :
  exists r1 c1 db1 r2 c2 db2,
    CandidatesRouter.putArchive (Sample.request "c1" [])
      (Sample.db [Sample.ali]) = (r1, db1)
    /\ Response.statusCode r1 = 200
    /\ Response.data r1 = Response.CandidateData c1
    /\ Candidate.isArchived c1 = negb (Candidate.isArchived Sample.ali)
    /\ Candidate.stage c1
       = (if Candidate.isArchived Sample.ali then "inbox" else "archived")
    /\ CandidatesRouter.putArchive (Sample.request "c1" []) db1 = (r2, db2)
    /\ Response.statusCode r2 = 200
    /\ Response.data r2 = Response.CandidateData c2
    /\ find (CandidatesRouter.selects "c1" Sample.acme) (candidates db2)
       = Some c2
    /\ Candidate.isArchived c2 = Candidate.isArchived Sample.ali
    /\ Candidate.stage c2
       = (if Candidate.isArchived Sample.ali then "archived" else "inbox").
Proof.
  apply (archive_route_toggles (Sample.request "c1" [])
           (Sample.request "c1" []) (Sample.db [Sample.ali]) Sample.ali);
    reflexivity.
Defined.

Lemma get_witness :
  fst (CandidatesRouter.getCandidate (Sample.request "c1" [])
         (Sample.db []))
  = fst (CandidatesRouter.getCandidate (Sample.request "c1" [])
           (Sample.db [Candidate.set_organization (Some Sample.other)
                         Sample.ali]))
  /\ CandidatesRouter.getCandidate (Sample.request "c1" []) (Sample.db [])
     = (Response.mk 404 false (Some "متقاضی یافت نشد") Response.NoData [],
        Sample.db [])
  /\ CandidatesRouter.getCandidate (Sample.request "c1" [])
       (Sample.db [Candidate.set_organization (Some Sample.other) Sample.ali])
     = (Response.mk 404 false (Some "متقاضی یافت نشد") Response.NoData [],
        Sample.db [Candidate.set_organization (Some Sample.other) Sample.ali]).
Proof.
  apply (get_answers_alike_for_absent_and_foreign (Sample.request "c1" [])
           (Sample.db [])
           (Sample.db [Candidate.set_organization (Some Sample.other)
                         Sample.ali])).
  - intros c [].
  - eexists. split; [now left | reflexivity].
  - intros c [<-|[]] _. simpl. discriminate.
Defined.

Lemma removeStage_witness :
  SettingsRouter.deleteStage (Sample.request "inbox" [])
    (Sample.db [Sample.ali])
  = (Response.failure 403 "مراحل اصلی قابل حذف نیستند", Sample.db [Sample.ali])
  /\ SettingsRouter.deleteStage (Sample.request "interview-2" [])
       (Sample.db [Sample.inInterview])
     = (Response.failure 400 (SettingsRouter.stageInUseText 1),
        Sample.db [Sample.inInterview])
  /\ exists organization' db',
       SettingsRouter.deleteStage (Sample.request "interview-2" [])
         (Sample.db [Sample.ali])
       = (Response.okWith (Some "مرحله حذف شد")
            (Response.StagesData (Organization.stages organization')), db')
       /\ ~ In "interview-2" (map Stage.id (Organization.stages organization')).
Proof.
  split; [|split].
  - exact (proj1
             (removeStage_outcomes (Sample.request "inbox" [])
                (Sample.db [Sample.ali]) Sample.org
                (Stage.mk "inbox" "صندوق ورودی" true None (Stage.At 0))
                eq_refl eq_refl eq_refl) eq_refl).
  - exact (proj1 (proj2
             (removeStage_outcomes
                (Sample.request "interview-2" [])
                (Sample.db [Sample.inInterview]) Sample.org
                (Stage.mk "interview-2" "مصاحبه دوم" false None (Stage.At 3))
                eq_refl eq_refl eq_refl)) eq_refl (le_n 1)).
  - destruct (proj2 (proj2
                (removeStage_outcomes
                   (Sample.request "interview-2" [])
                   (Sample.db [Sample.ali]) Sample.org
                   (Stage.mk "interview-2" "مصاحبه دوم" false None (Stage.At 3))
                   eq_refl eq_refl eq_refl)) eq_refl eq_refl)
      as (o' & db' & Hrun & _ & _ & Hnot & _).
    exists o', db'. split; [exact Hrun | exact Hnot].
Defined.

Lemma core_stage_witness :
  SettingsRouter.putStage (Sample.request "inbox" [("title", VStr "In")])
    (Sample.db [])
  = (Response.failure 403 "مراحل اصلی قابل ویرایش نیستند", Sample.db [])
  /\ SettingsRouter.deleteStage
       (Sample.request "inbox" [("title", VStr "In")]) (Sample.db [])
     = (Response.failure 403 "مراحل اصلی قابل حذف نیستند", Sample.db [])
  /\ exists organization' db',
       OrganizationMethods.reorderStages Sample.org
         [VStr "hired"; VStr "inbox"] (Sample.db [])
       = (Done organization', db')
       /\ map sansOrder (Organization.stages organization')
          = map sansOrder
              (listed [VStr "hired"; VStr "inbox"]
                 (Organization.stages Sample.org))
       /\ (In "inbox" (map Stage.id (Organization.stages organization'))
           <-> In (VStr "inbox") [VStr "hired"; VStr "inbox"]).
Proof.
  apply (core_stage_guarded_except_in_reorder
           (Sample.request "inbox" [("title", VStr "In")])
           (Sample.db []) Sample.org
           (Stage.mk "inbox" "صندوق ورودی" true None (Stage.At 0))
           [VStr "hired"; VStr "inbox"]); reflexivity.
Defined.

Lemma list_witness :
  fst (CandidatesRouter.getCandidates DotPattern.compile
         (Sample.searchRequest "ali") (Sample.db [Sample.ali; Sample.abi]))
  = Response.okWith None (Response.ListData [Sample.ali] 1 1 (Some 1))
  /\ (forall c, In c [Sample.ali] ->
        In c [Sample.ali; Sample.abi]
        /\ CandidatesRouter.plainConditions
             (CandidatesRouter.buildQuery (Sample.searchRequest "ali")) c
           = true
        /\ exists m, DotPattern.compile "ali" = Some m
                     /\ (m (Candidate.name c) || m (Candidate.email c)
                         || m (Candidate.phone c)) = true)
  /\ 1 = Z.of_nat
           (List.length
              (filter
                 (satisfies DotPattern.compile
                    (CandidatesRouter.buildQuery (Sample.searchRequest "ali")))
                 [Sample.ali; Sample.abi])).
Proof.
  assert (H : fst (CandidatesRouter.getCandidates DotPattern.compile
                     (Sample.searchRequest "ali")
                     (Sample.db [Sample.ali; Sample.abi]))
              = Response.okWith None
                  (Response.ListData [Sample.ali] 1 1 (Some 1)))
    by (vm_compute; reflexivity).
  split; [exact H|].
  destruct (list_returns_pattern_matches_and_full_total DotPattern.compile
              (Sample.searchRequest "ali")
              (Sample.db [Sample.ali; Sample.abi]) [Sample.ali] 1 1 (Some 1) H)
    as (Hin & Htot & _).
  split; [exact Hin | exact Htot].
Defined.

(** * Further properties *)

(** ** Writes reach one document only *)

Lemma touchesOnly_refl (id : ObjectId) (db : Db) : touchesOnly id db db.
Proof. split; reflexivity. Qed.

Lemma touchesOnly_trans (id : ObjectId) (db1 db2 db3 : Db) :
  touchesOnly id db1 db2 -> touchesOnly id db2 db3 -> touchesOnly id db1 db3.
Proof. intros [A B] [C D]. split; congruence. Qed.

Lemma others_replaceById (c : Candidate.t) (l : list Candidate.t) :
  others (Candidate._id c) (CandidateMethods.replaceById c l)
  = others (Candidate._id c) l.
Proof.
  unfold others, CandidateMethods.replaceById.
  induction l as [|d l IH]; simpl; [reflexivity|].
  destruct (String.eqb (Candidate._id d) (Candidate._id c)) eqn:E; simpl.
  - rewrite String.eqb_refl. simpl. exact IH.
  - rewrite E. simpl. now rewrite IH.
Qed.

Lemma save_touchesOnly (now : Date) (c : Candidate.t) (db : Db)
    (o : Outcome Candidate.t) (db' : Db) :
  CandidateMethods.save now c db = (o, db') ->
  touchesOnly (Candidate._id c) db db'
  /\ match o with
     | Done c' => c' = Candidate.set_updatedAt now c
                  /\ candidates db'
                     = CandidateMethods.replaceById c' (candidates db)
     | Thrown _ => db' = db
     end.
Proof.
  unfold CandidateMethods.save.
  destruct (CandidateMethods.preSave c); intros H; inversion H; subst.
  - split; [|split; reflexivity]. split; [|reflexivity]. simpl.
    apply (others_replaceById (Candidate.set_updatedAt now c)).
  - split; [apply touchesOnly_refl | reflexivity].
Qed.

Lemma extends_refl {A : Type} (s : list A) : extends s s.
Proof. exists []. now rewrite app_nil_r. Qed.

Lemma extends_trans {A : Type} (s t u : list A) :
  extends s t -> extends t u -> extends s u.
Proof.
  intros [m ->] [n ->]. exists (m ++ n). now rewrite app_assoc.
Qed.

Lemma extends_app {A : Type} (s more : list A) : extends s (s ++ more).
Proof. now exists more. Qed.

Lemma appendOnly_refl (db : Db) : appendOnly db db.
Proof.
  intros d Hin. exists d. repeat split; trivial; apply extends_refl.
Qed.

Lemma appendOnly_trans (db1 db2 db3 : Db) :
  appendOnly db1 db2 -> appendOnly db2 db3 -> appendOnly db1 db3.
Proof.
  intros H12 H23 d3 Hin.
  destruct (H23 d3 Hin) as (d2 & Hin2 & I2 & Hh2 & Hc2).
  destruct (H12 d2 Hin2) as (d1 & Hin1 & I1 & Hh1 & Hc1).
  exists d1. repeat split; trivial; [congruence| |];
    eapply extends_trans; eassumption.
Qed.

Lemma quiet_refl (id : ObjectId) (db : Db) : quiet id db db.
Proof. split; [apply touchesOnly_refl | apply appendOnly_refl]. Qed.

Lemma quiet_trans (id : ObjectId) (db1 db2 db3 : Db) :
  quiet id db1 db2 -> quiet id db2 db3 -> quiet id db1 db3.
Proof.
  intros [A B] [C D].
  split; [eapply touchesOnly_trans | eapply appendOnly_trans]; eassumption.
Qed.

Lemma In_replaceById (c d : Candidate.t) (l : list Candidate.t) :
  In d (CandidateMethods.replaceById c l) ->
  (d = c /\ exists d0, In d0 l /\ Candidate._id d0 = Candidate._id c)
  \/ In d l.
Proof.
  unfold CandidateMethods.replaceById. rewrite in_map_iff.
  intros (d0 & E & Hin).
  destruct (String.eqb_spec (Candidate._id d0) (Candidate._id c)).
  - left. split; [now symmetry|]. now exists d0.
  - right. now subst.
Qed.

(** Saving a document that descends from a stored one. *)
Lemma save_step (now : Date) (c c1 : Candidate.t) (db : Db)
    (o : Outcome Candidate.t) (db' : Db) :
  In c (candidates db) ->
  Candidate._id c1 = Candidate._id c ->
  extends (Candidate.history c) (Candidate.history c1) ->
  extends (Candidate.comments c) (Candidate.comments c1) ->
  CandidateMethods.save now c1 db = (o, db') ->
  quiet (Candidate._id c) db db'
  /\ match o with
     | Done c2 =>
         c2 = Candidate.set_updatedAt now c1 /\ In c2 (candidates db')
     | Thrown _ => db' = db
     end.
Proof.
  intros Hin Hid Hh Hc Hsave.
  destruct (save_touchesOnly now c1 db o db' Hsave) as [Ht Ho].
  rewrite Hid in Ht. destruct o as [c2|why].
  - destruct Ho as [-> Hcs]. split; [split; [exact Ht|]|split; [reflexivity|]].
    + intros d Hd. rewrite Hcs in Hd. apply In_replaceById in Hd.
      destruct Hd as [[-> _]|Hd].
      * exists c. repeat split; trivial. simpl. now symmetry.
      * exists d. repeat split; trivial; apply extends_refl.
    + rewrite Hcs. unfold CandidateMethods.replaceById. apply in_map_iff.
      exists c. split; [|exact Hin]. simpl. now rewrite Hid, String.eqb_refl.
  - subst db'. split; [apply quiet_refl | reflexivity].
Qed.

Lemma addHistoryEntry_step (c this : Candidate.t) (user : User.t)
    (action : string) (details : option string) (now : Date) (db : Db)
    (o : Outcome Candidate.t) (db' : Db) :
  In c (candidates db) ->
  Candidate._id this = Candidate._id c ->
  extends (Candidate.history c) (Candidate.history this) ->
  extends (Candidate.comments c) (Candidate.comments this) ->
  CandidateMethods.addHistoryEntry this user action details now db = (o, db') ->
  quiet (Candidate._id c) db db'
  /\ match o with
     | Done c2 =>
         In c2 (candidates db')
         /\ Candidate._id c2 = Candidate._id c
         /\ Candidate.history c2
            = Candidate.history this
                ++ [HistoryEntry.mk (User.nameOrUsername user) action details
                      now]
         /\ Candidate.comments c2 = Candidate.comments this
     | Thrown _ => db' = db
     end.
Proof.
  intros Hin Hid Hh Hc Hrun. unfold CandidateMethods.addHistoryEntry in Hrun.
  eapply save_step in Hrun; try exact Hin; simpl; trivial.
  - destruct Hrun as [Hq Ho]. split; [exact Hq|].
    destruct o as [c2|]; [|exact Ho]. destruct Ho as [-> Hin2].
    repeat split; trivial.
  - eapply extends_trans; [exact Hh | apply extends_app].
Qed.

Lemma addComment_step (c : Candidate.t) (user : User.t) (text : string)
    (now : Date) (db : Db) (o : Outcome Candidate.t) (db' : Db) :
  In c (candidates db) ->
  CandidateMethods.addComment c user text now db = (o, db') ->
  quiet (Candidate._id c) db db'
  /\ match o with
     | Done c2 =>
         c2 = Candidate.set_updatedAt now
                (Candidate.set_comments
                   (Candidate.comments c
                      ++ [Comment.mk (User.nameOrUsername user) text now]) c)
         /\ In c2 (candidates db')
     | Thrown _ => db' = db
     end.
Proof.
  intros Hin Hrun. unfold CandidateMethods.addComment in Hrun.
  eapply save_step in Hrun; try exact Hin; simpl; trivial.
  - apply extends_refl.
  - apply extends_app.
Qed.

Lemma updateStage_step (c : Candidate.t) (newStage : string) (user : User.t)
    (now : Date) (db : Db) (o : Outcome Candidate.t) (db' : Db) :
  In c (candidates db) ->
  CandidateMethods.updateStage c newStage user now db = (o, db') ->
  quiet (Candidate._id c) db db'.
Proof.
  intros Hin Hrun. unfold CandidateMethods.updateStage, bind in Hrun.
  destruct (CandidateMethods.addHistoryEntry _ _ _ _ _ db) as [o1 db1] eqn:E.
  eapply addHistoryEntry_step in E; try exact Hin; simpl; trivial;
    try apply extends_refl.
  destruct E as [Hq Ho]. destruct o1 as [c2|why1]; inversion Hrun; subst.
  - exact Hq.
  - apply quiet_refl.
Qed.

(** [archive] and [unarchive]: an entry is pushed and the document is
    saved twice. *)
Lemma double_save_step (c this : Candidate.t) (user : User.t)
    (action : string) (now : Date) (db : Db)
    (o : Outcome Candidate.t) (db' : Db) :
  In c (candidates db) ->
  Candidate._id this = Candidate._id c ->
  Candidate.history this = Candidate.history c ->
  Candidate.comments this = Candidate.comments c ->
  (this1 <- CandidateMethods.addHistoryEntry this user action None now ;;
   CandidateMethods.save now this1) db = (o, db') ->
  quiet (Candidate._id c) db db'.
Proof.
  intros Hin Hid Hh Hc Hrun. unfold bind in Hrun.
  destruct (CandidateMethods.addHistoryEntry _ _ _ _ _ db) as [o1 db1] eqn:E.
  eapply addHistoryEntry_step in E; try exact Hin; trivial;
    try (rewrite ?Hh, ?Hc; apply extends_refl).
  destruct E as [Hq Ho]. destruct o1 as [c2|why1].
  - destruct Ho as (Hin2 & Hid2 & _ & _).
    eapply save_step in Hrun; try exact Hin2; trivial;
      try apply extends_refl.
    destruct Hrun as [Hq2 _]. rewrite Hid2 in Hq2.
    eapply quiet_trans; eassumption.
  - inversion Hrun; subst. apply quiet_refl.
Qed.

Lemma tryCatch_quiet (id : ObjectId) (m : Async Response.t) (msg : string)
    (db : Db) :
  (forall o db', m db = (o, db') -> quiet id db db') ->
  quiet id db (snd (tryCatch m msg db)).
Proof.
  intros H. unfold tryCatch. destruct (m db) as [o db'] eqn:E.
  specialize (H o db' eq_refl). now destruct o.
Qed.

Lemma found_in (id org : ObjectId) (db : Db) (c : Candidate.t) :
  find (CandidatesRouter.selects id org) (candidates db) = Some c ->
  In c (candidates db) /\ Candidate._id c = id.
Proof.
  intros H. split; [now apply find_some in H|].
  now apply find_selects in H.
Qed.

Lemma putCandidate_quiet (isEmail : string -> bool) (req : Request.t)
    (db : Db) :
  quiet (Request.param req "id") db
    (snd (CandidatesRouter.putCandidate isEmail req db)).
Proof.
  unfold CandidatesRouter.putCandidate, handleValidationErrors, check.
  destruct (CandidatesRouter.optionalEmailPasses isEmail _);
    [|apply quiet_refl].
  apply tryCatch_quiet. intros o db' H. unfold bind in H.
  rewrite findOne_run in H.
  destruct (find _ (candidates db)) as [c|] eqn:Ef;
    [|inversion H; apply quiet_refl].
  destruct (found_in _ _ _ _ Ef) as [Hin <-].
  destruct (CandidatesRouter.updateFields _ _ c) as [c1|] eqn:Eu;
    [|inversion H; apply quiet_refl].
  destruct (updateFields_frame _ _ _ _ Eu) as (I & _ & Hh & Hc & _).
  destruct (CandidateMethods.save _ _ db) as [o1 db1] eqn:Es.
  eapply save_step in Es; try exact Hin; simpl; trivial.
  - destruct Es as [Hq _]. destruct o1; inversion H; subst; exact Hq.
  - rewrite Hh. apply extends_app.
  - rewrite Hc. apply extends_refl.
Qed.

Lemma putCandidateStage_quiet (req : Request.t) (db : Db) :
  quiet (Request.param req "id") db
    (snd (CandidatesRouter.putCandidateStage req db)).
Proof.
  unfold CandidatesRouter.putCandidateStage, handleValidationErrors, check.
  destruct (notEmpty _); [|apply quiet_refl].
  apply tryCatch_quiet. intros o db' H. unfold bind in H.
  rewrite findOne_run in H.
  destruct (find _ (candidates db)) as [c|] eqn:Ef;
    [|inversion H; apply quiet_refl].
  destruct (found_in _ _ _ _ Ef) as [Hin <-].
  destruct (getField (Request.body req) "stage") as [[| | |newStage| |]|];
    try (inversion H; apply quiet_refl).
  destruct (CandidateMethods.updateStage _ _ _ _ db) as [o1 db1] eqn:Es.
  apply updateStage_step in Es; [|exact Hin].
  destruct o1; inversion H; subst; exact Es.
Qed.

Lemma postComment_quiet (req : Request.t) (db : Db) :
  quiet (Request.param req "id") db
    (snd (CandidatesRouter.postComment req db)).
Proof.
  unfold CandidatesRouter.postComment, handleValidationErrors, check.
  destruct (notEmpty _); [|apply quiet_refl].
  apply tryCatch_quiet. intros o db' H. unfold bind in H.
  rewrite findOne_run in H.
  destruct (find _ (candidates db)) as [c|] eqn:Ef;
    [|inversion H; apply quiet_refl].
  destruct (found_in _ _ _ _ Ef) as [Hin <-].
  destruct (getField (Request.body req) "text") as [[| | |text| |]|];
    try (inversion H; apply quiet_refl).
  destruct (CandidateMethods.addComment _ _ _ _ db) as [o1 db1] eqn:Es.
  apply addComment_step in Es; [|exact Hin]. destruct Es as [Hq _].
  destruct o1; inversion H; subst; exact Hq.
Qed.

Lemma putArchive_quiet (req : Request.t) (db : Db) :
  quiet (Request.param req "id") db (snd (CandidatesRouter.putArchive req db)).
Proof.
  unfold CandidatesRouter.putArchive.
  apply tryCatch_quiet. intros o db' H. unfold bind at 1 in H.
  rewrite findOne_run in H.
  destruct (find _ (candidates db)) as [c|] eqn:Ef;
    [|inversion H; apply quiet_refl].
  destruct (found_in _ _ _ _ Ef) as [Hin <-].
  destruct (Candidate.isArchived c); unfold bind at 1 in H.
  - destruct (CandidateMethods.unarchive _ _ _ db) as [o1 db1] eqn:Es.
    unfold CandidateMethods.unarchive in Es.
    apply double_save_step with (c := c) in Es; trivial.
    destruct o1; inversion H; subst; exact Es.
  - destruct (CandidateMethods.archive _ _ _ db) as [o1 db1] eqn:Es.
    unfold CandidateMethods.archive in Es.
    apply double_save_step with (c := c) in Es; trivial.
    destruct o1; inversion H; subst; exact Es.
Qed.

Lemma others_removeFirst (id : ObjectId) (f : Candidate.t -> bool)
    (l : list Candidate.t) :
  (forall d, f d = true -> Candidate._id d = id) ->
  others id (CandidatesRouter.removeFirst f l) = others id l.
Proof.
  intros Hf. unfold others. induction l as [|d l IH]; simpl; [reflexivity|].
  destruct (f d) eqn:Fd.
  - rewrite (Hf d Fd), String.eqb_refl. reflexivity.
  - simpl. now rewrite IH.
Qed.

Lemma In_removeFirst (f : Candidate.t -> bool) (d : Candidate.t)
    (l : list Candidate.t) :
  In d (CandidatesRouter.removeFirst f l) -> In d l.
Proof.
  induction l as [|x l IH]; simpl; [tauto|].
  destruct (f x); simpl; tauto.
Qed.

Lemma deleteCandidate_quiet (req : Request.t) (db : Db) :
  quiet (Request.param req "id") db
    (snd (CandidatesRouter.deleteCandidate req db)).
Proof.
  unfold CandidatesRouter.deleteCandidate, CandidatesRouter.isAdmin.
  destruct (User.isAdmin _); [|apply quiet_refl].
  apply tryCatch_quiet. intros o db' H.
  unfold bind, CandidatesRouter.findOneAndDelete in H.
  assert (Hq : quiet (Request.param req "id") db
                 (set_candidates
                    (CandidatesRouter.removeFirst
                       (CandidatesRouter.selects (Request.param req "id")
                          (Request.organization req)) (candidates db)) db)).
  { split; [split; [|reflexivity]|].
    - simpl. apply others_removeFirst. intros d Hd.
      unfold CandidatesRouter.selects in Hd. apply andb_true_iff in Hd.
      now apply String.eqb_eq.
    - intros d Hd. simpl in Hd. apply In_removeFirst in Hd.
      exists d. repeat split; trivial; apply extends_refl. }
  destruct (find _ (candidates db)); inversion H; subst; exact Hq.
Qed.

Lemma upload_quiet (req : Request.t) (db : Db) :
  quiet (Request.param req "candidateId") db
    (snd (FilesRouter.postTestResult req db))
  /\ quiet (Request.param req "candidateId") db
       (snd (FilesRouter.postResume req db))
  /\ quiet (Request.param req "candidateId") db
       (snd (FilesRouter.deleteFile req db)).
Proof.
  split; [|split].
  - unfold FilesRouter.postTestResult.
    apply tryCatch_quiet. intros o db' H.
    destruct (Request.file req) as [file|]; [|inversion H; apply quiet_refl].
    unfold bind in H. rewrite findOne_run in H.
    destruct (find _ (candidates db)) as [c|] eqn:Ef;
      [|inversion H; apply quiet_refl].
    destruct (found_in _ _ _ _ Ef) as [Hin <-].
    destruct (CandidateMethods.save _ _ db) as [o1 db1] eqn:Es.
    eapply save_step in Es; try exact Hin;
      try (destruct (find _ (Candidate.testResults c)); simpl; trivial;
           apply extends_refl).
    destruct Es as [Hq _]. destruct o1; inversion H; subst; exact Hq.
  - unfold FilesRouter.postResume.
    apply tryCatch_quiet. intros o db' H.
    destruct (Request.file req) as [file|]; [|inversion H; apply quiet_refl].
    unfold bind in H. rewrite findOne_run in H.
    destruct (find _ (candidates db)) as [c|] eqn:Ef;
      [|inversion H; apply quiet_refl].
    destruct (found_in _ _ _ _ Ef) as [Hin <-].
    destruct (CandidateMethods.save _ _ db) as [o1 db1] eqn:Es.
    eapply save_step in Es; try exact Hin; simpl; trivial;
      try apply extends_refl.
    destruct Es as [Hq _]. destruct o1; inversion H; subst; exact Hq.
  - unfold FilesRouter.deleteFile.
    apply tryCatch_quiet. intros o db' H.
    unfold bind in H. rewrite findOne_run in H.
    destruct (find _ (candidates db)) as [c|] eqn:Ef;
      [|inversion H; apply quiet_refl].
    destruct (found_in _ _ _ _ Ef) as [Hin <-].
    destruct (_ && _).
    + destruct (CandidateMethods.save _ _ db) as [o1 db1] eqn:Es.
      eapply save_step in Es; try exact Hin; simpl; trivial;
        try apply extends_refl.
      destruct Es as [Hq _]. destruct o1; inversion H; subst; exact Hq.
    + inversion H; apply quiet_refl.
Qed.

(** X1.  Whatever the request, the update, stage, comment, archive and
    delete routes and the three file routes leave every candidate whose
    [_id] is not the one in the path, and every organization, stored as
    they were and in the same order. *)
Theorem candidate_writes_reach_one_document
    (isEmail : string -> bool) (req : Request.t) (db : Db) :
  touchesOnly (Request.param req "id") db
    (snd (CandidatesRouter.putCandidate isEmail req db))
  /\ touchesOnly (Request.param req "id") db
       (snd (CandidatesRouter.putCandidateStage req db))
  /\ touchesOnly (Request.param req "id") db
       (snd (CandidatesRouter.postComment req db))
  /\ touchesOnly (Request.param req "id") db
       (snd (CandidatesRouter.putArchive req db))
  /\ touchesOnly (Request.param req "id") db
       (snd (CandidatesRouter.deleteCandidate req db))
  /\ touchesOnly (Request.param req "candidateId") db
       (snd (FilesRouter.postTestResult req db))
  /\ touchesOnly (Request.param req "candidateId") db
       (snd (FilesRouter.postResume req db))
  /\ touchesOnly (Request.param req "candidateId") db
       (snd (FilesRouter.deleteFile req db)).
Proof.
  pose proof (upload_quiet req db) as (U1 & U2 & U3).
  repeat split;
    first [ apply putCandidate_quiet | apply putCandidateStage_quiet
          | apply postComment_quiet | apply putArchive_quiet
          | apply deleteCandidate_quiet | apply U1 | apply U2 | apply U3 ].
Qed.

(** X2.  History and comments only grow: after any request to the update,
    stage, comment, archive, delete or file routes, every stored candidate
    comes from a stored candidate of the same [_id] whose [history] and
    [comments] are initial segments of its own. *)
Theorem history_and_comments_only_grow
    (isEmail : string -> bool) (req : Request.t) (db : Db) :
  appendOnly db (snd (CandidatesRouter.putCandidate isEmail req db))
  /\ appendOnly db (snd (CandidatesRouter.putCandidateStage req db))
  /\ appendOnly db (snd (CandidatesRouter.postComment req db))
  /\ appendOnly db (snd (CandidatesRouter.putArchive req db))
  /\ appendOnly db (snd (CandidatesRouter.deleteCandidate req db))
  /\ appendOnly db (snd (FilesRouter.postTestResult req db))
  /\ appendOnly db (snd (FilesRouter.postResume req db))
  /\ appendOnly db (snd (FilesRouter.deleteFile req db)).
Proof.
  pose proof (upload_quiet req db) as (U1 & U2 & U3).
  repeat split;
    first [ apply putCandidate_quiet | apply putCandidateStage_quiet
          | apply postComment_quiet | apply putArchive_quiet
          | apply deleteCandidate_quiet | apply U1 | apply U2 | apply U3 ].
Qed.

(** ** A candidate of another tenant cannot be written *)





(** ** Creating a candidate *)

Lemma tenantCount_canAdd (o : Organization.t) (org : ObjectId) (db : Db) :
  String.eqb (Organization._id o) org = true ->
  OrganizationMethods.canAddCandidate o db
  = (Done (tenantCount org db <? Organization.maxCandidates o), db).
Proof.
  intros H. apply String.eqb_eq in H. subst org.
  unfold OrganizationMethods.canAddCandidate, tenantCount. reflexivity.
Qed.


Ltac finish_create o :=
  let H := fresh "H" in
  let c' := fresh "c'" in
  destruct (CandidatesRouter.newCandidate _) as [c'|];
    [|intros H; inversion H; subst; right; simpl; auto];
  unfold CandidateMethods.saveNew;
  destruct (CandidateMethods.preSave c');
    [|intros H; inversion H; subst; right; simpl; auto];
  destruct (existsb _ _) eqn:?;
    [intros H; inversion H; subst; right; simpl; auto|];
  intros H; inversion H; subst; left; split; [reflexivity|];
  exists o, c'; repeat split; trivial.

(** Every answer of the create route: the 201 with what was checked on
    the way, or an answer that leaves the database as it was. *)
Lemma postCandidate_outcome (isEmail : string -> bool) (req : Request.t)
    (db : Db) (resp : Response.t) (db' : Db) :
  CandidatesRouter.postCandidate isEmail req db = (resp, db') ->
  (Response.statusCode resp = 201
   /\ exists o c',
        find (fun x => String.eqb (Organization._id x)
                         (Request.organization req)) (organizations db)
        = Some o
        /\ tenantCount (Request.organization req) db
           < Organization.maxCandidates o
        /\ CandidatesRouter.newCandidate req = Some c'
        /\ resp = Response.mk 201 true (Some "متقاضی با موفقیت اضافه شد")
                    (Response.CandidateData c') []
        /\ db' = set_candidates (candidates db ++ [c']) db
        /\ existsb (fun d => String.eqb (Candidate._id d) (Candidate._id c'))
             (candidates db) = false
        /\ (forall s,
              getField (Request.body req) "email" = Some (VStr s) ->
              find (fun c => String.eqb (Candidate.email c) (toLowerCase s)
                             && CandidatesRouter.ofTenant
                                  (Request.organization req) c)
                (candidates db) = None))
  \/ (In (Response.statusCode resp) [400; 403; 500] /\ db' = db).
Proof.
  unfold CandidatesRouter.postCandidate, handleValidationErrors.
  destruct (_ ++ _) as [|e errs];
    [|intros H; inversion H; subst; right; simpl; auto].
  unfold tryCatch, bind, CandidatesRouter.findById.
  destruct (find _ (organizations db)) as [o|] eqn:Eo;
    [|intros H; inversion H; subst; right; simpl; auto].
  rewrite (tenantCount_canAdd o (Request.organization req))
    by (apply find_some in Eo; tauto).
  destruct (_ <? _) eqn:Eq; simpl;
    [|intros H; inversion H; subst; right; simpl; auto].
  apply Z.ltb_lt in Eq.
  destruct (getField (Request.body req) "email") as [mail|].
  - unfold CandidatesRouter.findByEmail.
    destruct mail as [| | |s0| |]; simpl;
      try (intros H; inversion H; subst; right; simpl; now auto).
    destruct (find _ (candidates db)) eqn:Ed;
      [intros H; inversion H; subst; right; simpl; auto|].
    finish_create o. intros s Hs. inversion Hs; subst. exact Ed.
  - unfold ret at 1. finish_create o. discriminate.
Qed.

Lemma newCandidate_identity (req : Request.t) (c' : Candidate.t) :
  CandidatesRouter.newCandidate req = Some c' ->
  Candidate.organization c' = Some (Request.organization req)
  /\ Candidate.createdBy c' = Some (User._id (Request.user req))
  /\ Candidate.history c'
     = [HistoryEntry.mk (User.name (Request.user req)) "متقاضی ایجاد شد" None
          (Request.now req)].
Proof.
  unfold CandidatesRouter.newCandidate.
  destruct (Assign.assignAll _ _ _); [|discriminate].
  intros H; inversion H; subst. repeat split.
Qed.

(** X4.  A created candidate belongs to the caller's tenant, is marked as
    created by the caller and starts with the single "created" history
    entry, whatever [organization], [createdBy] or [history] the body
    carries; it is appended to the collection and nothing else changes.
    Any answer other than 201 leaves the database as it was. *)
Theorem created_candidate_belongs_to_the_caller
    (isEmail : string -> bool) (req : Request.t) (db : Db)
    (resp : Response.t) (db' : Db) :
  CandidatesRouter.postCandidate isEmail req db = (resp, db') ->
  (Response.statusCode resp = 201 ->
   exists c',
     Response.data resp = Response.CandidateData c'
     /\ candidates db' = candidates db ++ [c']
     /\ organizations db' = organizations db
     /\ Candidate.organization c' = Some (Request.organization req)
     /\ Candidate.createdBy c' = Some (User._id (Request.user req))
     /\ Candidate.history c'
        = [HistoryEntry.mk (User.name (Request.user req)) "متقاضی ایجاد شد"
             None (Request.now req)])
  /\ (Response.statusCode resp <> 201 -> db' = db).
Proof.
  intros Hrun.
  destruct (postCandidate_outcome isEmail req db resp db' Hrun)
    as [(Hs & o & c' & _ & _ & Hn & -> & -> & _)|(Hs & ->)].
  - split; [|intros K; now elim K]. intros _. exists c'.
    destruct (newCandidate_identity req c' Hn) as (A & B & C).
    repeat split; trivial.
  - split; [|reflexivity]. intros K. rewrite K in Hs. simpl in Hs.
    repeat (destruct Hs as [Hs|Hs]; [discriminate|]). contradiction.
Qed.










(** ** Deleting a candidate *)

Lemma removeFirst_unique (id org : ObjectId) (l : list Candidate.t)
    (c : Candidate.t) :
  NoDup (map Candidate._id l) ->
  find (CandidatesRouter.selects id org) l = Some c ->
  (forall d, In d (CandidatesRouter.removeFirst
                     (CandidatesRouter.selects id org) l) ->
             Candidate._id d <> id)
  /\ S (List.length (CandidatesRouter.removeFirst
                       (CandidatesRouter.selects id org) l))
     = List.length l.
Proof.
  induction l as [|x l IH]; simpl; intros Hnd Hf; [discriminate|].
  inversion Hnd as [|? ? Hnotin Hnd']; subst.
  destruct (CandidatesRouter.selects id org x) eqn:Ex.
  - inversion Hf; subst x. split; [|reflexivity].
    intros d Hin Hid. apply Hnotin.
    unfold CandidatesRouter.selects in Ex. apply andb_true_iff in Ex.
    destruct Ex as [Ex _]. apply String.eqb_eq in Ex.
    rewrite Ex, <- Hid. now apply in_map.
  - destruct (IH Hnd' Hf) as [H1 H2]. split.
    + intros d [<-|Hin]; [|now apply H1].
      intros Hid. apply find_some in Hf. destruct Hf as [Hin Hsel].
      apply Hnotin. unfold CandidatesRouter.selects in Hsel.
      apply andb_true_iff in Hsel. destruct Hsel as [Hsel _].
      apply String.eqb_eq in Hsel. rewrite Hid, <- Hsel. now apply in_map.
    + simpl. now rewrite H2.
Qed.

(** X8.  With distinct [_id]s in the collection, an administrator's delete
    of a candidate of the tenant answers 200 and removes exactly that
    document: one document fewer, no stored document has that [_id] any
    more, and a [get] for it now answers 404. *)
Theorem deleted_candidate_is_gone
    (req : Request.t) (db : Db) (c : Candidate.t) :
  User.isAdmin (Request.user req) = true ->
  NoDup (map Candidate._id (candidates db)) ->
  find (CandidatesRouter.selects (Request.param req "id")
          (Request.organization req)) (candidates db) = Some c ->
  exists db',
    CandidatesRouter.deleteCandidate req db
    = (Response.okWith (Some "متقاضی حذف شد") Response.NoData, db')
    /\ S (List.length (candidates db')) = List.length (candidates db)
    /\ (forall d, In d (candidates db') ->
                  Candidate._id d <> Request.param req "id")
    /\ CandidatesRouter.getCandidate req db'
       = (CandidatesRouter.notFound, db').
Proof.
  intros Hadmin Hnd Hfind.
  destruct (removeFirst_unique _ _ _ _ Hnd Hfind) as [Hgone Hlen].
  eexists. split.
  - unfold CandidatesRouter.deleteCandidate, CandidatesRouter.isAdmin,
      tryCatch, bind, CandidatesRouter.findOneAndDelete.
    rewrite Hadmin, Hfind. reflexivity.
  - simpl. split; [exact Hlen|]. split; [exact Hgone|].
    apply getCandidate_notFound. simpl. apply find_none_iff.
    intros d Hin. unfold CandidatesRouter.selects.
    apply andb_false_iff. left. apply String.eqb_neq. now apply Hgone.
Qed.

(** X9.  The routes reserved to administrators answer 403 to any other
    user before they validate or read anything, and change nothing. *)
Theorem admin_routes_refuse_other_users (req : Request.t) (db : Db) :
  User.isAdmin (Request.user req) = false ->
  forall r,
    In r [CandidatesRouter.deleteCandidate req db;
          SettingsRouter.postStage req db;
          SettingsRouter.putStage req db;
          SettingsRouter.deleteStage req db;
          SettingsRouter.putStagesReorder req db] ->
    r = (Response.failure 403 "دسترسی فقط برای مدیران", db).
Proof.
  intros H r Hr. simpl in Hr.
  repeat (destruct Hr as [<-|Hr]); [| | | | |contradiction].
  - unfold CandidatesRouter.deleteCandidate, CandidatesRouter.isAdmin.
    now rewrite H.
  - unfold SettingsRouter.postStage, SettingsRouter.isAdmin. now rewrite H.
  - unfold SettingsRouter.putStage, SettingsRouter.isAdmin. now rewrite H.
  - unfold SettingsRouter.deleteStage, SettingsRouter.isAdmin. now rewrite H.
  - unfold SettingsRouter.putStagesReorder, SettingsRouter.isAdmin.
    now rewrite H.
Qed.

(** ** The list route: order and pages *)

Lemma compareKey_antisym (a b : Sorting.Key) :
  Sorting.compareKey b a = CompOpp (Sorting.compareKey a b).
Proof.
  destruct a, b; simpl; trivial;
    try apply Z.compare_antisym; try apply String.compare_antisym.
  now destruct b0, b.
Qed.

Lemma inOrder_total (path : string) (dir : Z) (a b : Candidate.t) :
  dir <> 0 ->
  Sorting.inOrder path dir a b = false -> Sorting.inOrder path dir b a = true.
Proof.
  unfold Sorting.inOrder. intros Hd.
  rewrite (compareKey_antisym (Sorting.sortKey path a)).
  destruct (Sorting.compareKey _ _); simpl; try discriminate;
    intros H; [apply Z.ltb_ge in H | apply Z.ltb_ge in H];
    apply Z.ltb_lt; lia.
Qed.

Lemma insert_sorted (path : string) (dir : Z) (x : Candidate.t)
    (l : list Candidate.t) :
  dir <> 0 ->
  Sorted (fun a b => Sorting.inOrder path dir a b = true) l ->
  Sorted (fun a b => Sorting.inOrder path dir a b = true)
    (Sorting.insert path dir x l).
Proof.
  intros Hd. induction l as [|y r IH]; simpl; intros Hs.
  - constructor; constructor.
  - destruct (Sorting.inOrder path dir x y) eqn:E.
    + constructor; [exact Hs | now constructor].
    + apply Sorted_inv in Hs. destruct Hs as [Hr Hh].
      constructor; [now apply IH|].
      destruct r as [|z r]; simpl.
      * constructor. now apply inOrder_total.
      * destruct (Sorting.inOrder path dir x z).
        -- constructor. now apply inOrder_total.
        -- constructor. now apply HdRel_inv in Hh.
Qed.

Lemma sort_sorted (path : string) (dir : Z) (l : list Candidate.t) :
  dir <> 0 ->
  Sorted (fun a b => Sorting.inOrder path dir a b = true)
    (Sorting.sort path dir l).
Proof.
  intros Hd. induction l as [|x r IH]; simpl; [constructor|].
  now apply insert_sorted.
Qed.

Lemma skipn_sorted {A : Type} (R : A -> A -> Prop) (n : nat) :
  forall l, Sorted R l -> Sorted R (skipn n l).
Proof.
  induction n as [|n IH]; intros [|x l] H; simpl; trivial.
  apply IH. now apply Sorted_inv in H.
Qed.

Lemma firstn_sorted {A : Type} (R : A -> A -> Prop) (n : nat) :
  forall l, Sorted R l -> Sorted R (firstn n l).
Proof.
  induction n as [|n IH]; intros [|x l] H; simpl; try constructor.
  - apply IH. now apply Sorted_inv in H.
  - apply Sorted_inv in H. destruct H as [_ H].
    destruct n, l; simpl; constructor. now apply HdRel_inv in H.
Qed.

Lemma getCandidates_shape (compileRegex : string -> option (string -> bool))
    (req : Request.t) (db : Db) :
  let q := Request.query req in
  let found :=
    filter (satisfies compileRegex (CandidatesRouter.buildQuery req))
      (candidates db) in
  let page := CandidatesRouter.orDefault (Query.page q) 1 in
  let limit := CandidatesRouter.orDefault (Query.limit q) 50 in
  let sorted :=
    Sorting.sort (CandidatesRouter.orDefault (Query.sortBy q) "createdAt")
      (directionOf req) found in
  CandidatesRouter.getCandidates compileRegex req db
  = match
      match CandidatesRouter.f_search (CandidatesRouter.buildQuery req) with
      | Some pattern =>
          match compileRegex pattern with
          | None => None
          | Some _ => CandidatesRouter.paginate page limit sorted
          end
      | None => CandidatesRouter.paginate page limit sorted
      end
    with
    | Some shown =>
        (Response.okWith None
           (Response.ListData shown (Z.of_nat (List.length found)) page
              (CandidatesRouter.pageCount (Z.of_nat (List.length found))
                 limit)), db)
    | None => (Response.failure 500 "خطا در دریافت لیست متقاضیان", db)
    end.
Proof.
  intros q found page limit sorted.
  unfold CandidatesRouter.getCandidates, tryCatch,
    CandidatesRouter.findPage, CandidatesRouter.countDocuments, bind.
  fold q page limit. rewrite matching_run.
  change (if String.eqb (CandidatesRouter.orDefault (Query.order q) "desc")
               "desc" then -1 else 1) with (directionOf req).
  destruct (CandidatesRouter.f_search _) as [pattern|] eqn:Es.
  - destruct (compileRegex pattern) eqn:Ec; [|reflexivity].
    fold found sorted.
    destruct (CandidatesRouter.paginate page limit sorted); [|reflexivity].
    unfold ret. cbv beta iota. rewrite matching_run, Es, Ec. reflexivity.
  - fold found sorted.
    destruct (CandidatesRouter.paginate page limit sorted); [|reflexivity].
    unfold ret. cbv beta iota. rewrite matching_run, Es. reflexivity.
Qed.

Lemma directionOf_nonzero (req : Request.t) : directionOf req <> 0.
Proof. unfold directionOf. destruct (String.eqb _ _); discriminate. Qed.

(** X10.  The list that the list route returns is in the order of the sort
    path: ascending, unless [order] is absent or exactly ["desc"], in which
    case it is descending; the path is [createdAt] when [sortBy] is
    absent. *)
Theorem list_is_in_sort_order
    (compileRegex : string -> option (string -> bool))
    (req : Request.t) (db : Db) (shown : list Candidate.t)
    (total page : Z) (pages : option Z) :
  fst (CandidatesRouter.getCandidates compileRegex req db)
  = Response.okWith None (Response.ListData shown total page pages) ->
  Sorted
    (fun a b =>
       Sorting.inOrder
         (CandidatesRouter.orDefault (Query.sortBy (Request.query req))
            "createdAt")
         (directionOf req) a b = true)
    shown
  /\ (directionOf req = -1
      <-> CandidatesRouter.orDefault (Query.order (Request.query req)) "desc"
          = "desc")
  /\ (directionOf req = -1 \/ directionOf req = 1).
Proof.
  intros H. split.
  - rewrite getCandidates_shape in H. cbv zeta in H.
    set (sorted := Sorting.sort _ _ _) in H.
    assert (Hs : Sorted
                   (fun a b =>
                      Sorting.inOrder
                        (CandidatesRouter.orDefault
                           (Query.sortBy (Request.query req)) "createdAt")
                        (directionOf req) a b = true) sorted)
      by apply sort_sorted, directionOf_nonzero.
    assert (Hp : forall s, CandidatesRouter.paginate
                             (CandidatesRouter.orDefault
                                (Query.page (Request.query req)) 1)
                             (CandidatesRouter.orDefault
                                (Query.limit (Request.query req)) 50) sorted
                           = Some s ->
                           s = shown ->
                           Sorted
                             (fun a b =>
                                Sorting.inOrder
                                  (CandidatesRouter.orDefault
                                     (Query.sortBy (Request.query req))
                                     "createdAt")
                                  (directionOf req) a b = true) s).
    { intros s Hpag _. unfold CandidatesRouter.paginate in Hpag.
      destruct (_ <? 0); [discriminate|]. inversion Hpag; subst s.
      destruct (_ =? 0); [now apply skipn_sorted|].
      now apply firstn_sorted, skipn_sorted. }
    destruct (CandidatesRouter.f_search _) as [pattern|].
    + destruct (compileRegex pattern); [|discriminate].
      destruct (CandidatesRouter.paginate _ _ sorted) as [s|] eqn:E;
        [|discriminate].
      simpl in H. inversion H; subst. now apply Hp.
    + destruct (CandidatesRouter.paginate _ _ sorted) as [s|] eqn:E;
        [|discriminate].
      simpl in H. inversion H; subst. now apply Hp.
  - unfold directionOf.
    destruct (String.eqb_spec
                (CandidatesRouter.orDefault
                   (Query.order (Request.query req)) "desc") "desc");
      split; try split; auto; try discriminate; intros; congruence.
Qed.






(** X12.  The list route answers 500, and not an empty list, when the
    search text is not a pattern that the store accepts, and when [page]
    and [limit] give a negative skip (a [page] of 0 with the default
    limit, for one). *)
Theorem list_fails_on_refused_pattern_and_negative_skip
    (compileRegex : string -> option (string -> bool))
    (req : Request.t) (db : Db) :
  let q := Request.query req in
  ((exists pattern,
       CandidatesRouter.whenTruthy (Query.search q) = Some pattern
       /\ compileRegex pattern = None)
   \/ (CandidatesRouter.orDefault (Query.page q) 1 - 1)
      * CandidatesRouter.orDefault (Query.limit q) 50 < 0) ->
  CandidatesRouter.getCandidates compileRegex req db
  = (Response.failure 500 "خطا در دریافت لیست متقاضیان", db).
Proof.
  intros q H. rewrite getCandidates_shape. cbv zeta. fold q.
  assert (Hskip :
            (CandidatesRouter.orDefault (Query.page q) 1 - 1)
            * CandidatesRouter.orDefault (Query.limit q) 50 < 0 ->
            forall l,
              CandidatesRouter.paginate
                (CandidatesRouter.orDefault (Query.page q) 1)
                (CandidatesRouter.orDefault (Query.limit q) 50) l = None).
  { intros K l. unfold CandidatesRouter.paginate.
    apply Z.ltb_lt in K. now rewrite K. }
  destruct H as [(pattern & Hp & Hc)|Hneg].
  - unfold CandidatesRouter.buildQuery. simpl. fold q. rewrite Hp, Hc.
    reflexivity.
  - rewrite (Hskip Hneg).
    destruct (CandidatesRouter.f_search _) as [pattern|]; [|reflexivity].
    destruct (compileRegex pattern); reflexivity.
Qed.

(** ** The stage list *)

Lemma maxOrder_bounds (l : list Stage.t) :
  forall (acc : Stage.Order) (m : Z),
    (acc = Stage.At m \/ exists s, In s l /\ Stage.order s = Stage.At m) ->
    exists M,
      fold_left Stage.orderMax (map Stage.order l) acc = Stage.At M
      /\ m <= M.
Proof.
  induction l as [|x l IH]; simpl; intros acc m H.
  - destruct H as [->|(s & [] & _)]. exists m. split; [reflexivity | lia].
  - destruct H as [->|(s & [<-|Hin] & Hs)].
    + destruct (Stage.order x) as [|n]; simpl.
      * apply IH. now left.
      * destruct (IH (Stage.At (Z.max m n)) (Z.max m n)) as (M & HM & Hle);
          [now left|].
        exists M. split; [exact HM | lia].
    + rewrite Hs. destruct acc as [|a]; simpl.
      * apply IH. now left.
      * destruct (IH (Stage.At (Z.max a m)) (Z.max a m)) as (M & HM & Hle);
          [now left|].
        exists M. split; [exact HM | lia].
    + apply IH. right. now exists s.
Qed.


(** X13.  An administrator's request to add a stage whose id is new to
    the tenant's list answers 200 and stores the list with the new stage
    at its end.  The new stage is never core, whatever the body says, its
    order is above the order of every stage already in the list, and the
    ids of the list stay distinct if they were. *)
Theorem added_stage_is_last_and_not_core
    (req : Request.t) (db : Db) (organization : Organization.t)
    (id title : string) (color : option string) :
  User.isAdmin (Request.user req) = true ->
  find (fun o => String.eqb (Organization._id o) (Request.organization req))
    (organizations db) = Some organization ->
  getField (Request.body req) "id" = Some (VStr id) -> id <> "" ->
  getField (Request.body req) "title" = Some (VStr title) -> title <> "" ->
  Cast.field Cast.string_ (Request.body req) "color" = Some color ->
  ~ In id (map Stage.id (Organization.stages organization)) ->
  exists added organization' db',
    SettingsRouter.postStage req db
    = (Response.okWith (Some "مرحله جدید اضافه شد")
         (Response.StagesData (Organization.stages organization')), db')
    /\ find (fun o => String.eqb (Organization._id o)
                        (Request.organization req))
         (organizations db') = Some organization'
    /\ Organization.stages organization'
       = Organization.stages organization ++ [added]
    /\ Stage.id added = id /\ Stage.title added = title
    /\ Stage.color added = color /\ Stage.isCore added = false
    /\ (forall s m, In s (Organization.stages organization) ->
                    Stage.order s = Stage.At m ->
                    exists n, Stage.order added = Stage.At n /\ m < n)
    /\ (NoDup (map Stage.id (Organization.stages organization)) ->
        NoDup (map Stage.id (Organization.stages organization'))).
Proof.
  intros Hadmin Horg Hid Hid0 Htitle Htitle0 Hcolor Hnew.
  set (added :=
         Stage.mk id title false color
           (Stage.orderSucc
              (OrganizationMethods.maxOrder
                 (Organization.stages organization)))).
  exists added,
    (Organization.set_stages (Organization.stages organization ++ [added])
       organization).
  eexists. split.
  - unfold SettingsRouter.postStage, SettingsRouter.isAdmin,
      handleValidationErrors, check, notEmpty.
    rewrite Hadmin, Hid, Htitle.
    destruct (String.eqb_spec id ""); [contradiction|].
    destruct (String.eqb_spec title ""); [contradiction|]. simpl.
    unfold tryCatch, bind, SettingsRouter.findById. rewrite Horg.
    replace (existsb (OrganizationMethods.sameId (VStr id))
               (Organization.stages organization)) with false.
    + rewrite Hcolor. reflexivity.
    + symmetry. destruct (existsb _ _) eqn:E; [|reflexivity].
      exfalso. apply Hnew. apply existsb_exists in E.
      destruct E as (s & Hin & Hs). simpl in Hs. apply String.eqb_eq in Hs.
      rewrite <- Hs. now apply in_map.
  - simpl. split; [now apply find_replaceOrg with (o := organization)|].
    repeat split; trivial.
    + intros s m Hin Hs.
      destruct (maxOrder_bounds (Organization.stages organization)
                  Stage.MinusInfinity m) as (M & HM & Hle);
        [right; now exists s|].
      unfold OrganizationMethods.maxOrder. rewrite HM. simpl.
      exists (M + 1). split; [reflexivity | lia].
    + intros Hnd. rewrite map_app. simpl.
      apply NoDup_app; [exact Hnd | repeat constructor; simpl; tauto |].
      intros x Hx [<-|[]]. contradiction.
Qed.

Lemma updateFound_cons (id : string) (f : Stage.t -> Stage.t) (x : Stage.t)
    (r : list Stage.t) :
  SettingsRouter.updateFound id f (x :: r)
  = if SettingsRouter.hasId id x then f x :: r
    else x :: SettingsRouter.updateFound id f r.
Proof.
  unfold SettingsRouter.updateFound. simpl.
  destruct (SettingsRouter.hasId id x); [reflexivity|].
  destruct (findIndex (SettingsRouter.hasId id) r); reflexivity.
Qed.

Lemma updateFound_other (id : string) (f : Stage.t -> Stage.t)
    (l : list Stage.t) :
  forall n s,
    nth_error l n = Some s -> SettingsRouter.hasId id s = false ->
    nth_error (SettingsRouter.updateFound id f l) n = Some s.
Proof.
  induction l as [|x r IH]; intros n s Hn Hs; [now destruct n|].
  rewrite updateFound_cons.
  destruct (SettingsRouter.hasId id x) eqn:Ex; destruct n as [|n]; simpl in *;
    trivial.
  - inversion Hn; subst. congruence.
  - now apply IH.
Qed.

Lemma updateFound_map {B : Type} (id : string) (f : Stage.t -> Stage.t)
    (h : Stage.t -> B) (l : list Stage.t) :
  (forall s, h (f s) = h s) ->
  map h (SettingsRouter.updateFound id f l) = map h l.
Proof.
  intros Hf. induction l as [|x r IH]; [reflexivity|].
  rewrite updateFound_cons. destruct (SettingsRouter.hasId id x); simpl.
  - now rewrite Hf.
  - now rewrite IH.
Qed.

Lemma updateFound_find (id : string) (f : Stage.t -> Stage.t)
    (l : list Stage.t) :
  (forall s, Stage.id (f s) = Stage.id s) ->
  find (SettingsRouter.hasId id) (SettingsRouter.updateFound id f l)
  = option_map f (find (SettingsRouter.hasId id) l).
Proof.
  intros Hf. induction l as [|x r IH]; [reflexivity|].
  rewrite updateFound_cons.
  destruct (SettingsRouter.hasId id x) eqn:Ex; simpl.
  - unfold SettingsRouter.hasId in *. now rewrite Hf, Ex.
  - now rewrite Ex.
Qed.

Lemma assignWhenTruthy_field (body : list (string * Value)) (key : string)
    (given : option string) (set : string -> Stage.t -> Stage.t) :
  Cast.field Cast.string_ body key = Some given ->
  exists g,
    SettingsRouter.assignWhenTruthy (getField body key) set = Some g
    /\ forall s, g s = whenGiven given set s.
Proof.
  unfold Cast.field, SettingsRouter.assignWhenTruthy, whenGiven.
  destruct (getField body key) as [[| | |t| |]|]; simpl; intros H;
    inversion H; subst; try (now eexists; split; [reflexivity|]).
  destruct (String.eqb t ""); simpl; eexists; split; reflexivity.
Qed.

(** X14.  An administrator's update of a stage that is not core answers
    200 and changes nothing but the title and the colour of that stage: a
    non-empty string in the body replaces the value, an empty, null or
    absent one leaves it.  The id, the core flag and the order of every
    stage, and every other stage as a whole, stay as they were. *)
Theorem stage_update_changes_title_and_colour_only
    (req : Request.t) (db : Db) (organization : Organization.t)
    (stage : Stage.t) (title color : option string) :
  User.isAdmin (Request.user req) = true ->
  find (fun o => String.eqb (Organization._id o) (Request.organization req))
    (organizations db) = Some organization ->
  find (SettingsRouter.hasId (Request.param req "id"))
    (Organization.stages organization) = Some stage ->
  Stage.isCore stage = false ->
  Cast.field Cast.string_ (Request.body req) "title" = Some title ->
  Cast.field Cast.string_ (Request.body req) "color" = Some color ->
  exists organization' db',
    SettingsRouter.putStage req db
    = (Response.okWith (Some "مرحله به‌روزرسانی شد")
         (Response.StagesData (Organization.stages organization')), db')
    /\ find (fun o => String.eqb (Organization._id o)
                        (Request.organization req))
         (organizations db') = Some organization'
    /\ candidates db' = candidates db
    /\ find (SettingsRouter.hasId (Request.param req "id"))
         (Organization.stages organization')
       = Some (whenGiven color (fun c => Stage.set_color (Some c))
                 (whenGiven title Stage.set_title stage))
    /\ map (fun s => (Stage.id s, Stage.isCore s, Stage.order s))
         (Organization.stages organization')
       = map (fun s => (Stage.id s, Stage.isCore s, Stage.order s))
           (Organization.stages organization)
    /\ (forall n s,
          nth_error (Organization.stages organization) n = Some s ->
          SettingsRouter.hasId (Request.param req "id") s = false ->
          nth_error (Organization.stages organization') n = Some s).
Proof.
  intros Hadmin Horg Hstage Hcore Htitle Hcolor.
  destruct (assignWhenTruthy_field _ _ _ Stage.set_title Htitle)
    as (gt & Hgt & Egt).
  destruct (assignWhenTruthy_field _ _ _ (fun c => Stage.set_color (Some c))
              Hcolor) as (gc & Hgc & Egc).
  assert (Hid : forall s, Stage.id (gc (gt s)) = Stage.id s).
  { intros s. rewrite Egc, Egt. unfold whenGiven.
    destruct color as [c|], title as [t|]; simpl;
      repeat match goal with |- context [String.eqb ?a ""] =>
               destruct (String.eqb a "") end; reflexivity. }
  assert (Hkeep : forall s, (Stage.id (gc (gt s)), Stage.isCore (gc (gt s)),
                             Stage.order (gc (gt s)))
                            = (Stage.id s, Stage.isCore s, Stage.order s)).
  { intros s. rewrite Egc, Egt. unfold whenGiven.
    destruct color as [c|], title as [t|]; simpl;
      repeat match goal with |- context [String.eqb ?a ""] =>
               destruct (String.eqb a "") end; reflexivity. }
  exists (Organization.set_stages
            (SettingsRouter.updateFound (Request.param req "id")
               (fun s => gc (gt s)) (Organization.stages organization))
            organization).
  eexists. split.
  - unfold SettingsRouter.putStage, SettingsRouter.isAdmin, tryCatch, bind,
      SettingsRouter.findById.
    rewrite Hadmin, Horg, Hstage, Hcore, Hgt, Hgc. reflexivity.
  - simpl. split; [now apply find_replaceOrg with (o := organization)|].
    split; [reflexivity|]. split; [|split].
    + rewrite updateFound_find, Hstage by exact Hid. simpl.
      now rewrite Egc, Egt.
    + now apply updateFound_map.
    + intros n s. apply updateFound_other.
Qed.


Lemma same_id_same_stage (l : list Stage.t) (a b : Stage.t) :
  NoDup (map Stage.id l) -> In a l -> In b l -> Stage.id a = Stage.id b ->
  a = b.
Proof.
  induction l as [|x r IH]; simpl; intros Hnd Ha Hb E; [contradiction|].
  inversion Hnd as [|? ? Hn Hr]; subst.
  destruct Ha as [->|Ha], Hb as [->|Hb]; trivial.
  - exfalso. apply Hn. rewrite E. now apply in_map.
  - exfalso. apply Hn. rewrite <- E. now apply in_map.
  - now apply IH.
Qed.




Lemma In_replaceOrg (x o : Organization.t) (l : list Organization.t) :
  In x (OrganizationMethods.replaceById o l) -> x = o \/ In x l.
Proof.
  unfold OrganizationMethods.replaceById. rewrite in_map_iff.
  intros (d & E & Hin).
  destruct (String.eqb (Organization._id d) (Organization._id o));
    [left; now symmetry | right; now subst].
Qed.


(** ** Reads *)

Lemma ofTenant_organization (org : ObjectId) (c : Candidate.t) :
  CandidatesRouter.ofTenant org c = true ->
  Candidate.organization c = Some org.
Proof.
  unfold CandidatesRouter.ofTenant.
  destruct (Candidate.organization c) as [o|]; [|discriminate].
  intros H. apply String.eqb_eq in H. now subst.
Qed.

(** X16.  The two read routes change nothing, and never show a candidate
    of another tenant: every candidate in a list answer, and the candidate
    of a [get] answer, is a stored candidate of the caller's tenant.  The
    list shows archived candidates when [archived] is exactly ["true"], and
    only then, and in that case nothing but archived ones. *)
Theorem reads_stay_within_the_tenant
    (compileRegex : string -> option (string -> bool))
    (req : Request.t) (db : Db) :
  snd (CandidatesRouter.getCandidates compileRegex req db) = db
  /\ snd (CandidatesRouter.getCandidate req db) = db
  /\ (forall shown total page pages c,
        Response.data (fst (CandidatesRouter.getCandidates compileRegex req db))
        = Response.ListData shown total page pages ->
        In c shown ->
        In c (candidates db)
        /\ Candidate.organization c = Some (Request.organization req)
        /\ (Candidate.isArchived c = true
            <-> Query.archived (Request.query req) = Some "true"))
  /\ (forall c,
        Response.data (fst (CandidatesRouter.getCandidate req db))
        = Response.CandidateData c ->
        In c (candidates db)
        /\ Candidate.organization c = Some (Request.organization req)
        /\ Candidate._id c = Request.param req "id").
Proof.
  split; [|split; [|split]].
  - destruct (getCandidates_run compileRegex req db)
      as [->|(sorted & shown & _ & _ & ->)]; reflexivity.
  - unfold CandidatesRouter.getCandidate, tryCatch, bind.
    rewrite findOne_run. now destruct (find _ _).
  - intros shown total page pages c.
    destruct (getCandidates_run compileRegex req db)
      as [->|(sorted & shown' & Hperm & Hpage & ->)]; simpl;
      [discriminate|].
    intros H Hin. inversion H; subst; clear H.
    apply (paginate_In _ _ _ _ _ Hpage) in Hin.
    apply (Permutation_in _ Hperm) in Hin.
    apply filter_In in Hin. destruct Hin as [Hin Hsat].
    split; [exact Hin|].
    unfold satisfies, CandidatesRouter.plainConditions in Hsat.
    repeat (apply andb_prop in Hsat; destruct Hsat as [Hsat ?]).
    split; [now apply ofTenant_organization|].
    match goal with
    | H : Bool.eqb _ _ = true |- _ => apply Bool.eqb_prop in H; rewrite H
    end.
    simpl. destruct (Query.archived (Request.query req)) as [a|].
    + rewrite String.eqb_eq. split; [now intros ->|now intros [= ->]].
    + split; discriminate.
  - intros c. unfold CandidatesRouter.getCandidate, tryCatch, bind.
    rewrite findOne_run.
    destruct (find _ _) as [c0|] eqn:E; simpl; [|discriminate].
    intros [= ->]. destruct (found_in _ _ _ _ E) as [Hin Hid].
    destruct (find_selects _ _ _ _ E) as [_ Ht].
    split; [exact Hin|]. split; [now apply ofTenant_organization|exact Hid].
Qed.

(** ** The comment route *)

(** X17.  A comment with a non-empty text on a candidate of the caller's
    tenant answers 200 with the stored candidate: one comment is added at
    the end, signed with the caller's name (the username when the name is
    empty) and dated now.  No history entry is written and no other path
    but [updatedAt] changes.  A text that is absent, null or empty is
    answered 400 and nothing is stored. *)
Theorem comment_is_appended_without_history_entry
    (req : Request.t) (db : Db) (c : Candidate.t) (text : string) :
  find (CandidatesRouter.selects (Request.param req "id")
          (Request.organization req)) (candidates db) = Some c ->
  getField (Request.body req) "text" = Some (VStr text) ->
  (text <> "" ->
   exists c' db',
     CandidatesRouter.postComment req db
     = (Response.okWith (Some "یادداشت اضافه شد")
          (Response.CandidateData c'), db')
     /\ find (CandidatesRouter.selects (Request.param req "id")
                (Request.organization req)) (candidates db') = Some c'
     /\ c' = Candidate.set_updatedAt (Request.now req)
               (Candidate.set_comments
                  (Candidate.comments c
                     ++ [Comment.mk (User.nameOrUsername (Request.user req))
                           text (Request.now req)]) c)
     /\ Candidate.history c' = Candidate.history c
     /\ List.length (Candidate.comments c')
        = S (List.length (Candidate.comments c)))
  /\ (text = "" ->
      CandidatesRouter.postComment req db
      = (Response.mk 400 false None Response.NoData
           [("text", "متن یادداشت الزامی است")], db)).
Proof.
  intros Hfind Htext. split.
  - intros Hne.
    unfold CandidatesRouter.postComment, handleValidationErrors, check.
    rewrite Htext. unfold notEmpty.
    destruct (String.eqb text "") eqn:E;
      [apply String.eqb_eq in E; contradiction|].
    cbv beta iota delta [negb].
    unfold tryCatch, bind. rewrite findOne_run, Hfind.
    unfold CandidateMethods.addComment.
    destruct (stored_after_save req db c
                (Candidate.set_comments
                   (Candidate.comments c
                      ++ [Comment.mk (User.nameOrUsername (Request.user req))
                            text (Request.now req)]) c)
                (Request.now req) Hfind eq_refl eq_refl)
      as (db' & Hsave & _ & Hstored).
    rewrite Hsave. simpl. eexists _, db'. split; [reflexivity|].
    split; [exact Hstored|]. split; [reflexivity|]. split; [reflexivity|].
    simpl. rewrite length_app. simpl. lia.
  - intros ->.
    unfold CandidatesRouter.postComment, handleValidationErrors, check.
    rewrite Htext. reflexivity.
Qed.

(** ** Uploads *)





Lemma save_stored (id org : ObjectId) (db : Db) (c c' : Candidate.t)
    (now : Date) :
  find (CandidatesRouter.selects id org) (candidates db) = Some c ->
  Candidate._id c' = Candidate._id c ->
  Candidate.organization c' = Candidate.organization c ->
  exists db',
    CandidateMethods.save now c' db
    = (Done (Candidate.set_updatedAt now c'), db')
    /\ organizations db' = organizations db
    /\ find (CandidatesRouter.selects id org) (candidates db')
       = Some (Candidate.set_updatedAt now c').
Proof.
  intros Hfind Hid Horg.
  destruct (find_selects _ _ _ _ Hfind) as [Hc Ht].
  assert (Ht' : CandidatesRouter.ofTenant org c' = true).
  { unfold CandidatesRouter.ofTenant in *. now rewrite Horg. }
  eexists. split; [apply save_run; eapply ofTenant_preSave; eassumption|].
  split; [reflexivity|]. simpl.
  apply find_replaceById with (c := c); simpl; trivial.
  unfold CandidatesRouter.selects. simpl.
  rewrite Hid, Hc, String.eqb_refl. exact Ht'.
Qed.

(** X19.  A resume upload for a candidate of the caller's tenant marks the
    candidate as having a resume under [/uploads/<tenant>/<file>]; a
    delete of type [resume] for the same candidate then clears the mark and
    the URL, and leaves the candidate as it was before the upload in every
    other path but [updatedAt]. *)
Theorem resume_upload_then_delete_restores_candidate
    (up del : Request.t) (db : Db) (c : Candidate.t) (file : Upload.t) :
  Request.file up = Some file ->
  find (CandidatesRouter.selects (Request.param up "candidateId")
          (Request.organization up)) (candidates db) = Some c ->
  Request.organization del = Request.organization up ->
  Request.param del "candidateId" = Request.param up "candidateId" ->
  Request.param del "type" = "resume" ->
  let resumeUrl :=
    ("/uploads/" ++ Request.organization up ++ "/"
       ++ Upload.filename file)%string in
  exists db1 db2 c1,
    FilesRouter.postResume up db
    = (Response.okWith (Some "رزومه با موفقیت آپلود شد")
         (Response.UrlData resumeUrl), db1)
    /\ find (CandidatesRouter.selects (Request.param up "candidateId")
               (Request.organization up)) (candidates db1) = Some c1
    /\ Candidate.hasResume c1 = true
    /\ Candidate.resumeUrl c1 = Some resumeUrl
    /\ FilesRouter.deleteFile del db1
       = (Response.okWith (Some "فایل حذف شد") Response.NoData, db2)
    /\ find (CandidatesRouter.selects (Request.param up "candidateId")
               (Request.organization up)) (candidates db2)
       = Some (Candidate.set_updatedAt (Request.now del)
                 (Candidate.set_resumeUrl None
                    (Candidate.set_hasResume false c))).
Proof.
  intros Hfile Hfind Horg Hid Htype resumeUrl.
  destruct (save_stored _ _ db c
              (Candidate.set_resumeUrl (Some resumeUrl)
                 (Candidate.set_hasResume true c))
              (Request.now up) Hfind eq_refl eq_refl)
    as (db1 & Hsave1 & _ & Hstored1).
  destruct (save_stored _ _ db1 _
              (Candidate.set_resumeUrl None
                 (Candidate.set_hasResume false
                    (Candidate.set_updatedAt (Request.now up)
                       (Candidate.set_resumeUrl (Some resumeUrl)
                          (Candidate.set_hasResume true c)))))
              (Request.now del) Hstored1 eq_refl eq_refl)
    as (db2 & Hsave2 & _ & Hstored2).
  exists db1, db2. eexists. split; [|split; [exact Hstored1|]].
  - unfold FilesRouter.postResume, tryCatch, bind.
    rewrite Hfile, findOne_run, Hfind. fold resumeUrl.
    now rewrite Hsave1.
  - split; [reflexivity|]. split; [reflexivity|]. split.
    + unfold FilesRouter.deleteFile, tryCatch, bind.
      rewrite Horg, Hid, findOne_run, Hstored1, Htype.
      replace (String.eqb "resume" "resume" && _) with true by reflexivity.
      now rewrite Hsave2.
    + exact Hstored2.
Qed.

(** X20.  A delete on the files router for a candidate of the caller's
    tenant answers 200 "file deleted" and stores nothing when the type in
    the path is anything but [resume] (a test result, an image), or when
    the candidate has no resume URL. *)
Theorem delete_of_another_file_type_deletes_nothing
    (req : Request.t) (db : Db) (c : Candidate.t) :
  find (CandidatesRouter.selects (Request.param req "candidateId")
          (Request.organization req)) (candidates db) = Some c ->
  Request.param req "type" <> "resume" \/ FilesRouter.hasUrl c = false ->
  FilesRouter.deleteFile req db
  = (Response.okWith (Some "فایل حذف شد") Response.NoData, db).
Proof.
  intros Hfind H. unfold FilesRouter.deleteFile, tryCatch, bind.
  rewrite findOne_run, Hfind.
  destruct H as [H|H].
  - apply String.eqb_neq in H. now rewrite H.
  - rewrite H, andb_false_r. reflexivity.
Qed.

(** X21.  The upload filter reads the kind of file off the path on which
    the router is mounted, not off the route.  On a mount path that holds
    neither [resume] nor [image], and [/api/files] is one, it accepts
    [application/pdf] and nothing else, for every route of the router. *)
Theorem upload_filter_accepts_only_pdf_on_the_mount_path
    (baseUrl mimetype : string) :
  includes "resume" baseUrl = false ->
  includes "image" baseUrl = false ->
  (FilesRouter.fileFilter baseUrl mimetype = true
   <-> mimetype = "application/pdf")
  /\ includes "resume" FilesRouter.mountPath = false
  /\ includes "image" FilesRouter.mountPath = false.
Proof.
  intros H1 H2. split; [|split; reflexivity].
  unfold FilesRouter.fileFilter, FilesRouter.fileTypeOf.
  rewrite H1, H2. simpl. rewrite orb_false_r. apply String.eqb_eq.
Qed.

(** ** Reordering the stages *)

Lemma nth_error_updateAt_other {A : Type} (g : A -> A) (l : list A) :
  forall p q, p <> q -> nth_error (updateAt p g l) q = nth_error l q.
Proof.
  induction l as [|x r IH]; intros [|p] [|q] H; simpl; trivial;
    [contradiction | apply IH; congruence].
Qed.

Lemma nth_error_updateAt_same {A : Type} (g : A -> A) (l : list A) :
  forall p x, nth_error l p = Some x ->
              nth_error (updateAt p g l) p = Some (g x).
Proof.
  induction l as [|y r IH]; intros [|p] x; simpl; try discriminate.
  - now intros [= ->].
  - apply IH.
Qed.

Lemma findIndex_some {A : Type} (f : A -> bool) (l : list A) (p : nat) :
  findIndex f l = Some p ->
  exists x, nth_error l p = Some x /\ find f l = Some x /\ f x = true.
Proof.
  intros H. pose proof (findIndex_find f l) as F. rewrite H in F.
  destruct F as [Hn Hs]. destruct (find f l) as [x|] eqn:E; [|congruence].
  exists x. split; [exact Hn|]. split; [reflexivity|].
  now apply find_some in E.
Qed.

Lemma findIndex_sameId_In (i : string) (l : list Stage.t) :
  In i (map Stage.id l) ->
  exists p s, findIndex (OrganizationMethods.sameId (VStr i)) l = Some p
              /\ nth_error l p = Some s
              /\ find (OrganizationMethods.sameId (VStr i)) l = Some s
              /\ Stage.id s = i.
Proof.
  intros Hin.
  destruct (findIndex (OrganizationMethods.sameId (VStr i)) l) as [p|] eqn:E.
  - destruct (findIndex_some _ _ _ E) as (s & Hn & Hf & Hs).
    exists p, s. repeat split; trivial. now apply String.eqb_eq in Hs.
  - exfalso. pose proof (findIndex_find (OrganizationMethods.sameId (VStr i)) l)
      as F. rewrite E in F.
    apply in_map_iff in Hin. destruct Hin as (s & <- & Hs).
    apply (find_none _ _ F) in Hs. simpl in Hs.
    now rewrite String.eqb_refl in Hs.
Qed.

(** The loop leaves alone a stage whose id is not in the rest of the
    array. *)
Lemma reorderLoop_keeps (stageIds : list Value) :
  forall (index : Z) (stages : list Stage.t) (refs : list nat) (q : nat)
         (s : Stage.t),
    nth_error stages q = Some s ->
    ~ In (VStr (Stage.id s)) stageIds ->
    nth_error (fst (OrganizationMethods.reorderLoop stageIds index stages refs))
      q = Some s.
Proof.
  induction stageIds as [|v rest IH]; intros index stages refs q s Hq Hn;
    simpl; [exact Hq|].
  destruct (findIndex (OrganizationMethods.sameId v) stages) as [p|] eqn:E.
  - apply IH; [|intros H; apply Hn; now right].
    rewrite nth_error_updateAt_other; [exact Hq|].
    intros ->. destruct (findIndex_some _ _ _ E) as (t & Ht & _ & Hs).
    rewrite Hq in Ht. inversion Ht; subst t.
    apply Hn. left. destruct v; simpl in Hs; try discriminate.
    apply String.eqb_eq in Hs. now subst.
  - apply IH; [exact Hq|]. intros H; apply Hn; now right.
Qed.

Lemma positions_sansOrder (stageIds : list Value) (l1 l2 : list Stage.t) :
  map sansOrder l1 = map sansOrder l2 ->
  positions stageIds l1 = positions stageIds l2.
Proof.
  intros H. unfold positions. induction stageIds as [|v rest IH]; simpl;
    [reflexivity|].
  now rewrite IH, (findIndex_sansOrder v l1 l2 H).
Qed.

Lemma map_id_sansOrder (l1 l2 : list Stage.t) :
  map sansOrder l1 = map sansOrder l2 -> map Stage.id l1 = map Stage.id l2.
Proof.
  intros H.
  assert (E : forall l, map Stage.id l
                        = map (fun x => fst (fst (fst x))) (map sansOrder l))
    by (intros l; rewrite map_map; reflexivity).
  now rewrite (E l1), (E l2), H.
Qed.

(** The orders that the loop leaves on the stages it pushes, for distinct
    ids that are all in the list. *)
Lemma reorderLoop_orders (ids : list string) :
  forall (index : Z) (stages : list Stage.t) (refs : list nat),
    NoDup ids ->
    (forall i, In i ids -> In i (map Stage.id stages)) ->
    map Stage.order
      (OrganizationMethods.deref
         (fst (OrganizationMethods.reorderLoop (map VStr ids) index stages
                 refs))
         (positions (map VStr ids) stages))
    = map (fun k => Stage.At (index + Z.of_nat k)) (seq 0 (List.length ids)).
Proof.
  induction ids as [|i rest IH]; intros index stages refs Hnd Hall;
    [reflexivity|].
  inversion Hnd as [|? ? Hni Hnd']; subst.
  destruct (findIndex_sameId_In i stages (Hall i (or_introl eq_refl)))
    as (p & s & Hp & Hs & _ & Hid).
  cbn [map OrganizationMethods.reorderLoop]. rewrite Hp.
  unfold positions. cbn [flat_map]. rewrite Hp. cbn [optionToList app].
  fold (positions (map VStr rest) stages).
  set (stages1 := updateAt p (Stage.set_order (Stage.At index)) stages).
  assert (Hsame : map sansOrder stages1 = map sansOrder stages)
    by apply map_sansOrder_updateAt.
  cbn [OrganizationMethods.deref flat_map].
  fold (OrganizationMethods.deref
          (fst (OrganizationMethods.reorderLoop (map VStr rest) (index + 1)
                  stages1 (refs ++ [p])))
          (positions (map VStr rest) stages)).
  rewrite (reorderLoop_keeps (map VStr rest) (index + 1) stages1 (refs ++ [p])
             p (Stage.set_order (Stage.At index) s)).
  - cbn [app map length seq]. f_equal.
    + simpl. f_equal. lia.
    + rewrite <- (positions_sansOrder _ _ _ Hsame).
      rewrite IH; trivial.
      * rewrite <- seq_shift, map_map. apply map_ext. intros k. f_equal. lia.
      * intros j Hj. rewrite (map_id_sansOrder _ _ Hsame). apply Hall.
        now right.
  - now apply nth_error_updateAt_same.
  - simpl. rewrite Hid. intros H. apply in_map_iff in H.
    destruct H as (j & [= ->] & Hj). contradiction.
Qed.

Lemma listed_all (ids : list string) (stages : list Stage.t) :
  (forall i, In i ids -> In i (map Stage.id stages)) ->
  map Stage.id (listed (map VStr ids) stages) = ids.
Proof.
  intros Hall. unfold listed. induction ids as [|i rest IH]; [reflexivity|].
  cbn [map flat_map].
  destruct (findIndex_sameId_In i stages (Hall i (or_introl eq_refl)))
    as (p & s & _ & _ & Hf & Hid).
  rewrite Hf. cbn [optionToList app map]. rewrite Hid. f_equal.
  apply IH. intros j Hj. apply Hall. now right.
Qed.

Lemma listed_own_ids (stages : list Stage.t) :
  NoDup (map Stage.id stages) ->
  listed (map VStr (map Stage.id stages)) stages = stages.
Proof.
  intros Hnd. unfold listed.
  assert (H : forall l,
             (forall s, In s l -> In s stages) ->
             flat_map
               (fun v => optionToList
                           (find (OrganizationMethods.sameId v) stages))
               (map VStr (map Stage.id l)) = l).
  { induction l as [|s r IH]; intros Hsub; [reflexivity|].
    cbn [map flat_map].
    assert (Hin : In (Stage.id s) (map Stage.id stages))
      by (apply in_map, Hsub; now left).
    destruct (findIndex_sameId_In _ _ Hin) as (p & t & _ & Hn & Hf & Hid).
    rewrite Hf. cbn [optionToList app]. f_equal.
    - apply (same_id_same_stage stages); trivial.
      + eapply nth_error_In, Hn.
      + apply Hsub. now left.
    - apply IH. intros x Hx. apply Hsub. now right. }
  apply H. trivial.
Qed.

(** X22.  Reordering with a list that names every stage of the tenant
    once, the ids of the tenant being distinct, loses no stage and changes
    none but in its order: the stored list has the stages in the order of
    the request, numbered 0, 1, 2, ..., and is a rearrangement of the list
    that was stored.  Candidates are not touched. *)
Theorem reorder_with_every_id_rearranges_the_stages
    (this : Organization.t) (ids : list string) (db : Db) :
  NoDup (map Stage.id (Organization.stages this)) ->
  Permutation ids (map Stage.id (Organization.stages this)) ->
  exists this' db',
    OrganizationMethods.reorderStages this (map VStr ids) db = (Done this', db')
    /\ map Stage.id (Organization.stages this') = ids
    /\ map Stage.order (Organization.stages this')
       = map (fun k => Stage.At (Z.of_nat k)) (seq 0 (List.length ids))
    /\ Permutation (map sansOrder (Organization.stages this'))
         (map sansOrder (Organization.stages this))
    /\ candidates db' = candidates db.
Proof.
  intros Hnd Hperm.
  assert (Hall : forall i, In i ids ->
                           In i (map Stage.id (Organization.stages this)))
    by (intros i; apply Permutation_in, Hperm).
  assert (Hnd' : NoDup ids)
    by (eapply Permutation_NoDup; [apply Permutation_sym, Hperm|exact Hnd]).
  destruct (reorderStages_run this (map VStr ids) db)
    as (this' & db' & Hrun & _ & Hsans & Hc & _).
  exists this', db'. split; [exact Hrun|].
  split; [|split; [|split; [|exact Hc]]].
  - rewrite (map_id_sansOrder _ _ Hsans). now apply listed_all.
  - unfold OrganizationMethods.reorderStages in Hrun.
    pose proof (reorderLoop_spec (map VStr ids) 0 (Organization.stages this)
                  []) as [_ Hrefs].
    pose proof (reorderLoop_orders ids 0 (Organization.stages this) [] Hnd'
                  Hall) as Hord.
    destruct (OrganizationMethods.reorderLoop (map VStr ids) 0
                (Organization.stages this) []) as [stages' refs] eqn:El.
    simpl in Hrefs, Hord. subst refs.
    unfold OrganizationMethods.save in Hrun. inversion Hrun; subst this'.
    simpl. exact Hord.
  - rewrite Hsans. rewrite <- (listed_own_ids _ Hnd) at 2.
    apply Permutation_map. unfold listed.
    apply Permutation_flat_map. apply Permutation_map. exact Hperm.
Qed.

(** ** Instances of the further properties on the sample data *)

Ltac distinct_strings :=
  repeat (constructor; [simpl; intuition discriminate|]); constructor.

Lemma created_candidate_witness :
  Response.statusCode
    (fst (CandidatesRouter.postCandidate Sample.hasAt Sample.createRequest
            (Sample.db [Sample.ali]))) = 201
  /\ exists c',
       candidates
         (snd (CandidatesRouter.postCandidate Sample.hasAt
                 Sample.createRequest (Sample.db [Sample.ali])))
       = [Sample.ali] ++ [c']
       /\ Candidate.organization c' = Some Sample.acme
       /\ Candidate.createdBy c' = Some "u1".
Proof.
  assert (H : Response.statusCode
                (fst (CandidatesRouter.postCandidate Sample.hasAt
                        Sample.createRequest (Sample.db [Sample.ali]))) = 201)
    by (vm_compute; reflexivity).
  split; [exact H|].
  destruct (created_candidate_belongs_to_the_caller Sample.hasAt
              Sample.createRequest (Sample.db [Sample.ali]) _ _
              (surjective_pairing _)) as [Hc _].
  destruct (Hc H) as (c' & _ & Hcs & _ & Ho & Hb & _).
  exists c'. split; [exact Hcs|]. split; [exact Ho | exact Hb].
Defined.




Lemma deleted_candidate_witness :
  NoDup (map Candidate._id [Sample.ali; Sample.abi])
  /\ exists db',
       CandidatesRouter.deleteCandidate (Sample.request "c1" [])
         (Sample.db [Sample.ali; Sample.abi])
       = (Response.okWith (Some "متقاضی حذف شد") Response.NoData, db')
       /\ CandidatesRouter.getCandidate (Sample.request "c1" []) db'
          = (CandidatesRouter.notFound, db').
Proof.
  assert (Hn : NoDup (map Candidate._id [Sample.ali; Sample.abi]))
    by distinct_strings.
  split; [exact Hn|].
  destruct (deleted_candidate_is_gone (Sample.request "c1" [])
              (Sample.db [Sample.ali; Sample.abi]) Sample.ali
              eq_refl Hn eq_refl) as (db' & Hrun & _ & _ & Hget).
  exists db'. split; [exact Hrun | exact Hget].
Defined.

Lemma member_is_refused_witness :
  User.isAdmin (Request.user (Sample.memberRequest "interview-2")) = false
  /\ SettingsRouter.deleteStage (Sample.memberRequest "interview-2")
       (Sample.db [Sample.ali])
     = (Response.failure 403 "دسترسی فقط برای مدیران", Sample.db [Sample.ali]).
Proof.
  split; [reflexivity|].
  apply (admin_routes_refuse_other_users (Sample.memberRequest "interview-2")
           (Sample.db [Sample.ali]) eq_refl).
  simpl. tauto.
Defined.

Lemma sort_order_witness :
  fst (CandidatesRouter.getCandidates DotPattern.compile
         (Sample.listRequest "name" "asc" 1)
         (Sample.db [Sample.ali; Sample.abi]))
  = Response.okWith None
      (Response.ListData [Sample.abi; Sample.ali] 2 1 (Some 1))
  /\ Sorted
       (fun a b =>
          Sorting.inOrder "name"
            (directionOf (Sample.listRequest "name" "asc" 1)) a b = true)
       [Sample.abi; Sample.ali].
Proof.
  assert (H : fst (CandidatesRouter.getCandidates DotPattern.compile
                     (Sample.listRequest "name" "asc" 1)
                     (Sample.db [Sample.ali; Sample.abi]))
              = Response.okWith None
                  (Response.ListData [Sample.abi; Sample.ali] 2 1 (Some 1)))
    by (vm_compute; reflexivity).
  split; [exact H|].
  exact (proj1 (list_is_in_sort_order DotPattern.compile
                  (Sample.listRequest "name" "asc" 1)
                  (Sample.db [Sample.ali; Sample.abi])
                  [Sample.abi; Sample.ali] 2 1 (Some 1) H)).
Defined.


Lemma page_zero_witness :
  (CandidatesRouter.orDefault
     (Query.page (Request.query (Sample.listRequest "name" "asc" 0))) 1 - 1)
  * CandidatesRouter.orDefault
      (Query.limit (Request.query (Sample.listRequest "name" "asc" 0))) 50 < 0
  /\ CandidatesRouter.getCandidates DotPattern.compile
       (Sample.listRequest "name" "asc" 0) (Sample.db [Sample.ali])
     = (Response.failure 500 "خطا در دریافت لیست متقاضیان",
        Sample.db [Sample.ali]).
Proof.
  assert (H : (CandidatesRouter.orDefault
                 (Query.page
                    (Request.query (Sample.listRequest "name" "asc" 0))) 1 - 1)
              * CandidatesRouter.orDefault
                  (Query.limit
                     (Request.query (Sample.listRequest "name" "asc" 0))) 50
              < 0)
    by (simpl; lia).
  split; [exact H|].
  apply (list_fails_on_refused_pattern_and_negative_skip DotPattern.compile
           (Sample.listRequest "name" "asc" 0) (Sample.db [Sample.ali])).
  right. exact H.
Defined.

Lemma added_stage_witness :
  ~ In "onsite" (map Stage.id (Organization.stages Sample.org))
  /\ exists added organization' db',
       SettingsRouter.postStage
         (Sample.request ""
            [("id", VStr "onsite"); ("title", VStr "Onsite");
             ("isCore", VBool true)])
         (Sample.db [Sample.ali])
       = (Response.okWith (Some "مرحله جدید اضافه شد")
            (Response.StagesData (Organization.stages organization')), db')
       /\ Organization.stages organization'
          = Organization.stages Sample.org ++ [added]
       /\ Stage.id added = "onsite"
       /\ Stage.isCore added = false.
Proof.
  assert (Hn : ~ In "onsite" (map Stage.id (Organization.stages Sample.org)))
    by (simpl; intuition discriminate).
  split; [exact Hn|].
  destruct (added_stage_is_last_and_not_core
              (Sample.request ""
                 [("id", VStr "onsite"); ("title", VStr "Onsite");
                  ("isCore", VBool true)])
              (Sample.db [Sample.ali]) Sample.org "onsite" "Onsite" None
              eq_refl eq_refl eq_refl ltac:(discriminate) eq_refl
              ltac:(discriminate) eq_refl Hn)
    as (added & organization' & db' & Hrun & _ & Hst & Hid & _ & _ & Hcore & _).
  exists added, organization', db'.
  split; [exact Hrun|]. split; [exact Hst|]. split; [exact Hid | exact Hcore].
Defined.

Lemma stage_update_witness :
  Stage.isCore (Stage.mk "interview-2" "مصاحبه دوم" false None (Stage.At 3))
  = false
  /\ exists organization' db',
       SettingsRouter.putStage
         (Sample.request "interview-2"
            [("title", VStr "Second"); ("isCore", VBool true)])
         (Sample.db [Sample.ali])
       = (Response.okWith (Some "مرحله به‌روزرسانی شد")
            (Response.StagesData (Organization.stages organization')), db')
       /\ find (SettingsRouter.hasId "interview-2")
            (Organization.stages organization')
          = Some (Stage.mk "interview-2" "Second" false None (Stage.At 3)).
Proof.
  split; [reflexivity|].
  destruct (stage_update_changes_title_and_colour_only
              (Sample.request "interview-2"
                 [("title", VStr "Second"); ("isCore", VBool true)])
              (Sample.db [Sample.ali]) Sample.org
              (Stage.mk "interview-2" "مصاحبه دوم" false None (Stage.At 3))
              (Some "Second") None
              eq_refl eq_refl eq_refl eq_refl eq_refl eq_refl)
    as (organization' & db' & Hrun & _ & _ & Hst & _).
  exists organization', db'. split; [exact Hrun | exact Hst].
Defined.


Lemma reads_witness :
  Response.data
    (fst (CandidatesRouter.getCandidates DotPattern.compile
            (Sample.searchRequest "ali")
            (Sample.db [Sample.ali; Sample.abi;
                        Candidate.set_organization (Some Sample.other)
                          Sample.ali])))
  = Response.ListData [Sample.ali] 1 1 (Some 1)
  /\ Candidate.organization Sample.ali = Some Sample.acme.
Proof.
  assert (H : Response.data
                (fst (CandidatesRouter.getCandidates DotPattern.compile
                        (Sample.searchRequest "ali")
                        (Sample.db [Sample.ali; Sample.abi;
                                    Candidate.set_organization
                                      (Some Sample.other) Sample.ali])))
              = Response.ListData [Sample.ali] 1 1 (Some 1))
    by (vm_compute; reflexivity).
  split; [exact H|].
  destruct (reads_stay_within_the_tenant DotPattern.compile
              (Sample.searchRequest "ali")
              (Sample.db [Sample.ali; Sample.abi;
                          Candidate.set_organization (Some Sample.other)
                            Sample.ali])) as (_ & _ & Hlist & _).
  exact (proj1 (proj2 (Hlist [Sample.ali] 1 1 (Some 1) Sample.ali H
                         (or_introl eq_refl)))).
Defined.

Lemma comment_witness :
  "Strong" <> ""
  /\ exists c' db',
       CandidatesRouter.postComment
         (Sample.request "c1" [("text", VStr "Strong")])
         (Sample.db [Sample.ali])
       = (Response.okWith (Some "یادداشت اضافه شد")
            (Response.CandidateData c'), db')
       /\ Candidate.comments c' = [Comment.mk "Sara" "Strong" 200]
       /\ Candidate.history c' = Candidate.history Sample.ali.
Proof.
  assert (Hne : "Strong" <> "") by discriminate.
  split; [exact Hne|].
  destruct (comment_is_appended_without_history_entry
              (Sample.request "c1" [("text", VStr "Strong")])
              (Sample.db [Sample.ali]) Sample.ali "Strong" eq_refl eq_refl)
    as [Hok _].
  destruct (Hok Hne) as (c' & db' & Hrun & _ & Hc & Hh & _).
  exists c', db'. split; [exact Hrun|]. split; [now rewrite Hc | exact Hh].
Defined.


Lemma resume_round_trip_witness :
  Request.param (Sample.deleteFileRequest "resume") "type" = "resume"
  /\ exists db1 db2,
       FilesRouter.postResume Sample.uploadRequest (Sample.db [Sample.ali])
       = (Response.okWith (Some "رزومه با موفقیت آپلود شد")
            (Response.UrlData "/uploads/org1/file-1.pdf"), db1)
       /\ FilesRouter.deleteFile (Sample.deleteFileRequest "resume") db1
          = (Response.okWith (Some "فایل حذف شد") Response.NoData, db2)
       /\ find (CandidatesRouter.selects "c1" Sample.acme) (candidates db2)
          = Some (Candidate.set_updatedAt 300 Sample.ali).
Proof.
  split; [reflexivity|].
  destruct (resume_upload_then_delete_restores_candidate Sample.uploadRequest
              (Sample.deleteFileRequest "resume") (Sample.db [Sample.ali])
              Sample.ali Sample.report eq_refl eq_refl eq_refl eq_refl eq_refl)
    as (db1 & db2 & c1 & Hup & _ & _ & _ & Hdel & Hst).
  exists db1, db2. split; [exact Hup|]. split; [exact Hdel | exact Hst].
Defined.

Lemma delete_image_witness :
  Request.param (Sample.deleteFileRequest "image") "type" <> "resume"
  /\ FilesRouter.deleteFile (Sample.deleteFileRequest "image")
       (Sample.db [Sample.ali])
     = (Response.okWith (Some "فایل حذف شد") Response.NoData,
        Sample.db [Sample.ali]).
Proof.
  assert (H : Request.param (Sample.deleteFileRequest "image") "type"
              <> "resume") by (simpl; discriminate).
  split; [exact H|].
  apply (delete_of_another_file_type_deletes_nothing
           (Sample.deleteFileRequest "image") (Sample.db [Sample.ali])
           Sample.ali eq_refl).
  left. exact H.
Defined.

Lemma upload_filter_witness :
  includes "resume" FilesRouter.mountPath = false
  /\ includes "image" FilesRouter.mountPath = false
  /\ FilesRouter.fileFilter FilesRouter.mountPath "application/pdf" = true
  /\ FilesRouter.fileFilter FilesRouter.mountPath "image/png" <> true.
Proof.
  split; [reflexivity|]. split; [reflexivity|]. split.
  - apply (proj1 (upload_filter_accepts_only_pdf_on_the_mount_path
                    FilesRouter.mountPath "application/pdf"
                    eq_refl eq_refl)).
    reflexivity.
  - intros H.
    apply (proj1 (upload_filter_accepts_only_pdf_on_the_mount_path
                    FilesRouter.mountPath "image/png" eq_refl eq_refl)) in H.
    discriminate H.
Defined.

Lemma reorder_witness :
  NoDup (map Stage.id (Organization.stages Sample.org))
  /\ Permutation (rev (map Stage.id (Organization.stages Sample.org)))
       (map Stage.id (Organization.stages Sample.org))
  /\ exists this' db',
       OrganizationMethods.reorderStages Sample.org
         (map VStr (rev (map Stage.id (Organization.stages Sample.org))))
         (Sample.db [Sample.ali])
       = (Done this', db')
       /\ map Stage.id (Organization.stages this')
          = rev (map Stage.id (Organization.stages Sample.org)).
Proof.
  assert (Hn : NoDup (map Stage.id (Organization.stages Sample.org)))
    by distinct_strings.
  assert (Hp : Permutation (rev (map Stage.id (Organization.stages Sample.org)))
                 (map Stage.id (Organization.stages Sample.org)))
    by apply Permutation_sym, Permutation_rev.
  split; [exact Hn|]. split; [exact Hp|].
  destruct (reorder_with_every_id_rearranges_the_stages Sample.org
              (rev (map Stage.id (Organization.stages Sample.org)))
              (Sample.db [Sample.ali]) Hn Hp)
    as (this' & db' & Hrun & Hids & _).
  exists this', db'. split; [exact Hrun | exact Hids].
Defined.
